(** * BaseDataHandler: a shallow embedding of [base_data_handler.py]

    The class wraps one pandas DataFrame ([self.__df]) and an optional
    source path ([self.file_path]).  The methods are one-liners over
    pandas, each [try_*] method wrapped in [try: ... except Exception].

    The embedding has three layers:
    - the data model: scalars, cells, frames (rows under named columns);
    - the pandas calls the class makes ([head], [tail], [sort_values],
      [reset_index], [fillna], [mean], [apply], [drop_duplicates],
      [dropna], [clip], [read_csv], [to_csv]) and Python's [str.replace],
      as pure functions that return a value or raise;
    - the methods of the class, in a state-and-exception monad over the
      handler object, the file system and standard output.

    Scope of the model.  A number is a rational (every finite float64 is
    one); what pandas computes with rounding, the mean, and what numpy
    leaves unspecified, the order of ties under its default sort, are
    taken from a parameter about which nothing is assumed.  A cell holds
    a number, a text or the missing marker, the row index is unnamed and
    single-level, column names are unique, and a file is represented by
    the cells its fields stand for. *)

From Stdlib Require Import String Ascii List ZArith QArith Bool Arith Lia.
From Stdlib Require Import DecimalString Sorted Permutation.
Import ListNotations.

Local Open Scope string_scope.
Local Open Scope Z_scope.

(** ** Data model *)

(** A Python scalar held in a cell: a number or a text. *)
Inductive scalar : Type :=
| Num (q : Q)
| Str (s : string).

(** A cell is a scalar or the missing marker (NaN / None). *)
Definition cell : Type := option scalar.

(** pandas decides what is numeric per column, from the column's dtype. *)
Inductive dtype : Type := Numeric | Object.

(** A row: its index label and one cell per column, in column order. *)
Record Row : Type := mkRow {
  label : scalar;
  values : list cell
}.

Record DataFrame : Type := mkDF {
  columns : list (string * dtype);
  rows : list Row
}.

Definition names (d : DataFrame) : list string := map fst (columns d).

Definition row_count (d : DataFrame) : nat := length (rows d).

(** Every row is as wide as the header, and column names are unique. *)
Definition well_formed (d : DataFrame) : Prop :=
  Forall (fun r => length (values r) = length (columns d)) (rows d)
  /\ NoDup (names d).

Definition isna (c : cell) : bool :=
  match c with None => true | Some _ => false end.

Definition notna (c : cell) : bool := negb (isna c).

(** Python's [==] on scalars; a number never equals a text. *)
Definition scalar_eqb (a b : scalar) : bool :=
  match a, b with
  | Num x, Num y => Qeq_bool x y
  | Str x, Str y => String.eqb x y
  | _, _ => false
  end.

(** Equality of cells as [duplicated] sees it: two missing cells agree. *)
Definition cell_eqb (a b : cell) : bool :=
  match a, b with
  | None, None => true
  | Some x, Some y => scalar_eqb x y
  | _, _ => false
  end.

Fixpoint cells_eqb (a b : list cell) : bool :=
  match a, b with
  | [], [] => true
  | x :: a', y :: b' => cell_eqb x y && cells_eqb a' b'
  | _, _ => false
  end.

Definition mem (s : string) (l : list string) : bool :=
  existsb (String.eqb s) l.

(** Position of a column name in the header. *)
Fixpoint position (c : string) (l : list string) : option nat :=
  match l with
  | [] => None
  | x :: l' =>
      if String.eqb c x then Some O
      else match position c l' with
           | Some n => Some (S n)
           | None => None
           end
  end.

(** The cell of row [r] at position [j]; missing when out of range. *)
Definition cell_at (j : nat) (r : Row) : cell := nth j (values r) None.

(** The cell of row [r] under column [c]. *)
Definition get (d : DataFrame) (c : string) (r : Row) : cell :=
  match position c (names d) with
  | Some j => cell_at j r
  | None => None
  end.

(** The cells of the column at position [j], top to bottom. *)
Definition column_at (j : nat) (rs : list Row) : list cell :=
  map (cell_at j) rs.

(** The default index of pandas: the labels 0, 1, ..., n-1. *)
Definition range_label (i : nat) : scalar := Num (inject_Z (Z.of_nat i)).

Fixpoint relabel_from (i : nat) (rs : list Row) : list Row :=
  match rs with
  | [] => []
  | r :: rs' => mkRow (range_label i) (values r) :: relabel_from (S i) rs'
  end.

(** ** Exceptions and outcomes *)

(** What the modelled calls raise.  [UserError] stands for whatever
    [Exception] a caller-supplied function raises; [SystemExit] and
    [KeyboardInterrupt] derive from [BaseException] only. *)
Inductive exn : Type :=
| AttributeError (msg : string)
| KeyError (key : string)
| ValueError (msg : string)
| TypeError (msg : string)
| FileNotFoundError (path : string)
| PermissionError (path : string)
| ParserError (msg : string)
| EmptyDataError (msg : string)
| UserError (msg : string)
| SystemExit (code : string)
| KeyboardInterrupt.

(** [isinstance(e, Exception)]. *)
Definition is_exception (e : exn) : bool :=
  match e with
  | SystemExit _ | KeyboardInterrupt => false
  | _ => true
  end.

(** What evaluating a Python expression gives: a value, or a raise. *)
Inductive outcome (A : Type) : Type :=
| Returns (a : A)
| Raises (e : exn).

Arguments Returns {A} a.
Arguments Raises {A} e.

Definition obind {A B : Type} (m : outcome A) (k : A -> outcome B) : outcome B :=
  match m with
  | Returns a => k a
  | Raises e => Raises e
  end.

(** First key of [keys] that is not a column, as pandas reports it. *)
Fixpoint first_unknown (keys cols : list string) : option string :=
  match keys with
  | [] => None
  | k :: keys' => if mem k cols then first_unknown keys' cols else Some k
  end.

(** ** Python slices and [head] / [tail] *)

(** Normalisation of one slice bound against a length (step 1): a negative
    bound counts from the end, and the result is clipped into [0, len]. *)
Definition slice_bound (len : nat) (b : Z) : nat :=
  let n := Z.of_nat len in
  let b' := if b <? 0 then b + n else b in
  Z.to_nat (Z.min (Z.max b' 0) n).

(** [l[start:stop]], an absent bound meaning the corresponding end. *)
Definition slice {A : Type} (start stop : option Z) (l : list A) : list A :=
  let len := length l in
  let lo := match start with Some b => slice_bound len b | None => O end in
  let hi := match stop with Some b => slice_bound len b | None => len end in
  firstn (hi - lo) (skipn lo l).

Definition iloc (start stop : option Z) (d : DataFrame) : DataFrame :=
  mkDF (columns d) (slice start stop (rows d)).

(** [DataFrame.head(n)] is [self.iloc[:n]]. *)
Definition head (d : DataFrame) (n : Z) : DataFrame :=
  iloc None (Some n) d.

(** [DataFrame.tail(n)] is [self.iloc[0:0]] when [n == 0], else
    [self.iloc[-n:]]. *)
Definition tail (d : DataFrame) (n : Z) : DataFrame :=
  if n =? 0 then iloc (Some 0) (Some 0) d else iloc (Some (- n)) None d.

(** ** The handler object and the monad of its methods *)

Record BaseDataHandler : Type := mkHandler {
  file_path : option string;
  (** [self.__df]; [None] while the attribute was never assigned. *)
  __df : option DataFrame
}.

(** The content of a delimited file: a header and records.  A field is
    held as the cell it stands for, not as its text. *)
Record CsvFile : Type := mkCsv {
  header : list string;
  records : list (list cell)
}.

Inductive FileContent : Type :=
| Csv (f : CsvFile)
| Garbage.

Record FileSystem : Type := mkFS {
  files : string -> option FileContent;
  writable : string -> bool
}.

Record World : Type := mkWorld {
  self : BaseDataHandler;
  fs : FileSystem;
  stdout : list string
}.

(** A method body: it may change the world, and returns or raises.  What
    it changed before a raise stays changed, as in Python. *)
Definition Py (A : Type) : Type := World -> World * outcome A.

Definition ret {A : Type} (a : A) : Py A := fun w => (w, Returns a).

Definition raise {A : Type} (e : exn) : Py A := fun w => (w, Raises e).

Definition bind {A B : Type} (m : Py A) (k : A -> Py B) : Py B :=
  fun w =>
    match m w with
    | (w', Returns a) => k a w'
    | (w', Raises e) => (w', Raises e)
    end.

Definition lift {A : Type} (o : outcome A) : Py A := fun w => (w, o).

(** [try: body except Exception as e: handler e]: a raise that is no
    [Exception] is not caught. *)
Definition try_except {A : Type} (body : Py A) (handler : exn -> Py A) : Py A :=
  fun w =>
    match body w with
    | (w', Returns a) => (w', Returns a)
    | (w', Raises e) =>
        if is_exception e then handler e w' else (w', Raises e)
    end.

Declare Scope py_scope.
Delimit Scope py_scope with py.
Notation "x <- m ;; k" := (bind m (fun x => k))
  (at level 61, m at next level, right associativity) : py_scope.
Notation "m ;;; k" := (bind m (fun _ => k))
  (at level 61, right associativity) : py_scope.
Local Open Scope py_scope.

(** The property [df]: reading [self.__df] raises while it is unset. *)
Definition df : Py DataFrame :=
  fun w =>
    match __df (self w) with
    | Some d => (w, Returns d)
    | None =>
        (w, Raises (AttributeError
          "'BaseDataHandler' object has no attribute '_BaseDataHandler__df'"))
    end.

(** The assignment [self.__df = d]. *)
Definition set_df (d : DataFrame) : Py unit :=
  fun w =>
    (mkWorld (mkHandler (file_path (self w)) (Some d)) (fs w) (stdout w),
     Returns tt).

Definition get_file_path : Py (option string) :=
  fun w => (w, Returns (file_path (self w))).

(** [get_lines]: the condition is evaluated first, then the chosen arm. *)
Definition get_lines (amount : Z) : Py DataFrame :=
  if amount >? 0
  then d <- df ;; ret (head d amount)
  else d <- df ;; ret (tail d amount).

(** ** pandas: [sort_values] and [reset_index] *)

(** What numpy and pandas leave open, or compute with rounding.
    [tie_rank l r] is the place numpy's default sort (quicksort, not
    stable) gives row [r] of its input [l] among the rows that tie with
    it; [float_mean xs] is the float64 mean pandas computes for the
    numbers [xs].  Nothing is assumed about either. *)
Class Numpy : Type := {
  tie_rank : list Row -> Row -> nat;
  float_mean : list Q -> Q
}.

(** The order of the keys of a sort: Python's [<] within numbers and
    within texts; across them, as pandas orders the values of a key that
    holds both when it sorts on several keys: numbers before texts. *)
Definition scalar_compare (a b : scalar) : comparison :=
  match a, b with
  | Num x, Num y => Qcompare x y
  | Str x, Str y => String.compare x y
  | Num _, Str _ => Lt
  | Str _, Num _ => Gt
  end.

(** One key: missing cells go last whatever the direction
    ([na_position='last']); present cells follow the direction. *)
Definition compare_cell (asc : bool) (a b : cell) : comparison :=
  match a, b with
  | None, None => Eq
  | None, Some _ => Gt
  | Some _, None => Lt
  | Some x, Some y => if asc then scalar_compare x y else scalar_compare y x
  end.

(** Several keys, as positions with their direction, the first one the
    most significant. *)
Fixpoint compare_rows (keys : list (nat * bool)) (r1 r2 : Row) : comparison :=
  match keys with
  | [] => Eq
  | (j, asc) :: keys' =>
      match compare_cell asc (cell_at j r1) (cell_at j r2) with
      | Eq => compare_rows keys' r1 r2
      | c => c
      end
  end.

Definition row_leb (keys : list (nat * bool)) (r1 r2 : Row) : bool :=
  match compare_rows keys r1 r2 with
  | Gt => false
  | _ => true
  end.

Fixpoint insert_row (keys : list (nat * bool)) (r : Row) (l : list Row) : list Row :=
  match l with
  | [] => [r]
  | y :: l' => if row_leb keys r y then r :: l else y :: insert_row keys r l'
  end.

(** The stable arrangement of the rows under the keys: rows that tie stay
    in input order.  This is how pandas sorts on several keys (lexsort). *)
Definition stable_sort (keys : list (nat * bool)) (l : list Row) : list Row :=
  fold_right (insert_row keys) [] l.

(** With one key pandas calls numpy's default sort, which is not stable:
    rows that tie on the key come out by their [tie_rank], and only rows
    that tie on that too stay in input order. *)
Definition rank_leb {np : Numpy} (input : list Row) (keys : list (nat * bool))
    (r1 r2 : Row) : bool :=
  match compare_rows keys r1 r2 with
  | Lt => true
  | Gt => false
  | Eq => Nat.leb (tie_rank input r1) (tie_rank input r2)
  end.

Fixpoint insert_ranked {np : Numpy} (input : list Row) (keys : list (nat * bool))
    (r : Row) (l : list Row) : list Row :=
  match l with
  | [] => [r]
  | y :: l' =>
      if rank_leb input keys r y then r :: l
      else y :: insert_ranked input keys r l'
  end.

Definition unstable_sort {np : Numpy} (keys : list (nat * bool)) (l : list Row)
  : list Row :=
  fold_right (insert_ranked l keys) [] l.

(** The [ascending] argument: one flag for all keys, or one per key. *)
Inductive ascending_arg : Type :=
| AscAll (b : bool)
| AscEach (bs : list bool).

Definition is_num (c : cell) : bool :=
  match c with Some (Num _) => true | _ => false end.

Definition is_str (c : cell) : bool :=
  match c with Some (Str _) => true | _ => false end.

(** A column that holds both numbers and texts: numpy cannot compare
    the two. *)
Definition mixed (cs : list cell) : bool :=
  existsb is_num cs && existsb is_str cs.

(** The keys of a call: every name of [by] with its position and flag.
    Checks in the order pandas makes them: the length of [ascending]
    against [by], then each name against the columns. *)
Fixpoint positions (by_ : list string) (cols : list string) : outcome (list nat) :=
  match by_ with
  | [] => Returns []
  | c :: by' =>
      match position c cols with
      | None => Raises (KeyError c)
      | Some j => obind (positions by' cols) (fun js => Returns (j :: js))
      end
  end.

Definition directions (n : nat) (ascending : ascending_arg) : outcome (list bool) :=
  match ascending with
  | AscAll b => Returns (repeat b n)
  | AscEach bs =>
      if Nat.eqb (length bs) n then Returns bs
      else Raises (ValueError "Length of ascending != length of by")
  end.

Definition sort_keys (d : DataFrame) (by_ : list string) (ascending : ascending_arg)
  : outcome (list (nat * bool)) :=
  obind (directions (length by_) ascending) (fun ds =>
  obind (positions by_ (names d)) (fun js =>
  Returns (combine js ds))).

(** [DataFrame.sort_values(by=by_, ascending=ascending)]: the rows move
    with their labels.  No key: the frame as it is.  One key: numpy's
    default sort, which raises on a column of numbers and texts.  Several
    keys: the stable lexsort. *)
Definition sort_values {np : Numpy} (d : DataFrame) (by_ : list string)
    (ascending : ascending_arg) : outcome DataFrame :=
  obind (sort_keys d by_ ascending) (fun keys =>
  match keys with
  | [] => Returns d
  | [k] =>
      if mixed (column_at (fst k) (rows d))
      then Raises (TypeError "'<' not supported between instances of 'str' and 'int'")
      else Returns (mkDF (columns d) (unstable_sort keys (rows d)))
  | _ => Returns (mkDF (columns d) (stable_sort keys (rows d)))
  end).

(** The dtype pandas infers for a new column from its cells. *)
Definition infer_dtype (cs : list cell) : dtype :=
  if existsb is_str cs then Object else Numeric.

(** The old label of each row becomes its first cell. *)
Definition label_to_cell (r : Row) : Row :=
  mkRow (label r) (Some (label r) :: values r).

(** [DataFrame.reset_index()]: the index is inserted as the first column,
    named "index", or "level_0" when a column "index" exists already; the
    insertion refuses a name that is taken; the rows get the default
    index. *)
Definition reset_index (d : DataFrame) : outcome DataFrame :=
  let name := if mem "index" (names d) then "level_0" else "index" in
  if mem name (names d)
  then Raises (ValueError ("cannot insert " ++ name ++ ", already exists"))
  else Returns
    (mkDF ((name, infer_dtype (map (fun r => Some (label r)) (rows d))) :: columns d)
          (relabel_from O (map label_to_cell (rows d)))).

(** ** pandas: [mean] and [fillna] *)

Fixpoint nums (cs : list cell) : list Q :=
  match cs with
  | [] => []
  | Some (Num q) :: cs' => q :: nums cs'
  | _ :: cs' => nums cs'
  end.

(** The mean of a column over its present numbers ([skipna=True]), as
    float arithmetic gives it; the missing marker when there are none. *)
Definition mean_cells {np : Numpy} (cs : list cell) : cell :=
  match nums cs with
  | [] => None
  | xs => Some (Num (float_mean xs))
  end.

(** A Series whose labels are column names. *)
Definition NamedSeries : Type := list (string * cell).

Fixpoint means_from {np : Numpy} (j : nat) (cols : list (string * dtype))
    (rs : list Row) : NamedSeries :=
  match cols with
  | [] => []
  | (c, Numeric) :: cols' => (c, mean_cells (column_at j rs)) :: means_from (S j) cols' rs
  | (_, Object) :: cols' => means_from (S j) cols' rs
  end.

(** [DataFrame.mean(numeric_only=True)]: one entry per numeric column. *)
Definition mean {np : Numpy} (d : DataFrame) : NamedSeries :=
  means_from O (columns d) (rows d).

Fixpoint series_lookup (c : string) (s : NamedSeries) : option cell :=
  match s with
  | [] => None
  | (k, v) :: s' => if String.eqb c k then Some v else series_lookup c s'
  end.

(** The argument of [fillna]: a scalar, or a Series of per-column values. *)
Inductive fill_value : Type :=
| FillScalar (s : scalar)
| FillSeries (s : NamedSeries).

(** What a missing cell of column [c] is filled with; a missing fill value
    leaves it missing, a column the Series does not list is not filled. *)
Definition fill_for (v : fill_value) (c : string) : cell :=
  match v with
  | FillScalar s => Some s
  | FillSeries s =>
      match series_lookup c s with
      | Some x => x
      | None => None
      end
  end.

Definition fill_cell (v : fill_value) (c : string) (x : cell) : cell :=
  match x with
  | Some _ => x
  | None => fill_for v c
  end.

(** Cell by cell along the header; cells beyond the header are kept. *)
Fixpoint map_cells (f : string -> cell -> cell) (cols : list string) (vs : list cell)
  : list cell :=
  match cols, vs with
  | c :: cols', x :: vs' => f c x :: map_cells f cols' vs'
  | _, _ => vs
  end.

Definition map_frame (f : string -> cell -> cell) (d : DataFrame) : DataFrame :=
  mkDF (columns d)
       (map (fun r => mkRow (label r) (map_cells f (names d) (values r))) (rows d)).

(** [DataFrame.fillna(v)]. *)
Definition fillna (d : DataFrame) (v : fill_value) : DataFrame :=
  map_frame (fill_cell v) d.

(** ** pandas: [drop_duplicates] and [dropna] *)

Fixpoint drop_seen (seen : list (list cell)) (rs : list Row) : list Row :=
  match rs with
  | [] => []
  | r :: rs' =>
      if existsb (cells_eqb (values r)) seen then drop_seen seen rs'
      else r :: drop_seen (values r :: seen) rs'
  end.

(** [DataFrame.drop_duplicates()]: the first of equal rows is kept, with
    its label; the comparison is over all columns, not the index. *)
Definition drop_duplicates (d : DataFrame) : DataFrame :=
  mkDF (columns d) (drop_seen [] (rows d)).

(** [DataFrame.dropna(subset=cols)]: rows with a missing cell under one of
    [cols] go; an unknown name raises. *)
Definition dropna_rows (d : DataFrame) (cols : list string) : outcome DataFrame :=
  match first_unknown cols (names d) with
  | Some c => Raises (KeyError c)
  | None =>
      Returns (mkDF (columns d)
        (filter (fun r => forallb (fun c => notna (get d c r)) cols) (rows d)))
  end.

Fixpoint filter_mask {A : Type} (mask : list bool) (l : list A) : list A :=
  match mask, l with
  | b :: mask', x :: l' => if b then x :: filter_mask mask' l' else filter_mask mask' l'
  | _, _ => []
  end.

(** Per column: does it hold a present cell in some row? *)
Definition present_mask (d : DataFrame) : list bool :=
  map (fun j => existsb notna (column_at j (rows d))) (seq O (length (columns d))).

(** [DataFrame.dropna(axis=1, how='all')]: a column stays when it counts a
    present cell. *)
Definition dropna_columns (d : DataFrame) : DataFrame :=
  let mask := present_mask d in
  mkDF (filter_mask mask (columns d))
       (map (fun r => mkRow (label r) (filter_mask mask (values r))) (rows d)).

(** ** pandas: [clip] *)

(** Two scalar bounds are put in order first. *)
Definition clip_bounds (lo hi : Q) : Q * Q :=
  if Qle_bool lo hi then (lo, hi) else (hi, lo).

Definition clip_Q (lo hi x : Q) : Q :=
  if Qle_bool lo x then (if Qle_bool x hi then x else hi) else lo.

Definition clip_cell (lo hi : Q) (x : cell) : cell :=
  match x with
  | Some (Num q) => Some (Num (clip_Q lo hi q))
  | _ => x
  end.

(** The dtype of column [c]; [Object] when there is none. *)
Fixpoint dtype_of (cols : list (string * dtype)) (c : string) : dtype :=
  match cols with
  | [] => Object
  | (x, ty) :: cols' => if String.eqb c x then ty else dtype_of cols' c
  end.

(** [d[cols]] for a list of names: the named columns, in the order and as
    often as they are listed; an unknown name raises. *)
Definition getitem (d : DataFrame) (cols : list string) : outcome DataFrame :=
  match first_unknown cols (names d) with
  | Some c => Raises (KeyError c)
  | None =>
      Returns (mkDF (map (fun c => (c, dtype_of (columns d) c)) cols)
        (map (fun r => mkRow (label r) (map (fun c => get d c r) cols)) (rows d)))
  end.

(** [d.clip(lo, hi)]: a text raises at the comparison, missing cells stay
    missing, the dtypes stay. *)
Definition clip (d : DataFrame) (lo hi : Q) : outcome DataFrame :=
  if existsb (fun r => existsb is_str (values r)) (rows d)
  then Raises (TypeError "'>=' not supported between instances of 'str' and 'int'")
  else
    let (lo', hi') := clip_bounds lo hi in
    Returns (mkDF (columns d)
      (map (fun r => mkRow (label r) (map (clip_cell lo' hi') (values r))) (rows d))).

Fixpoint count_name (k : string) (l : list string) : nat :=
  match l with
  | [] => O
  | x :: l' => if String.eqb k x then S (count_name k l') else count_name k l'
  end.

(** [value[k]] as the item assignment uses it: the cells of the column
    named [k]; a name that [value] has more than once selects a frame of
    several columns, which the one column [k] of the target refuses. *)
Definition value_column (value : DataFrame) (k : string) : outcome (list cell) :=
  if Nat.ltb 1 (count_name k (names value))
  then Raises (ValueError "Columns must be same length as key")
  else Returns (map (get value k) (rows value)).

(** [d[k] = cells] for an existing column [k], row by row; the dtype of
    the column is the one the cells come with, which [clip] has kept. *)
Definition assign_cells (d : DataFrame) (k : string) (cs : list cell) : DataFrame :=
  mkDF (columns d)
    (map (fun rc =>
            mkRow (label (fst rc))
              (map_cells (fun c x => if String.eqb c k then snd rc else x)
                 (names d) (values (fst rc))))
         (combine (rows d) cs)).

(** [d[keys] = value] for a list of names and a frame with those columns:
    pandas assigns [d[k] = value[k]] for one name after the other, in
    place.  The result is the frame as the loop leaves it, and how the
    loop ends: a raise keeps what was assigned before it. *)
Fixpoint setitem_array (keys : list string) (value d : DataFrame)
  : DataFrame * outcome unit :=
  match keys with
  | [] => (d, Returns tt)
  | k :: keys' =>
      match value_column value k with
      | Raises e => (d, Raises e)
      | Returns cs => setitem_array keys' value (assign_cells d k cs)
      end
  end.

(** ** pandas: [apply] and column assignment *)

(** What the function given to [apply] receives: a row (named by its
    label, its cells under the column names) or a column (named by the
    column, its cells under the row labels). *)
Record Series : Type := mkSeries {
  sname : scalar;
  items : list (scalar * cell)
}.

Definition row_series (d : DataFrame) (r : Row) : Series :=
  mkSeries (label r) (combine (map Str (names d)) (values r)).

Definition column_series (d : DataFrame) (j : nat) (c : string) : Series :=
  mkSeries (Str c) (map (fun r => (label r, cell_at j r)) (rows d)).

(** The function is called on one Series after the other; the first raise
    ends the run. *)
Fixpoint apply_each (f : Series -> outcome cell) (ss : list Series)
  : outcome (list cell) :=
  match ss with
  | [] => Returns []
  | s :: ss' =>
      obind (f s) (fun v =>
      obind (apply_each f ss') (fun vs => Returns (v :: vs)))
  end.

(** [DataFrame.apply(criteria, axis=axis)] for a function that returns a
    scalar: per row for axis 1 (labelled by the rows), per column for
    axis 0 (labelled by the column names).  On a frame without rows pandas
    probes the function once instead; the model runs it on no row. *)
Definition apply (d : DataFrame) (criteria : Series -> outcome cell) (axis : Z)
  : outcome (list (scalar * cell)) :=
  if axis =? 1 then
    obind (apply_each criteria (map (row_series d) (rows d))) (fun vs =>
    Returns (combine (map label (rows d)) vs))
  else if axis =? 0 then
    obind (apply_each criteria
             (map (fun jc => column_series d (fst jc) (snd jc))
                  (combine (seq O (length (columns d))) (names d)))) (fun vs =>
    Returns (combine (map Str (names d)) vs))
  else Raises (ValueError "No axis named for object type DataFrame").

Fixpoint labels_eqb (a b : list scalar) : bool :=
  match a, b with
  | [] , [] => true
  | x :: a', y :: b' => scalar_eqb x y && labels_eqb a' b'
  | _, _ => false
  end.

Fixpoint has_duplicate (l : list scalar) : bool :=
  match l with
  | [] => false
  | x :: l' => existsb (scalar_eqb x) l' || has_duplicate l'
  end.

Fixpoint label_lookup (l : scalar) (s : list (scalar * cell)) : cell :=
  match s with
  | [] => None
  | (k, v) :: s' => if scalar_eqb l k then v else label_lookup l s'
  end.

(** The cells a labelled result gives to the rows of [d]: as they come
    when the labels are those of [d]; else looked up by label, missing
    where there is none, refused when the result repeats a label. *)
Definition align (d : DataFrame) (s : list (scalar * cell)) : outcome (list cell) :=
  if labels_eqb (map fst s) (map label (rows d)) then Returns (map snd s)
  else if has_duplicate (map fst s)
  then Raises (ValueError "cannot reindex on an axis with duplicate labels")
  else Returns (map (fun r => label_lookup (label r) s) (rows d)).

Fixpoint replace_nth {A : Type} (j : nat) (x : A) (l : list A) : list A :=
  match j, l with
  | O, _ :: l' => x :: l'
  | S j', y :: l' => y :: replace_nth j' x l'
  | _, [] => []
  end.

(** [d[target] = s]: an existing column is overwritten in its place, a new
    one is added last. *)
Definition setitem (d : DataFrame) (target : string) (s : list (scalar * cell))
  : outcome DataFrame :=
  obind (align d s) (fun cs =>
  match position target (names d) with
  | Some j =>
      Returns (mkDF (replace_nth j (target, infer_dtype cs) (columns d))
        (map (fun rc => mkRow (label (fst rc)) (replace_nth j (snd rc) (values (fst rc))))
             (combine (rows d) cs)))
  | None =>
      Returns (mkDF (columns d ++ [(target, infer_dtype cs)])
        (map (fun rc => mkRow (label (fst rc)) (values (fst rc) ++ [snd rc]))
             (combine (rows d) cs)))
  end).

(** A [cols] argument typed [str | list[str]]; pandas reads a single name
    as the list of that name. *)
Inductive cols_arg : Type :=
| Col (c : string)
| Cols (cs : list string).

Definition as_list (a : cols_arg) : list string :=
  match a with
  | Col c => [c]
  | Cols cs => cs
  end.

(** ** pandas: [groupby] *)

(** What the rows are grouped by: columns of the frame, or values given
    one per row. *)
Inductive group_keys : Type :=
| ByColumns (cs : list string)
| ByValues (vs : list string).

(** The handle [d.groupby(by=...)[col]]: grouping is deferred. *)
Record GroupBy : Type := mkGroupBy {
  obj : DataFrame;
  keys : group_keys;
  selection : string
}.

(** How [groupby] reads [by]: a single name must be a column; an empty
    list is refused; a list of column names groups by those columns; a
    list that is as long as the frame and holds a name that is no column
    is taken as the group values of the rows; any other list raises on
    its first unknown name. *)
Definition grouper (d : DataFrame) (by_ : cols_arg) : outcome group_keys :=
  match by_ with
  | Col c => if mem c (names d) then Returns (ByColumns [c]) else Raises (KeyError c)
  | Cols [] => Raises (ValueError "No group keys passed!")
  | Cols cs =>
      match first_unknown cs (names d) with
      | None => Returns (ByColumns cs)
      | Some c =>
          if Nat.eqb (length cs) (length (rows d)) then Returns (ByValues cs)
          else Raises (KeyError c)
      end
  end.

Definition groupby_select (d : DataFrame) (by_ : cols_arg) (col : string)
  : outcome GroupBy :=
  obind (grouper d by_) (fun ks =>
  if mem col (names d) then Returns (mkGroupBy d ks col)
  else Raises (KeyError ("Column not found: " ++ col))).

(** ** Files: [read_csv] and [to_csv] *)

Definition nat_to_string (n : nat) : string :=
  NilEmpty.string_of_uint (Nat.to_uint n).

(** A blank name in the header is read as "Unnamed: j". *)
Fixpoint header_names (j : nat) (h : list string) : list string :=
  match h with
  | [] => []
  | c :: h' =>
      (if String.eqb c "" then "Unnamed: " ++ nat_to_string j else c)
      :: header_names (S j) h'
  end.

(** No record has more fields than the header has names. *)
Definition fits_header (f : CsvFile) : bool :=
  forallb (fun r => Nat.leb (length r) (length (header f))) (records f).

(** A record with fewer fields is completed with missing cells. *)
Definition pad (n : nat) (r : list cell) : list cell :=
  (r ++ repeat None (n - length r))%list.

(** [pd.read_csv(path)]: the file at [path] as a frame with the default
    index.  A record longer than the header is an error; numbering of
    repeated header names is left out. *)
Definition read_csv (fsys : FileSystem) (path : option string) : outcome DataFrame :=
  match path with
  | None =>
      Raises (ValueError "Invalid file path or buffer object type: <class 'NoneType'>")
  | Some p =>
      match files fsys p with
      | None => Raises (FileNotFoundError p)
      | Some Garbage => Raises (ParserError "Error tokenizing data")
      | Some (Csv f) =>
          match header f with
          | [] => Raises (EmptyDataError "No columns to parse from file")
          | _ =>
              if fits_header f then
                let rs := relabel_from O
                            (map (fun r => mkRow (range_label O)
                                             (pad (length (header f)) r))
                                 (records f)) in
                Returns (mkDF
                  (combine (header_names O (header f))
                           (map (fun j => infer_dtype (column_at j rs))
                                (seq O (length (header f)))))
                  rs)
              else Raises (ParserError "Error tokenizing data")
          end
      end
  end.

(** The content [to_csv] writes with its defaults ([index=True],
    [header=True]): the index is the first field of every record, under a
    blank name. *)
Definition csv_of (d : DataFrame) : CsvFile :=
  mkCsv ("" :: names d) (map (fun r => Some (label r) :: values r) (rows d)).

Definition write_file (fsys : FileSystem) (p : string) (c : FileContent) : FileSystem :=
  mkFS (fun q => if String.eqb q p then Some c else files fsys q) (writable fsys).

(** [d.to_csv(path)]. *)
Definition to_csv (fsys : FileSystem) (d : DataFrame) (path : string)
  : outcome FileSystem :=
  if writable fsys path then Returns (write_file fsys path (Csv (csv_of d)))
  else Raises (PermissionError path).

(** ** Python: [str.replace] *)

(** Left to right, without overlap: [skip] characters of a match are still
    to be passed over. *)
Fixpoint replace_from (old new : string) (skip : nat) (s : string) : string :=
  match s with
  | EmptyString => EmptyString
  | String c s' =>
      match skip with
      | S k => replace_from old new k s'
      | O =>
          if String.prefix old s
          then new ++ replace_from old new (String.length old - 1) s'
          else String c (replace_from old new O s')
      end
  end.

Fixpoint intersperse (new : string) (s : string) : string :=
  match s with
  | EmptyString => new
  | String c s' => new ++ String c (intersperse new s')
  end.

(** [s.replace(old, new)]: every occurrence of [old] is replaced. *)
Definition replace (old new s : string) : string :=
  match old with
  | EmptyString => intersperse new s
  | _ => replace_from old new O s
  end.

(** The docstring's wording of the output path: only the first occurrence
    of [old] is replaced ([s.replace(old, new, 1)] in Python). *)
Fixpoint replace_first (old new s : string) : string :=
  match s with
  | EmptyString => if String.prefix old s then new else EmptyString
  | String c s' =>
      if String.prefix old s
      then new ++ substring (String.length old) (String.length s - String.length old) s
      else String c (replace_first old new s')
  end.

(** ** The methods of [BaseDataHandler] *)

(** The second component of the pair a [try_*] method returns. *)
Inductive payload : Type :=
| PyNone
| Exc (e : exn)
| Grouped (g : GroupBy).

Definition result : Type := (bool * payload)%type.

(** The shape shared by the [try_*] methods:
    [try: body / except Exception as e: return False, e / return True, None]. *)
Definition attempt (body : Py unit) : Py result :=
  try_except (body ;;; ret (true, PyNone)) (fun e => ret (false, Exc e)).

Definition exn_str (e : exn) : string :=
  match e with
  | AttributeError m => m
  | KeyError k => "'" ++ k ++ "'"
  | ValueError m => m
  | TypeError m => m
  | FileNotFoundError p => "[Errno 2] No such file or directory: '" ++ p ++ "'"
  | PermissionError p => "[Errno 13] Permission denied: '" ++ p ++ "'"
  | ParserError m => m
  | EmptyDataError m => m
  | UserError m => m
  | SystemExit c => c
  | KeyboardInterrupt => ""
  end.

Definition payload_str (p : payload) : string :=
  match p with
  | PyNone => "None"
  | Exc e => exn_str e
  | Grouped _ => "<pandas.core.groupby.generic.SeriesGroupBy object>"
  end.

Definition print (s : string) : Py unit :=
  fun w => (mkWorld (self w) (fs w) (stdout w ++ [s]), Returns tt).

Definition set_file_path (p : option string) : Py unit :=
  fun w => (mkWorld (mkHandler p (__df (self w))) (fs w) (stdout w), Returns tt).

Definition py_read_csv (p : option string) : Py DataFrame :=
  fun w => (w, read_csv (fs w) p).

Definition py_to_csv (d : DataFrame) (p : string) : Py unit :=
  fun w =>
    match to_csv (fs w) d p with
    | Returns fs' => (mkWorld (self w) fs' (stdout w), Returns tt)
    | Raises e => (w, Raises e)
    end.

(** [None.replace] is an attribute error. *)
Definition str_replace (s : option string) (old new : string) : outcome string :=
  match s with
  | Some s' => Returns (replace old new s')
  | None => Raises (AttributeError "'NoneType' object has no attribute 'replace'")
  end.

Definition try_get_groupby (target_col : cols_arg) (col : string) : Py result :=
  try_except
    (d <- df ;;
     tmp_df <- lift (groupby_select d target_col col) ;;
     ret (true, Grouped tmp_df))
    (fun e => ret (false, Exc e)).

Definition try_update_df (d : option DataFrame) : Py result :=
  attempt
    match d with
    | Some d' => set_df d'
    | None => p <- get_file_path ;; f <- py_read_csv p ;; set_df f
    end.

Definition try_order_by {np : Numpy} (cols : cols_arg) (ascending : ascending_arg)
  : Py result :=
  attempt
    (d <- df ;;
     s <- lift (sort_values d (as_list cols) ascending) ;;
     r <- lift (reset_index s) ;;
     set_df r).

Definition try_fill_nan {np : Numpy} (use_mean : bool) : Py result :=
  attempt
    (d <- df ;;
     v <- (if use_mean then ret (FillScalar (Num (0 # 1)))
           else d' <- df ;; ret (FillSeries (mean d'))) ;;
     set_df (fillna d v)).

(** The right-hand side is evaluated first, then the target [self.__df],
    then the item assignment. *)
Definition try_add_col (target_col : string) (criteria : Series -> outcome cell)
    (axis : Z) : Py result :=
  attempt
    (d <- df ;;
     s <- lift (apply d criteria axis) ;;
     d' <- df ;;
     d'' <- lift (setitem d' target_col s) ;;
     set_df d'').

Definition try_remove_duplicates : Py result :=
  attempt (d <- df ;; set_df (drop_duplicates d)).

Definition try_save : Py result :=
  attempt
    (p <- get_file_path ;;
     new_file_path <- lift (str_replace p ".csv" "_new.csv") ;;
     d <- df ;;
     py_to_csv d new_file_path).

Definition try_drop_nan (cols : cols_arg) : Py result :=
  attempt
    (d <- df ;;
     d1 <- lift (dropna_rows d (as_list cols)) ;;
     set_df d1 ;;;
     d2 <- df ;;
     set_df (dropna_columns d2)).

(** The right-hand side [self.df[cols].clip(min_v, max_v)] is evaluated
    first; the assignment then changes the frame of the handler in place,
    column by column. *)
Definition try_clamp_cols (cols : cols_arg) (min_v max_v : Q) : Py result :=
  attempt
    (d <- df ;;
     sub <- lift (getitem d (as_list cols)) ;;
     value <- lift (clip sub min_v max_v) ;;
     target <- df ;;
     set_df (fst (setitem_array (as_list cols) value target)) ;;;
     lift (snd (setitem_array (as_list cols) value target))).

(** [__init__]: the path is stored, the table is set through
    [try_update_df], and a failure is printed. *)
Definition __init__ (path : option string) (d : option DataFrame) : Py unit :=
  set_file_path path ;;;
  r <- try_update_df d ;;
  if negb (fst r) then print (payload_str (snd r)) else ret tt.

(** The object before [__init__] has run: no attribute is set. *)
Definition blank : BaseDataHandler := mkHandler None None.

(** [BaseDataHandler(path, d)] in a given file system. *)
Definition construct (fsys : FileSystem) (path : option string) (d : option DataFrame)
  : World * outcome unit :=
  __init__ path d (mkWorld blank fsys []).

(** The [try_*] methods with their arguments, to quantify over them. *)
Inductive operation : Type :=
| OpGetGroupby (target_col : cols_arg) (col : string)
| OpUpdateDf (d : option DataFrame)
| OpOrderBy (cols : cols_arg) (ascending : ascending_arg)
| OpFillNan (use_mean : bool)
| OpAddCol (target_col : string) (criteria : Series -> outcome cell) (axis : Z)
| OpRemoveDuplicates
| OpSave
| OpDropNan (cols : cols_arg)
| OpClampCols (cols : cols_arg) (min_v max_v : Q).

Definition run {np : Numpy} (o : operation) : Py result :=
  match o with
  | OpGetGroupby t c => try_get_groupby t c
  | OpUpdateDf d => try_update_df d
  | OpOrderBy c a => try_order_by c a
  | OpFillNan b => try_fill_nan b
  | OpAddCol t f a => try_add_col t f a
  | OpRemoveDuplicates => try_remove_duplicates
  | OpSave => try_save
  | OpDropNan c => try_drop_nan c
  | OpClampCols c lo hi => try_clamp_cols c lo hi
  end.

(** A handler that holds table [d], read from or bound to [path]. *)
Definition populated (path : option string) (d : DataFrame) (fsys : FileSystem) : World :=
  mkWorld (mkHandler path (Some d)) fsys [].

(** The table a world's handler holds. *)
Definition table (w : World) : option DataFrame := __df (self w).

(** ** Sample tables and worlds *)

Definition N (z : Z) : cell := Some (Num (inject_Z z)).

(** No file, every path writable. *)
Definition empty_fs : FileSystem := mkFS (fun _ => None) (fun _ => true).

(** Columns a and b; b is missing in the second row. *)
Definition two_rows : DataFrame :=
  mkDF [("a", Numeric); ("b", Numeric)]
       [mkRow (range_label 0) [N 3; N 1];
        mkRow (range_label 1) [N 1; None]].

(** One column a holding 10, 11, 12, 13, 14. *)
Definition five_rows : DataFrame :=
  mkDF [("a", Numeric)]
       [mkRow (range_label 0) [N 10];
        mkRow (range_label 1) [N 11];
        mkRow (range_label 2) [N 12];
        mkRow (range_label 3) [N 13];
        mkRow (range_label 4) [N 14]].

(** Does [old] occur in [s]? *)
Fixpoint occurs (old s : string) : bool :=
  match s with
  | EmptyString => String.prefix old s
  | String _ s' => String.prefix old s || occurs old s'
  end.

(** The message of the attribute error an unset table gives. *)
Definition no_df_attribute : exn :=
  AttributeError "'BaseDataHandler' object has no attribute '_BaseDataHandler__df'".

(** The table [{a:1,b:2},{a:1,b:2},{a:3,b:None}]. *)
Definition three_rows : DataFrame :=
  mkDF [("a", Numeric); ("b", Numeric)]
       [mkRow (range_label 0) [N 1; N 2];
        mkRow (range_label 1) [N 1; N 2];
        mkRow (range_label 2) [N 3; None]].

(** The table [{a:1,b:None},{a:None,b:2}]. *)
Definition crossed_rows : DataFrame :=
  mkDF [("a", Numeric); ("b", Numeric)]
       [mkRow (range_label 0) [N 1; None];
        mkRow (range_label 1) [None; N 2]].

(** The rows [dropna(subset=cols)] keeps. *)
Definition kept_rows (d : DataFrame) (cols : list string) : list Row :=
  filter (fun r => forallb (fun c => notna (get d c r)) cols) (rows d).

(** Rows in the order the keys ask for: no row is above a row it should
    follow. *)
Definition ordered (keys : list (nat * bool)) (l : list Row) : Prop :=
  Sorted (fun a b => row_leb keys a b = true) l.


(** A table with a column named index. *)
Definition indexed_rows : DataFrame :=
  mkDF [("index", Numeric); ("a", Numeric)]
       [mkRow (range_label 0) [N 7; N 2];
        mkRow (range_label 1) [N 8; N 1]].



(** A run of [try_*] calls, one after the other, whatever each returns. *)
Definition run_all {np : Numpy} (os : list operation) (w : World) : World :=
  fold_left (fun w' o => fst (run o w')) os w.

(** A file system that holds the table [two_rows] as data.csv. *)
Definition data_fs : FileSystem :=
  mkFS (fun q => if String.eqb q "data.csv"
                 then Some (Csv (mkCsv ["a"; "b"] [[N 3; N 1]; [N 1; None]]))
                 else None)
       (fun _ => true).

(** A missing cell is followed by missing cells only. *)
Definition missing_last (cs : list cell) : Prop :=
  StronglySorted (fun x y => isna x = true -> isna y = true) cs.

(** ** Parameters for the sample runs *)

(** A numpy whose sort leaves ties in input order and whose mean is
    exact.  It is the one the sample runs below are computed with. *)
#[local] Instance plain_numpy : Numpy :=
  {| tie_rank := fun _ _ => O;
     float_mean := fun xs =>
       Qred (fold_right Qplus (0 # 1) xs / inject_Z (Z.of_nat (length xs))) |}.

(** A numpy whose sort puts, among ties, the row with the larger label
    first. *)
Definition late_first_numpy : Numpy :=
  {| tie_rank := fun _ r =>
       match label r with
       | Num q => Z.to_nat (1000 - Qnum q)
       | Str _ => O
       end;
     float_mean := fun _ => 0 # 1 |}.

(** ** The wording of the properties *)




(** The frame with the numbers under the columns of [cols] brought into
    the interval of the two bounds. *)
Definition clamped (d : DataFrame) (cols : list string) (lo hi : Q) : DataFrame :=
  map_frame (fun c x =>
               if mem c cols
               then clip_cell (fst (clip_bounds lo hi)) (snd (clip_bounds lo hi)) x
               else x) d.



(** Two rows that tie on a. *)
Definition tied_rows : DataFrame :=
  mkDF [("a", Numeric); ("b", Numeric)]
       [mkRow (range_label 0) [N 1; N 10];
        mkRow (range_label 1) [N 1; N 20]].
(** * Properties *)

(** ** Running a method *)

Ltac run_step :=
  match goal with
  | |- context [match __df (self ?w) with _ => _ end] =>
      destruct (__df (self w)) eqn:?
  | |- context [match ?o with Returns _ => _ | Raises _ => _ end] =>
      destruct o eqn:?
  | |- context [match ?o with Some _ => _ | None => _ end] =>
      destruct o eqn:?
  | |- context [if ?b then _ else _] => destruct b eqn:?
  end.

Ltac run_method :=
  cbv [run try_get_groupby try_update_df try_order_by try_fill_nan try_add_col
       try_remove_duplicates try_save try_drop_nan try_clamp_cols attempt
       try_except bind ret lift raise df set_df get_file_path py_read_csv
       py_to_csv table];
  cbn [self __df fs stdout file_path fst snd].

(** A run that raised, or returned [False], did not return [True]. *)
Ltac no_success :=
  solve [ discriminate
        | cbn;
          match goal with
          | |- context [is_exception ?e] => destruct (is_exception e); discriminate
          end ].

(** *** What the library calls raise is an [Exception] *)

Lemma sort_values_exception {np : Numpy} (d : DataFrame) (by_ : list string)
    (asc : ascending_arg) (e : exn) :
  sort_values d by_ asc = Raises e -> is_exception e = true.
Proof.
  unfold sort_values, sort_keys.
  destruct (directions (length by_) asc) as [ds | e'] eqn:Hd; cbn [obind].
  - assert (Hp : forall l js e0, positions l (names d) = js -> js = Raises e0 ->
                   is_exception e0 = true).
    { intros l. induction l as [ | c l IH]; intros js e0 <-; cbn; [discriminate | ].
      destruct (position c (names d)); [ | intros H; injection H as <-; reflexivity].
      destruct (positions l (names d)) as [js' | e1] eqn:E; cbn; [discriminate | ].
      intros H. injection H as <-. eapply IH; reflexivity. }
    destruct (positions by_ (names d)) as [js | e'] eqn:Hj; cbn [obind].
    + destruct (combine js ds) as [ | k [ | k' ks]]; try discriminate.
      destruct (mixed _); [ | discriminate].
      intros H. injection H as <-. reflexivity.
    + intros H. injection H as <-. eapply Hp; [exact Hj | reflexivity].
  - unfold directions in Hd. destruct asc; [discriminate | ].
    destruct (Nat.eqb _ _); [discriminate | ].
    injection Hd as <-. intros H. injection H as <-. reflexivity.
Qed.

Lemma reset_index_exception (d : DataFrame) (e : exn) :
  reset_index d = Raises e -> is_exception e = true.
Proof.
  unfold reset_index. destruct (mem _ (names d)); [ | discriminate].
  intros H. injection H as <-. reflexivity.
Qed.





Lemma groupby_select_exception (d : DataFrame) (by_ : cols_arg) (col : string)
    (e : exn) :
  groupby_select d by_ col = Raises e -> is_exception e = true.
Proof.
  unfold groupby_select.
  destruct (grouper d by_) as [ks | e'] eqn:Hg; cbn [obind].
  - destruct (mem col (names d)); [discriminate | ].
    intros H. injection H as <-. reflexivity.
  - intros H. injection H as <-. unfold grouper in Hg.
    destruct by_ as [c | [ | c cs]].
    + destruct (mem c (names d)); [discriminate | ].
      injection Hg as <-. reflexivity.
    + injection Hg as <-. reflexivity.
    + destruct (first_unknown (c :: cs) (names d)); [ | discriminate].
      destruct (Nat.eqb _ _); [discriminate | ].
      injection Hg as <-. reflexivity.
Qed.

Lemma read_csv_exception (fsys : FileSystem) (p : option string) (e : exn) :
  read_csv fsys p = Raises e -> is_exception e = true.
Proof.
  unfold read_csv. destruct p as [p | ]; [ | intros H; injection H as <-; reflexivity].
  destruct (files fsys p) as [[f | ] | ];
    try (intros H; injection H as <-; reflexivity).
  destruct (header f); [intros H; injection H as <-; reflexivity | ].
  destruct (fits_header f); [discriminate | ].
  intros H. injection H as <-. reflexivity.
Qed.




(** The anticipated failures of C2, each at a concrete call. *)
Example unknown_column_is_reported :
  run (OpOrderBy (Col "z") (AscAll true)) (populated (Some "data.csv") two_rows empty_fs)
  = (populated (Some "data.csv") two_rows empty_fs, Returns (false, Exc (KeyError "z"))).
Proof. reflexivity. Qed.

Example unset_path_is_reported :
  run OpSave (populated None two_rows empty_fs)
  = (populated None two_rows empty_fs,
     Returns (false, Exc (AttributeError "'NoneType' object has no attribute 'replace'"))).
Proof. reflexivity. Qed.

Example unreadable_path_is_reported :
  run (OpUpdateDf None) (populated (Some "missing.csv") two_rows empty_fs)
  = (populated (Some "missing.csv") two_rows empty_fs,
     Returns (false, Exc (FileNotFoundError "missing.csv"))).
Proof. reflexivity. Qed.

Example raising_criteria_is_reported :
  run (OpAddCol "c" (fun _ => Raises (UserError "boom")) 1)
      (populated (Some "data.csv") two_rows empty_fs)
  = (populated (Some "data.csv") two_rows empty_fs,
     Returns (false, Exc (UserError "boom"))).
Proof. reflexivity. Qed.

(** ** [get_lines] *)

Lemma slice_bound_pos (len : nat) (n : Z) :
  0 <= n -> slice_bound len n = Nat.min (Z.to_nat n) len.
Proof.
  intros Hn. unfold slice_bound.
  destruct (Z.ltb_spec n 0); lia.
Qed.

Lemma slice_prefix {A : Type} (n : Z) (l : list A) :
  0 <= n -> slice None (Some n) l = firstn (Nat.min (Z.to_nat n) (length l)) l.
Proof.
  intros Hn. unfold slice. rewrite slice_bound_pos by assumption.
  rewrite Nat.sub_0_r. reflexivity.
Qed.

Lemma slice_suffix {A : Type} (k : Z) (l : list A) :
  0 <= k -> slice (Some k) None l = skipn (Z.to_nat k) l.
Proof.
  intros Hk. unfold slice. rewrite slice_bound_pos by assumption.
  rewrite firstn_all2 by (rewrite length_skipn; lia).
  destruct (Nat.le_ge_cases (Z.to_nat k) (length l)) as [H | H].
  - rewrite Nat.min_l by assumption. reflexivity.
  - rewrite Nat.min_r by assumption.
    rewrite !skipn_all2; [reflexivity | assumption | lia].
Qed.

(** With a positive amount [get_lines] returns the first
    [min amount (row count)] rows, in order, and changes nothing. *)
Lemma get_lines_positive (w : World) (d : DataFrame) (amount : Z) :
  table w = Some d -> 0 < amount ->
  get_lines amount w =
  (w, Returns (mkDF (columns d)
                    (firstn (Nat.min (Z.to_nat amount) (row_count d)) (rows d)))).
Proof.
  unfold table, get_lines. intros Hd Hn.
  destruct (Z.gtb_spec amount 0); [ | lia].
  unfold bind, ret, df. rewrite Hd.
  unfold head, iloc. rewrite slice_prefix by lia. reflexivity.
Qed.

(** With a negative amount [tail] receives the amount as it is, and
    returns every row but the first [|amount|]. *)
Lemma get_lines_negative (w : World) (d : DataFrame) (amount : Z) :
  table w = Some d -> amount < 0 ->
  get_lines amount w =
  (w, Returns (mkDF (columns d) (skipn (Z.to_nat (- amount)) (rows d)))).
Proof.
  unfold table, get_lines. intros Hd Hn.
  destruct (Z.gtb_spec amount 0); [lia | ].
  unfold bind, ret, df. rewrite Hd.
  unfold tail, iloc. destruct (Z.eqb_spec amount 0); [lia | ].
  rewrite slice_suffix by lia. reflexivity.
Qed.

Lemma get_lines_zero (w : World) (d : DataFrame) :
  table w = Some d -> get_lines 0 w = (w, Returns (mkDF (columns d) [])).
Proof.
  unfold table, get_lines. intros Hd. cbn. unfold bind, ret, df.
  rewrite Hd. unfold iloc, slice.
  rewrite Nat.sub_diag. reflexivity.
Qed.

(** [get_lines] never changes the world it runs in. *)
Lemma get_lines_pure (w : World) (amount : Z) : fst (get_lines amount w) = w.
Proof.
  unfold get_lines, bind, ret, df.
  destruct (amount >? 0), (__df (self w)); reflexivity.
Qed.

(** C6 at amount -2 on five rows: the call returns the three rows after
    the first two, where the claim has the last two rows. *)
Theorem get_lines_minus_two_of_five :
  let w := populated None five_rows empty_fs in
  get_lines (-2) w =
    (w, Returns (mkDF [("a", Numeric)]
                   [mkRow (range_label 2) [N 12];
                    mkRow (range_label 3) [N 13];
                    mkRow (range_label 4) [N 14]]))
  /\ skipn (row_count five_rows - Nat.min 2 (row_count five_rows)) (rows five_rows)
     = [mkRow (range_label 3) [N 13]; mkRow (range_label 4) [N 14]].
Proof. split; reflexivity. Qed.

(** ** [try_save]: the output path *)

Example save_path_of_data_csv : replace ".csv" "_new.csv" "data.csv" = "data_new.csv".
Proof. reflexivity. Qed.

Lemma replace_from_without_occurrence (old new s : string) :
  occurs old s = false -> replace_from old new O s = s.
Proof.
  induction s as [ | c s IH]; [reflexivity | ].
  cbn [occurs replace_from]. intros H.
  apply orb_false_iff in H as [Hp Ho].
  rewrite Hp, IH by assumption. reflexivity.
Qed.

(** A path without ".csv" is its own output path. *)
Lemma save_path_without_csv (s : string) :
  occurs ".csv" s = false -> replace ".csv" "_new.csv" s = s.
Proof. apply replace_from_without_occurrence. Qed.

(** C3 at the path "backup.csv/data.csv": [str.replace] is called without
    a count and replaces both occurrences, where the docstring and the
    claim replace the first one only; [try_save] writes to the path with
    both replaced. *)
Theorem save_path_replaces_every_occurrence :
  replace ".csv" "_new.csv" "backup.csv/data.csv" = "backup_new.csv/data_new.csv"
  /\ replace_first ".csv" "_new.csv" "backup.csv/data.csv" = "backup_new.csv/data.csv"
  /\ (let w := populated (Some "backup.csv/data.csv") two_rows empty_fs in
      let w' := fst (try_save w) in
      snd (try_save w) = Returns (true, PyNone)
      /\ files (fs w') "backup_new.csv/data_new.csv" = Some (Csv (csv_of two_rows))
      /\ files (fs w') "backup_new.csv/data.csv" = None).
Proof. repeat split; reflexivity. Qed.

(** ** Construction and the unset state *)

(** Construction returns whatever the arguments: [__init__] raises
    nothing. *)
Lemma construct_returns (fsys : FileSystem) (path : option string)
    (d : option DataFrame) :
  exists w, construct fsys path d = (w, Returns tt).
Proof.
  unfold construct, __init__, bind, set_file_path, try_update_df, attempt,
    try_except, bind, ret, set_df, get_file_path, py_read_csv, print.
  cbn [self fs stdout file_path __df].
  destruct d as [d | ]; cbn; [eexists; reflexivity | ].
  destruct (read_csv fsys path) as [f | e] eqn:Hr; cbn; [eexists; reflexivity | ].
  rewrite (read_csv_exception _ _ _ Hr). cbn. eexists; reflexivity.
Qed.

(** C9, as amended: when no table is given and the path cannot be read,
    construction returns, the failure is printed and no table is set; on
    that handler [get_lines] raises an attribute error to the caller, for
    every amount, and leaves the handler as it is. *)
Theorem unset_handler_get_lines_raises
    (fsys : FileSystem) (path : option string) (e : exn) (amount : Z) :
  read_csv fsys path = Raises e ->
  let w := mkWorld (mkHandler path None) fsys [exn_str e] in
  construct fsys path None = (w, Returns tt)
  /\ get_lines amount w = (w, Raises no_df_attribute).
Proof.
  intros H. split.
  - unfold construct, __init__, bind, set_file_path, try_update_df, attempt,
      try_except, bind, ret, set_df, get_file_path, py_read_csv, print.
    cbn [self fs stdout file_path __df].
    rewrite H, (read_csv_exception _ _ _ H). reflexivity.
  - unfold get_lines. destruct (amount >? 0); reflexivity.
Qed.

Lemma unset_handler_get_lines_raises_witness :
  read_csv empty_fs None
    = Raises (ValueError "Invalid file path or buffer object type: <class 'NoneType'>")
  /\ get_lines 5 (fst (construct empty_fs None None))
     = (fst (construct empty_fs None None), Raises no_df_attribute).
Proof.
  split; [reflexivity | ].
  apply (unset_handler_get_lines_raises empty_fs None
           (ValueError "Invalid file path or buffer object type: <class 'NoneType'>")
           5).
  reflexivity.
Defined.

(** C9 as stated fails: after a construction with no path and no table,
    [get_lines()] (amount 5) neither returns a table nor a failure value;
    the attribute error escapes to the caller. *)
Lemma get_lines_escapes_on_unset_handler :
  let w := fst (construct empty_fs None None) in
  table w = None
  /\ snd (get_lines 5 w) = Raises no_df_attribute
  /\ ~ (exists d : DataFrame, snd (get_lines 5 w) = Returns d).
Proof.
  cbn. repeat split. intros [d H]. discriminate H.
Qed.

(** The same holds with a path that names no file. *)
Example construct_with_missing_file :
  construct empty_fs (Some "missing.csv") None
  = (mkWorld (mkHandler (Some "missing.csv") None) empty_fs
       ["[Errno 2] No such file or directory: 'missing.csv'"],
     Returns tt).
Proof. reflexivity. Qed.

(** ** [try_save]: the written content *)

Lemma length_header_names (j : nat) (h : list string) :
  length (header_names j h) = length h.
Proof.
  revert j. induction h as [ | c h IH]; intros j; cbn; [reflexivity | ].
  rewrite IH. reflexivity.
Qed.

(** A frame read from a file has one column per name of its header. *)
Lemma read_csv_width (fsys : FileSystem) (src : string) (g : CsvFile)
    (d : DataFrame) :
  files fsys src = Some (Csv g) ->
  read_csv fsys (Some src) = Returns d ->
  length (columns d) = length (header g).
Proof.
  unfold read_csv. intros Hf. rewrite Hf.
  destruct (header g) as [ | c h] eqn:Hh; [discriminate | ].
  destruct (fits_header g); [ | discriminate].
  intros H. injection H as <-. cbn [columns length]. f_equal.
  rewrite length_combine, length_header_names, length_map, length_seq.
  apply Nat.min_id.
Qed.

(** C10: a successful [try_save] writes, at the derived path, the names of
    the table after a blank name for the index, and every row after its
    index label; no call of [try_order_by] is involved.  The written
    header is one name longer than the table is wide, so it differs from
    the header of any file the table was read from. *)
Theorem save_writes_index_column
    (w w' : World) (d : DataFrame) (p : string) (q : payload) :
  table w = Some d ->
  file_path (self w) = Some p ->
  try_save w = (w', Returns (true, q)) ->
  exists f : CsvFile,
    files (fs w') (replace ".csv" "_new.csv" p) = Some (Csv f)
    /\ header f = "" :: names d
    /\ records f = map (fun r => Some (label r) :: values r) (rows d)
    /\ length (header f) = S (length (columns d))
    /\ (forall (src : string) (g : CsvFile),
          files (fs w) src = Some (Csv g) ->
          read_csv (fs w) (Some src) = Returns d ->
          header f <> header g).
Proof.
  unfold table. intros Hd Hp.
  unfold try_save, attempt, try_except, bind, ret, lift, get_file_path, df,
    py_to_csv, str_replace, to_csv.
  rewrite Hp, Hd.
  destruct (writable (fs w) (replace ".csv" "_new.csv" p)); [ | discriminate].
  intros H. injection H as <- _.
  exists (csv_of d). cbn [fs files write_file].
  rewrite String.eqb_refl.
  repeat split.
  - cbn. unfold names. rewrite length_map. reflexivity.
  - intros src g Hf Hr Heq.
    apply read_csv_width with (d := d) in Hf; [ | assumption].
    apply (f_equal (@length string)) in Heq. cbn in Heq.
    unfold names in Heq. rewrite length_map in Heq. lia.
Qed.

Lemma save_writes_index_column_witness :
  let w := populated (Some "data.csv") two_rows empty_fs in
  table w = Some two_rows
  /\ exists f : CsvFile,
       files (fs (fst (try_save w))) "data_new.csv" = Some (Csv f)
       /\ header f = [""; "a"; "b"].
Proof.
  split; [reflexivity | ].
  destruct (save_writes_index_column
              (populated (Some "data.csv") two_rows empty_fs)
              (fst (try_save (populated (Some "data.csv") two_rows empty_fs)))
              two_rows "data.csv" PyNone
              eq_refl eq_refl eq_refl) as [f [Hf [Hh _]]].
  exists f. split; assumption.
Defined.

(** Read back, the saved file has the index as a first data column. *)
Example saved_file_read_back :
  let w := fst (try_save (populated (Some "data.csv") two_rows empty_fs)) in
  option_map names
    (match read_csv (fs w) (Some "data_new.csv") with
     | Returns d => Some d
     | Raises _ => None
     end)
  = Some ["Unnamed: 0"; "a"; "b"].
Proof. reflexivity. Qed.

(** ** Cells of a frame, by name *)

Lemma position_Some (c : string) (l : list string) (j : nat) :
  position c l = Some j -> nth_error l j = Some c /\ (j < length l)%nat.
Proof.
  revert j. induction l as [ | x l IH]; intros j; cbn; [discriminate | ].
  destruct (String.eqb_spec c x) as [-> | Hne].
  - intros H. injection H as <-. split; [reflexivity | lia].
  - destruct (position c l) as [n | ]; [ | discriminate].
    intros H. injection H as <-. destruct (IH n eq_refl). split; [assumption | lia].
Qed.

Lemma position_In (c : string) (l : list string) :
  In c l -> exists j, position c l = Some j.
Proof.
  induction l as [ | x l IH]; cbn; [contradiction | ].
  intros H. destruct (String.eqb_spec c x) as [ | Hne]; [eexists; reflexivity | ].
  destruct H as [-> | H]; [contradiction | ].
  destruct (IH H) as [j ->]. eexists; reflexivity.
Qed.

Lemma mem_In (c : string) (l : list string) : mem c l = true <-> In c l.
Proof.
  unfold mem. rewrite existsb_exists. split.
  - intros [x [Hx He]]. apply String.eqb_eq in He. subst. assumption.
  - intros H. exists c. split; [assumption | apply String.eqb_refl].
Qed.

Lemma length_map_cells (f : string -> cell -> cell) (cols : list string)
    (vs : list cell) :
  length (map_cells f cols vs) = length vs.
Proof.
  revert vs. induction cols as [ | c cols IH]; intros [ | x vs]; cbn;
    try reflexivity.
  rewrite IH. reflexivity.
Qed.

Lemma nth_map_cells (f : string -> cell -> cell) (cols : list string)
    (vs : list cell) (j : nat) (c : string) :
  nth_error cols j = Some c -> (j < length vs)%nat ->
  nth j (map_cells f cols vs) None = f c (nth j vs None).
Proof.
  revert vs j. induction cols as [ | x cols IH]; intros vs j.
  - destruct j; discriminate.
  - destruct vs as [ | v vs]; cbn [length]; [lia | ].
    destruct j as [ | j]; cbn.
    + intros H _. injection H as ->. reflexivity.
    + intros H Hj. apply IH; [assumption | lia].
Qed.

(** In a frame mapped cell by cell, the cell under a column is the image
    of the old one. *)
Lemma get_map_frame (f : string -> cell -> cell) (d : DataFrame) (r : Row)
    (c : string) :
  length (values r) = length (columns d) -> In c (names d) ->
  get (map_frame f d) c (mkRow (label r) (map_cells f (names d) (values r)))
  = f c (get d c r).
Proof.
  intros Hw Hc. unfold get. change (names (map_frame f d)) with (names d).
  destruct (position_In c (names d) Hc) as [j Hj]. rewrite Hj.
  destruct (position_Some _ _ _ Hj) as [Hn Hlt].
  unfold cell_at. cbn [values].
  apply nth_map_cells; [assumption | ].
  unfold names in Hlt. rewrite length_map in Hlt. lia.
Qed.

Lemma rows_map_frame (f : string -> cell -> cell) (d : DataFrame) (i : nat)
    (r : Row) :
  nth_error (rows d) i = Some r ->
  nth_error (rows (map_frame f d)) i
  = Some (mkRow (label r) (map_cells f (names d) (values r))).
Proof.
  intros H. unfold map_frame. cbn [rows].
  rewrite nth_error_map, H. reflexivity.
Qed.

(** ** [try_clamp_cols] *)

Lemma clip_bounds_ordered (lo hi : Q) : (lo <= hi)%Q -> clip_bounds lo hi = (lo, hi).
Proof.
  intros H. unfold clip_bounds. apply Qle_bool_iff in H. rewrite H. reflexivity.
Qed.

Lemma clip_Q_in_range (lo hi q : Q) :
  (lo <= hi)%Q -> (lo <= clip_Q lo hi q)%Q /\ (clip_Q lo hi q <= hi)%Q.
Proof.
  intros H. unfold clip_Q.
  destruct (Qle_bool lo q) eqn:E1.
  - destruct (Qle_bool q hi) eqn:E2.
    + split; apply Qle_bool_iff; assumption.
    + split; [assumption | apply Qle_refl].
  - split; [apply Qle_refl | assumption].
Qed.

Lemma clip_Q_fixes_range (lo hi q : Q) :
  (lo <= q)%Q -> (q <= hi)%Q -> clip_Q lo hi q = q.
Proof.
  intros H1 H2. unfold clip_Q.
  apply Qle_bool_iff in H1, H2. rewrite H1, H2. reflexivity.
Qed.

(** *** The assignment, column by column *)

Lemma position_nth_error (l : list string) (j : nat) (c : string) :
  NoDup l -> nth_error l j = Some c -> position c l = Some j.
Proof.
  revert j. induction l as [ | x l IH]; intros [ | j] Hn; cbn; try discriminate.
  - intros H. injection H as ->. rewrite String.eqb_refl. reflexivity.
  - intros H. inversion Hn as [ | ? ? Hx Hn']; subst.
    destruct (String.eqb_spec c x) as [-> | _].
    + exfalso. apply Hx. eapply nth_error_In. eassumption.
    + rewrite (IH j Hn' H). reflexivity.
Qed.

Lemma first_unknown_None (cols l : list string) :
  first_unknown cols l = None -> forall c, In c cols -> In c l.
Proof.
  induction cols as [ | x cols IH]; cbn; [contradiction | ].
  destruct (mem x l) eqn:Hm; [ | discriminate].
  intros H c [<- | Hc]; [apply mem_In; assumption | apply IH; assumption].
Qed.

Lemma first_unknown_known (cols l : list string) :
  (forall c, In c cols -> In c l) -> first_unknown cols l = None.
Proof.
  induction cols as [ | x cols IH]; intros H; cbn; [reflexivity | ].
  assert (Hx : mem x l = true) by (apply mem_In, H; left; reflexivity).
  rewrite Hx. apply IH. intros c Hc. apply H. right. assumption.
Qed.

Lemma map_cells_compose (g h : string -> cell -> cell) (cols : list string)
    (vs : list cell) :
  map_cells h cols (map_cells g cols vs)
  = map_cells (fun c x => h c (g c x)) cols vs.
Proof.
  revert vs. induction cols as [ | c cols IH]; intros [ | x vs]; cbn;
    try reflexivity.
  rewrite IH. reflexivity.
Qed.

Lemma map_cells_pointwise (g h : string -> cell -> cell) (cols : list string)
    (vs : list cell) :
  (forall j c, nth_error cols j = Some c -> (j < length vs)%nat ->
               g c (nth j vs None) = h c (nth j vs None)) ->
  map_cells g cols vs = map_cells h cols vs.
Proof.
  revert vs. induction cols as [ | c cols IH]; intros [ | x vs] H; cbn;
    try reflexivity.
  f_equal.
  - apply (H O c); [reflexivity | cbn; lia].
  - apply IH. intros j c' Hj Hlt. apply (H (S j) c'); [assumption | cbn; lia].
Qed.

Lemma count_name_NoDup (l : list string) (k : string) :
  NoDup l -> (count_name k l <= 1)%nat.
Proof.
  induction 1 as [ | x l Hx _ IH]; cbn; [lia | ].
  destruct (String.eqb_spec k x) as [-> | _]; [ | assumption].
  assert (E : count_name x l = O).
  { clear IH. induction l as [ | y l IHl]; cbn; [reflexivity | ].
    destruct (String.eqb_spec x y) as [-> | _].
    - exfalso. apply Hx. left. reflexivity.
    - apply IHl. intros H. apply Hx. right. assumption. }
  lia.
Qed.

Lemma count_name_In (l : list string) (k : string) :
  In k l -> (1 <= count_name k l)%nat.
Proof.
  induction l as [ | x l IH]; cbn; [contradiction | ].
  destruct (String.eqb_spec k x) as [ | Hne]; [lia | ].
  intros [-> | H]; [contradiction | auto].
Qed.

Lemma NoDup_count_name (l : list string) :
  (forall k, In k l -> (count_name k l <= 1)%nat) -> NoDup l.
Proof.
  induction l as [ | x l IH]; intros H; constructor.
  - intros Hx. specialize (H x (or_introl eq_refl)). cbn in H.
    rewrite String.eqb_refl in H. apply count_name_In in Hx. lia.
  - apply IH. intros k Hk. specialize (H k (or_intror Hk)). cbn in H.
    destruct (String.eqb k x); lia.
Qed.

(** What is selected and clipped: the cells of the listed columns. *)
Lemma getitem_clip (d sub value : DataFrame) (cols : list string) (lo hi : Q) :
  getitem d cols = Returns sub ->
  clip sub lo hi = Returns value ->
  first_unknown cols (names d) = None
  /\ (forall r c, In r (rows d) -> In c cols -> is_str (get d c r) = false)
  /\ names value = cols
  /\ rows value
     = map (fun r => mkRow (label r)
                       (map (fun c => clip_cell (fst (clip_bounds lo hi))
                                        (snd (clip_bounds lo hi)) (get d c r)) cols))
           (rows d).
Proof.
  unfold getitem. destruct (first_unknown cols (names d)); [discriminate | ].
  intros H. injection H as <-. unfold clip. cbn [rows columns].
  destruct (existsb _ _) eqn:Hs; [discriminate | ].
  destruct (clip_bounds lo hi) as [lo' hi']. cbn [fst snd].
  intros H. injection H as <-.
  split; [reflexivity | ]. split.
  - intros r c Hr Hc.
    destruct (is_str (get d c r)) eqn:E; [ | reflexivity].
    rewrite <- Hs. symmetry. apply existsb_exists.
    exists (mkRow (label r) (map (fun c => get d c r) cols)). split.
    + apply in_map_iff. exists r. split; [reflexivity | assumption].
    + cbn [values]. apply existsb_exists. exists (get d c r).
      split; [apply (in_map (fun c0 => get d c0 r)); assumption | assumption].
  - split.
    + unfold names. cbn [columns]. rewrite map_map. cbn [fst]. apply map_id.
    + cbn [rows]. rewrite map_map. apply map_ext. intros r. cbn [label values].
      rewrite map_map. reflexivity.
Qed.

Lemma nth_map_position (f : string -> cell) (cols : list string) (k : string)
    (j : nat) :
  position k cols = Some j -> nth j (map f cols) None = f k.
Proof.
  revert j. induction cols as [ | x cols IH]; intros j; cbn; [discriminate | ].
  destruct (String.eqb_spec k x) as [-> | _].
  - intros H. injection H as <-. reflexivity.
  - destruct (position k cols) as [n | ]; [ | discriminate].
    intros H. injection H as <-. cbn. apply IH. reflexivity.
Qed.

Section Assignment.

Variable d : DataFrame.
Hypothesis shape : well_formed d.
Variable g : cell -> cell.
Variable cols : list string.
Variable value : DataFrame.
Hypothesis value_names : names value = cols.
Hypothesis value_rows :
  rows value = map (fun r => mkRow (label r) (map (fun c => g (get d c r)) cols))
                   (rows d).

(** The frame in which the columns of [done] have been assigned. *)
Let assigned (done : list string) : DataFrame :=
  map_frame (fun c x => if mem c done then g x else x) d.

Lemma value_column_cells (k : string) :
  In k cols -> (count_name k cols <= 1)%nat ->
  value_column value k = Returns (map (fun r => g (get d k r)) (rows d)).
Proof.
  intros Hk Hc. unfold value_column. rewrite value_names.
  destruct (Nat.ltb_spec 1 (count_name k cols)); [lia | ].
  f_equal. rewrite value_rows, map_map. apply map_ext. intros r.
  unfold get. rewrite value_names.
  destruct (position_In k cols Hk) as [j Hj]. rewrite Hj.
  unfold cell_at. cbn [values].
  apply (nth_map_position (fun c => g (match position c (names d) with
                                       | Some j0 => nth j0 (values r) None
                                       | None => None
                                       end))).
  assumption.
Qed.

Lemma assign_cells_assigned (done : list string) (k : string) :
  In k (names d) ->
  mem k done = false ->
  assign_cells (assigned done) k (map (fun r => g (get d k r)) (rows d))
  = assigned (k :: done).
Proof.
  intros Hk Hnew. destruct shape as [Hw Hn]. rewrite Forall_forall in Hw.
  unfold assign_cells, assigned, map_frame. cbn [rows columns]. f_equal.
  change (names (mkDF (columns d) _)) with (names d).
  assert (E : forall l : list Row,
             (forall r, In r l -> In r (rows d)) ->
             map (fun rc : Row * cell =>
                    mkRow (label (fst rc))
                      (map_cells (fun c x => if String.eqb c k then snd rc else x)
                         (names d) (values (fst rc))))
                 (combine
                    (map (fun r => mkRow (label r)
                                     (map_cells (fun c x => if mem c done then g x else x)
                                        (names d) (values r))) l)
                    (map (fun r => g (get d k r)) l))
             = map (fun r => mkRow (label r)
                               (map_cells (fun c x => if mem c (k :: done) then g x else x)
                                  (names d) (values r))) l).
  { induction l as [ | r l IH]; intros Hl; cbn [map combine]; [reflexivity | ].
    rewrite IH by (intros x Hx; apply Hl; right; assumption).
    f_equal. cbn [fst snd label values]. f_equal.
    rewrite map_cells_compose. apply map_cells_pointwise.
    intros j c Hj Hlt. cbn [mem existsb].
    destruct (String.eqb_spec c k) as [-> | Hne]; cbn [orb].
    - f_equal.
      unfold get. rewrite (position_nth_error _ _ _ Hn Hj). reflexivity.
    - reflexivity. }
  apply E. auto.
Qed.

(** Names that occur once each are all assigned, and nothing raises. *)
Lemma setitem_array_assigned (ks done : list string) :
  (forall k, In k ks -> In k cols /\ In k (names d)
                        /\ (count_name k cols <= 1)%nat) ->
  NoDup ks ->
  (forall k, In k ks -> mem k done = false) ->
  setitem_array ks value (assigned done)
  = (assigned (rev ks ++ done), Returns tt).
Proof.
  revert done. induction ks as [ | k ks IH]; intros done Hks Hnd Hnew;
    [reflexivity | ].
  cbn [setitem_array].
  destruct (Hks k (or_introl eq_refl)) as [Hc [Hd Hcnt]].
  rewrite (value_column_cells k Hc Hcnt).
  rewrite (assign_cells_assigned done k Hd (Hnew k (or_introl eq_refl))).
  apply NoDup_cons_iff in Hnd as [Hk Hnd'].
  rewrite IH.
  - cbn [rev]. rewrite <- app_assoc. reflexivity.
  - intros x Hx. apply Hks. right. assumption.
  - assumption.
  - intros x Hx. cbn [mem existsb].
    destruct (String.eqb_spec x k) as [-> | _]; [contradiction | ].
    apply (Hnew x). right. assumption.
Qed.

End Assignment.

Lemma map_frame_pointwise (f h : string -> cell -> cell) (d : DataFrame) :
  (forall c x, f c x = h c x) -> map_frame f d = map_frame h d.
Proof.
  intros H. unfold map_frame. f_equal. apply map_ext. intros r. f_equal.
  apply map_cells_pointwise. intros. apply H.
Qed.

Lemma map_cells_id (ns : list string) (vs : list cell) :
  map_cells (fun _ x => x) ns vs = vs.
Proof.
  revert vs. induction ns as [ | c ns IH]; intros [ | x vs]; cbn;
    try reflexivity.
  rewrite IH. reflexivity.
Qed.

Lemma map_frame_id (d : DataFrame) : map_frame (fun _ x => x) d = d.
Proof.
  unfold map_frame. destruct d as [cs rs]. cbn [columns rows]. f_equal.
  rewrite <- (map_id rs) at 2. apply map_ext. intros [l vs].
  cbn [label values]. rewrite map_cells_id. reflexivity.
Qed.

(** The whole assignment on names that are not repeated: the clamped
    frame. *)
Lemma setitem_array_clamped (d sub value : DataFrame) (cols : list string)
    (lo hi : Q) :
  well_formed d ->
  NoDup cols ->
  getitem d cols = Returns sub ->
  clip sub lo hi = Returns value ->
  setitem_array cols value d = (clamped d cols lo hi, Returns tt).
Proof.
  intros Hwf Hnd Hg Hc.
  destruct (getitem_clip d sub value cols lo hi Hg Hc) as [Hk [_ [Hn Hr]]].
  pose proof (setitem_array_assigned d Hwf
                (clip_cell (fst (clip_bounds lo hi)) (snd (clip_bounds lo hi)))
                cols value Hn Hr cols []) as H.
  cbv beta zeta in H.
  rewrite (map_frame_pointwise _ (fun _ x => x)) in H by reflexivity.
  rewrite map_frame_id in H. rewrite H.
  - f_equal. unfold clamped. apply map_frame_pointwise. intros c x.
    rewrite app_nil_r.
    assert (E : mem c (rev cols) = mem c cols).
    { destruct (mem c cols) eqn:E1.
      - apply mem_In. apply in_rev. rewrite rev_involutive. apply mem_In. assumption.
      - destruct (mem c (rev cols)) eqn:E2; [ | reflexivity].
        apply mem_In, in_rev, mem_In in E2. congruence. }
    rewrite E. reflexivity.
  - intros k Hk'. split; [assumption | ].
    split; [eapply first_unknown_None; eassumption | ].
    apply count_name_NoDup. assumption.
  - assumption.
  - reflexivity.
Qed.

(** A name that is listed twice makes the assignment raise. *)
Lemma setitem_array_returns (ks : list string) (value d : DataFrame) :
  snd (setitem_array ks value d) = Returns tt ->
  forall k, In k ks -> (count_name k (names value) <= 1)%nat.
Proof.
  revert d. induction ks as [ | k ks IH]; intros d; cbn; [contradiction | ].
  unfold value_column.
  destruct (Nat.ltb_spec 1 (count_name k (names value))) as [Hlt | Hle]; cbn;
    [discriminate | ].
  intros Hs x [<- | Hx]; [lia | eapply IH; eassumption].
Qed.

(** What a successful [try_clamp_cols] has checked and done. *)
Lemma try_clamp_cols_success
    (w w' : World) (d : DataFrame) (cols : cols_arg) (lo hi : Q) (p : payload) :
  table w = Some d ->
  well_formed d ->
  try_clamp_cols cols lo hi w = (w', Returns (true, p)) ->
  w' = mkWorld (mkHandler (file_path (self w))
                  (Some (clamped d (as_list cols) lo hi))) (fs w) (stdout w)
  /\ first_unknown (as_list cols) (names d) = None
  /\ (forall r c, In r (rows d) -> In c (as_list cols) -> is_str (get d c r) = false)
  /\ NoDup (as_list cols).
Proof.
  unfold table. intros Hd Hwf.
  unfold try_clamp_cols, attempt, try_except, bind, ret, lift, df, set_df.
  rewrite Hd.
  destruct (getitem d (as_list cols)) as [sub | e] eqn:Hg;
    [ | destruct (is_exception e); discriminate].
  destruct (clip sub lo hi) as [value | e] eqn:Hc;
    [ | destruct (is_exception e); discriminate].
  rewrite Hd. cbn [self __df fs stdout file_path].
  destruct (snd (setitem_array (as_list cols) value d)) as [[] | e] eqn:Hs;
    [ | destruct (is_exception e); discriminate].
  destruct (getitem_clip d sub value _ lo hi Hg Hc) as [Hk [Hstr [Hn Hr]]].
  assert (Hnd : NoDup (as_list cols)).
  { apply NoDup_count_name. intros k Hk'.
    rewrite <- Hn. eapply setitem_array_returns; eassumption. }
  rewrite (setitem_array_clamped d sub value _ lo hi Hwf Hnd Hg Hc).
  intros H. injection H as <- _. cbn [fst].
  repeat split; assumption.
Qed.

(** When [try_clamp_cols] succeeds. *)
Lemma try_clamp_cols_runs
    (w : World) (d : DataFrame) (cols : cols_arg) (lo hi : Q) :
  table w = Some d ->
  well_formed d ->
  first_unknown (as_list cols) (names d) = None ->
  (forall r c, In r (rows d) -> In c (as_list cols) -> is_str (get d c r) = false) ->
  NoDup (as_list cols) ->
  try_clamp_cols cols lo hi w
  = (mkWorld (mkHandler (file_path (self w))
                (Some (clamped d (as_list cols) lo hi))) (fs w) (stdout w),
     Returns (true, PyNone)).
Proof.
  unfold table. intros Hd Hwf Hk Hstr Hnd.
  unfold try_clamp_cols, attempt, try_except, bind, ret, lift, df, set_df.
  rewrite Hd.
  assert (Hg : exists sub, getitem d (as_list cols) = Returns sub).
  { unfold getitem. rewrite Hk. eexists. reflexivity. }
  destruct Hg as [sub Hg]. rewrite Hg.
  assert (Hc : exists value, clip sub lo hi = Returns value).
  { unfold clip.
    assert (E : existsb (fun r => existsb is_str (values r)) (rows sub) = false).
    { unfold getitem in Hg. rewrite Hk in Hg. injection Hg as <-. cbn [rows].
      destruct (existsb _ _) eqn:E; [ | reflexivity].
      apply existsb_exists in E as [r' [Hr' Hs]].
      apply in_map_iff in Hr' as [r [<- Hr]]. cbn [values] in Hs.
      apply existsb_exists in Hs as [x [Hx Hs]].
      apply in_map_iff in Hx as [c [<- Hc]].
      rewrite (Hstr r c Hr Hc) in Hs. discriminate. }
    rewrite E. destruct (clip_bounds lo hi). eexists. reflexivity. }
  destruct Hc as [value Hc]. rewrite Hc, Hd.
  cbn [self __df fs stdout file_path].
  rewrite (setitem_array_clamped d sub value _ lo hi Hwf Hnd Hg Hc).
  reflexivity.
Qed.

(** C8: after a successful [try_clamp_cols cols lo hi] with [lo <= hi],
    under each column of [cols] a missing cell is still missing and a
    number lies in [lo, hi], unchanged when it was there already; the
    cells of every other column, the columns and the row labels are as
    before. *)
Theorem clamp_cols_spec
    (w w' : World) (d : DataFrame) (cols : cols_arg) (lo hi : Q) (p : payload) :
  table w = Some d ->
  well_formed d ->
  (lo <= hi)%Q ->
  try_clamp_cols cols lo hi w = (w', Returns (true, p)) ->
  exists d' : DataFrame,
    table w' = Some d'
    /\ columns d' = columns d
    /\ length (rows d') = length (rows d)
    /\ forall (i : nat) (r : Row),
         nth_error (rows d) i = Some r ->
         exists r' : Row,
           nth_error (rows d') i = Some r'
           /\ label r' = label r
           /\ forall c : string, In c (names d) ->
                if mem c (as_list cols) then
                  match get d c r with
                  | None => get d' c r' = None
                  | Some (Num q) =>
                      exists q' : Q,
                        get d' c r' = Some (Num q')
                        /\ (lo <= q')%Q /\ (q' <= hi)%Q
                        /\ ((lo <= q)%Q -> (q <= hi)%Q -> q' = q)
                  | Some (Str _) => False
                  end
                else get d' c r' = get d c r.
Proof.
  intros Hd Hwf Hle Hrun.
  destruct (try_clamp_cols_success w w' d cols lo hi p Hd Hwf Hrun)
    as [-> [Hk [Hstr Hnd]]].
  destruct Hwf as [Hw _].
  unfold clamped. rewrite (clip_bounds_ordered lo hi Hle). cbn [fst snd].
  unfold table. cbn [self __df].
  eexists. split; [reflexivity | ].
  split; [reflexivity | ].
  split; [unfold map_frame; cbn [rows]; apply length_map | ].
  intros i r Hr.
  eexists. split; [apply rows_map_frame; eassumption | ].
  split; [reflexivity | ].
  intros c Hc.
  assert (Hwr : length (values r) = length (columns d)).
  { rewrite Forall_forall in Hw. apply Hw. eapply nth_error_In; eassumption. }
  rewrite get_map_frame by assumption.
  destruct (mem c (as_list cols)) eqn:Hm; [ | reflexivity].
  destruct (get d c r) as [[q | s] | ] eqn:Hg; cbn [clip_cell].
  - exists (clip_Q lo hi q). split; [reflexivity | ].
    destruct (clip_Q_in_range lo hi q Hle). repeat split; try assumption.
    apply clip_Q_fixes_range.
  - assert (E : is_str (get d c r) = false).
    { apply Hstr; [eapply nth_error_In; eassumption | apply mem_In; assumption]. }
    rewrite Hg in E. discriminate.
  - reflexivity.
Qed.

Ltac prove_well_formed :=
  split;
  [ repeat constructor
  | repeat (constructor; [cbn; intuition discriminate | ]); constructor ].

Lemma clamp_cols_spec_witness :
  let w := populated (Some "data.csv") two_rows empty_fs in
  let w' := fst (try_clamp_cols (Col "a") (0 # 1) (2 # 1) w) in
  well_formed two_rows
  /\ table w' =
     Some (mkDF [("a", Numeric); ("b", Numeric)]
                [mkRow (range_label 0) [N 2; N 1];
                 mkRow (range_label 1) [N 1; None]])
  /\ exists d' : DataFrame, table w' = Some d' /\ columns d' = columns two_rows.
Proof.
  split; [prove_well_formed | ].
  split; [reflexivity | ].
  destruct (clamp_cols_spec
              (populated (Some "data.csv") two_rows empty_fs)
              (fst (try_clamp_cols (Col "a") (0 # 1) (2 # 1)
                      (populated (Some "data.csv") two_rows empty_fs)))
              two_rows (Col "a") (0 # 1) (2 # 1) PyNone)
    as [d' [Ht [Hc _]]].
  - reflexivity.
  - prove_well_formed.
  - unfold Qle. cbn. lia.
  - reflexivity.
  - exists d'. split; assumption.
Defined.

(** ** [try_fill_nan] *)


Lemma series_lookup_means_absent {np : Numpy} (c : string) (j : nat)
    (cols : list (string * dtype)) (rs : list Row) :
  ~ In c (map fst cols) -> series_lookup c (means_from j cols rs) = None.
Proof.
  revert j. induction cols as [ | [x ty] cols IH]; intros j Hn; [reflexivity | ].
  cbn in Hn. destruct ty; cbn.
  - destruct (String.eqb_spec c x) as [-> | _]; [tauto | ].
    apply IH. tauto.
  - apply IH. tauto.
Qed.

(** What [mean(numeric_only=True)] lists under a column name: the mean of
    a numeric column, nothing for another column. *)
Lemma series_lookup_means {np : Numpy} (c : string) (ty : dtype) (j0 k : nat)
    (cols : list (string * dtype)) (rs : list Row) :
  NoDup (map fst cols) ->
  nth_error cols k = Some (c, ty) ->
  series_lookup c (means_from j0 cols rs) =
  match ty with
  | Numeric => Some (mean_cells (column_at (j0 + k) rs))
  | Object => None
  end.
Proof.
  revert j0 k. induction cols as [ | [x tx] cols IH]; intros j0 k Hnd Hk.
  - destruct k; discriminate.
  - cbn in Hnd. inversion Hnd as [ | ? ? Hx Hnd']; subst.
    destruct k as [ | k]; cbn in Hk.
    + injection Hk as -> ->. destruct ty; cbn.
      * rewrite String.eqb_refl, Nat.add_0_r. reflexivity.
      * apply series_lookup_means_absent. assumption.
    + assert (Hne : c <> x).
      { intros ->. apply Hx. apply nth_error_In in Hk.
        apply (in_map fst) in Hk. assumption. }
      specialize (IH (S j0) k Hnd' Hk).
      replace (j0 + S k)%nat with (S j0 + k)%nat by lia.
      destruct tx; cbn.
      * destruct (String.eqb_spec c x); [contradiction | ]. assumption.
      * assumption.
Qed.



(** ** [try_drop_nan] *)

Lemma position_None (c : string) (l : list string) :
  position c l = None -> ~ In c l.
Proof.
  intros H Hin. destruct (position_In c l Hin) as [j Hj]. congruence.
Qed.

Lemma map_fst_filter_mask {A B : Type} (mask : list bool) (l : list (A * B)) :
  map fst (filter_mask mask l) = filter_mask mask (map fst l).
Proof.
  revert l. induction mask as [ | b mask IH]; intros [ | x l]; cbn;
    try reflexivity.
  destruct b; cbn; rewrite IH; reflexivity.
Qed.

Lemma In_filter_mask {A : Type} (mask : list bool) (l : list A) (x : A) :
  In x (filter_mask mask l) -> In x l.
Proof.
  revert l. induction mask as [ | b mask IH]; intros [ | y l]; cbn;
    try contradiction.
  destruct b; cbn; intros H; [destruct H as [H | H] | ]; auto.
Qed.

(** A column kept by the mask is found again, with the same cell. *)
Lemma filter_mask_kept (c : string) (l : list string) (mask : list bool)
    (vs : list cell) (j : nat) :
  length mask = length l -> length vs = length l ->
  position c l = Some j -> nth j mask false = true ->
  exists j', position c (filter_mask mask l) = Some j'
             /\ nth j' (filter_mask mask vs) None = nth j vs None.
Proof.
  revert mask vs j. induction l as [ | x l IH]; intros mask vs j Hm Hv;
    [discriminate | ].
  destruct mask as [ | b mask]; [discriminate | ].
  destruct vs as [ | v vs]; [discriminate | ].
  cbn in Hm, Hv. cbn [position].
  destruct (String.eqb_spec c x) as [-> | Hne].
  - intros H Hb. injection H as <-. cbn in Hb. subst b. cbn.
    rewrite String.eqb_refl. exists O. split; reflexivity.
  - destruct (position c l) as [n | ] eqn:Hp; [ | discriminate].
    intros H Hb. injection H as <-. cbn in Hb.
    destruct (IH mask vs n) as [j' [Hj' Hn]]; try lia; try assumption; try reflexivity.
    destruct b; cbn.
    + destruct (String.eqb_spec c x); [contradiction | ].
      rewrite Hj'. exists (S j'). split; [reflexivity | assumption].
    + exists j'. split; assumption.
Qed.

(** A column the mask drops is found no more, names being unique. *)
Lemma filter_mask_dropped (c : string) (l : list string) (mask : list bool)
    (j : nat) :
  NoDup l -> length mask = length l ->
  position c l = Some j -> nth j mask false = false ->
  ~ In c (filter_mask mask l).
Proof.
  revert mask j. induction l as [ | x l IH]; intros mask j Hnd Hm;
    [discriminate | ].
  destruct mask as [ | b mask]; [discriminate | ].
  inversion Hnd as [ | ? ? Hx Hnd']; subst. cbn in Hm. cbn [position].
  destruct (String.eqb_spec c x) as [-> | Hne].
  - intros H Hb. injection H as <-. cbn in Hb. subst b. cbn.
    intros Hin. apply Hx. eapply In_filter_mask. eassumption.
  - destruct (position c l) as [n | ] eqn:Hp; [ | discriminate].
    intros H Hb. injection H as <-. cbn in Hb.
    assert (Hrest : ~ In c (filter_mask mask l)).
    { apply (IH mask n); try assumption; try reflexivity. lia. }
    destruct b; cbn; [ | assumption].
    intros [Heq | Hin]; [congruence | contradiction].
Qed.

Lemma length_present_mask (d : DataFrame) :
  length (present_mask d) = length (columns d).
Proof. unfold present_mask. rewrite length_map, length_seq. reflexivity. Qed.

Lemma nth_present_mask (d : DataFrame) (j : nat) :
  (j < length (columns d))%nat ->
  nth j (present_mask d) false = existsb notna (column_at j (rows d)).
Proof.
  intros Hj. unfold present_mask.
  rewrite nth_indep with (d' := existsb notna (column_at O (rows d)))
    by (rewrite length_map, length_seq; assumption).
  rewrite (map_nth (fun j => existsb notna (column_at j (rows d)))).
  rewrite seq_nth by assumption. reflexivity.
Qed.

Lemma existsb_column_at (f : cell -> bool) (j : nat) (rs : list Row) :
  existsb f (column_at j rs) = true <->
  exists r, In r rs /\ f (cell_at j r) = true.
Proof.
  unfold column_at. rewrite existsb_exists. split.
  - intros [x [Hx Hf]]. apply in_map_iff in Hx as [r [<- Hr]]. eauto.
  - intros [r [Hr Hf]]. exists (cell_at j r). split; [ | assumption].
    apply in_map. assumption.
Qed.

Section DropColumns.

Variable d : DataFrame.
Hypothesis width : Forall (fun r => length (values r) = length (columns d)) (rows d).

Let shrink (r : Row) : Row :=
  mkRow (label r) (filter_mask (present_mask d) (values r)).

(** A column with a present cell stays, and keeps its cells. *)
Lemma dropna_columns_keeps (c : string) (j : nat) (r : Row) :
  In r (rows d) ->
  position c (names d) = Some j ->
  existsb notna (column_at j (rows d)) = true ->
  In c (names (dropna_columns d))
  /\ get (dropna_columns d) c (shrink r) = get d c r.
Proof.
  intros Hr Hj He.
  destruct (position_Some _ _ _ Hj) as [_ Hlt].
  assert (Hlen : length (names d) = length (columns d))
    by (unfold names; apply length_map).
  assert (Hw : length (values r) = length (names d)).
  { rewrite Forall_forall in width. rewrite Hlen. apply width. assumption. }
  destruct (filter_mask_kept c (names d) (present_mask d) (values r) j)
    as [j' [Hp Hn]]; try assumption.
  - rewrite length_present_mask. symmetry. assumption.
  - rewrite nth_present_mask by lia. assumption.
  - assert (Hnames : names (dropna_columns d)
                     = filter_mask (present_mask d) (names d))
      by apply map_fst_filter_mask.
    split.
    + rewrite Hnames. destruct (position_Some _ _ _ Hp) as [Hn' _].
      eapply nth_error_In. eassumption.
    + unfold get. rewrite Hnames, Hp, Hj. exact Hn.
Qed.

(** A column without a present cell goes. *)
Lemma dropna_columns_drops (c : string) (j : nat) :
  NoDup (names d) ->
  position c (names d) = Some j ->
  existsb notna (column_at j (rows d)) = false ->
  ~ In c (names (dropna_columns d)).
Proof.
  intros Hnd Hj He.
  destruct (position_Some _ _ _ Hj) as [_ Hlt].
  assert (Hlen : length (names d) = length (columns d))
    by (unfold names; apply length_map).
  unfold names at 1, dropna_columns. cbn [columns].
  rewrite map_fst_filter_mask.
  apply (filter_mask_dropped c (names d) (present_mask d) j); try assumption.
  - rewrite length_present_mask. symmetry. assumption.
  - rewrite nth_present_mask by lia. assumption.
Qed.

End DropColumns.

(** C7, as amended: after a successful [try_drop_nan cols] the rows are
    those that had every cell under [cols] present, in order and with
    their labels and cells; no remaining row misses a cell under a column
    of [cols]; a column that was entirely missing is absent; and the
    columns retained are exactly those with a present cell in some
    remaining row, whatever they miss elsewhere.  On the table
    [{a:1,b:2},{a:1,b:2},{a:3,b:None}], dropping on b removes the third
    row and no column. *)
Theorem drop_nan_spec
    (w w' : World) (d : DataFrame) (cols : cols_arg) (p : payload) :
  table w = Some d ->
  well_formed d ->
  try_drop_nan cols w = (w', Returns (true, p)) ->
  exists d' : DataFrame,
    table w' = Some d'
    /\ map label (rows d') = map label (kept_rows d (as_list cols))
    /\ (forall (i : nat) (r r' : Row) (c : string),
          nth_error (kept_rows d (as_list cols)) i = Some r ->
          nth_error (rows d') i = Some r' ->
          In c (names d') -> get d' c r' = get d c r)
    /\ (forall (r' : Row) (c : string),
          In r' (rows d') -> In c (as_list cols) ->
          In c (names d') /\ notna (get d' c r') = true)
    /\ (forall c : string,
          In c (names d) ->
          (forall r, In r (rows d) -> get d c r = None) ->
          ~ In c (names d'))
    /\ (forall c : string,
          In c (names d) ->
          (exists r, In r (kept_rows d (as_list cols)) /\ notna (get d c r) = true) ->
          In c (names d'))
    /\ (forall c : string,
          In c (names d') ->
          In c (names d)
          /\ exists r, In r (kept_rows d (as_list cols))
                       /\ notna (get d c r) = true)
    /\ try_drop_nan (Cols ["b"]) (populated (Some "data.csv") three_rows empty_fs)
       = (populated (Some "data.csv")
            (mkDF [("a", Numeric); ("b", Numeric)]
                  [mkRow (range_label 0) [N 1; N 2];
                   mkRow (range_label 1) [N 1; N 2]])
            empty_fs,
          Returns (true, PyNone)).
Proof.
  unfold table. intros Hd [Hw Hnd].
  unfold try_drop_nan, attempt, try_except, bind, ret, lift, df, set_df.
  rewrite Hd. unfold dropna_rows.
  destruct (first_unknown (as_list cols) (names d)) eqn:Hk; [discriminate | ].
  cbn [self __df fs stdout file_path].
  intros H. injection H as <- _. cbn [self __df].
  fold (kept_rows d (as_list cols)).
  set (d1 := mkDF (columns d) (kept_rows d (as_list cols))).
  assert (Hw1 : Forall (fun r => length (values r) = length (columns d1)) (rows d1)).
  { cbn. unfold kept_rows. rewrite Forall_forall in *.
    intros r Hr. apply filter_In in Hr as [Hr _]. auto. }
  assert (Hget : forall c r, get d1 c r = get d c r) by reflexivity.
  assert (Hnames : names d1 = names d) by reflexivity.
  assert (Hrows : rows (dropna_columns d1)
                  = map (fun r => mkRow (label r)
                                    (filter_mask (present_mask d1) (values r)))
                        (kept_rows d (as_list cols))) by reflexivity.
  assert (Hsub : forall c, In c (names (dropna_columns d1)) -> In c (names d)).
  { intros c Hc. unfold names at 1, dropna_columns in Hc. cbn [columns] in Hc.
    rewrite map_fst_filter_mask in Hc. eapply In_filter_mask. eassumption. }
  assert (Hin : forall c j, position c (names d) = Some j ->
                  In c (names (dropna_columns d1)) ->
                  existsb notna (column_at j (rows d1)) = true).
  { intros c j Hj Hc.
    destruct (existsb notna (column_at j (rows d1))) eqn:He; [reflexivity | ].
    exfalso. revert Hc.
    apply (dropna_columns_drops d1 c j); assumption. }
  exists (dropna_columns d1).
  split; [reflexivity | ].
  split; [rewrite Hrows, map_map; reflexivity | ].
  split.
  { intros i r r' c Hr Hr' Hc.
    rewrite Hrows, nth_error_map, Hr in Hr'. injection Hr' as <-.
    destruct (position_In c (names d) (Hsub c Hc)) as [j Hj].
    rewrite <- Hget.
    apply (dropna_columns_keeps d1 Hw1 c j r).
    - eapply nth_error_In. eassumption.
    - assumption.
    - apply (Hin c j); assumption. }
  split.
  { intros r' c Hr' Hc.
    rewrite Hrows in Hr'. apply in_map_iff in Hr' as [r [<- Hr]].
    assert (Hcd : In c (names d)) by (eapply first_unknown_None; eassumption).
    destruct (position_In c (names d) Hcd) as [j Hj].
    assert (Hpres : notna (get d c r) = true).
    { unfold kept_rows in Hr. apply filter_In in Hr as [_ Hall].
      rewrite forallb_forall in Hall. apply Hall. assumption. }
    assert (He : existsb notna (column_at j (rows d1)) = true).
    { apply existsb_column_at. exists r. split; [assumption | ].
      unfold get in Hpres. rewrite Hj in Hpres. assumption. }
    destruct (dropna_columns_keeps d1 Hw1 c j r Hr Hj He) as [Hc' Hg].
    split; [assumption | ]. cbv zeta in Hg. rewrite Hg, Hget. assumption. }
  split.
  { intros c Hc Hall.
    destruct (position_In c (names d) Hc) as [j Hj].
    apply (dropna_columns_drops d1 c j); try assumption.
    destruct (existsb notna (column_at j (rows d1))) eqn:He; [ | reflexivity].
    apply existsb_column_at in He as [r [Hr Hn]].
    cbn in Hr. unfold kept_rows in Hr. apply filter_In in Hr as [Hr _].
    specialize (Hall r Hr). unfold get in Hall. rewrite Hj in Hall.
    rewrite Hall in Hn. discriminate. }
  split.
  { intros c Hc [r [Hr Hn]].
    destruct (position_In c (names d) Hc) as [j Hj].
    apply (dropna_columns_keeps d1 Hw1 c j r Hr Hj).
    apply existsb_column_at. exists r. split; [assumption | ].
    unfold get in Hn. rewrite Hj in Hn. assumption. }
  split; [ | reflexivity].
  intros c Hc. split; [apply Hsub; assumption | ].
  destruct (position_In c (names d) (Hsub c Hc)) as [j Hj].
  pose proof (Hin c j Hj Hc) as He.
  apply existsb_column_at in He as [r [Hr Hn]].
  exists r. split; [exact Hr | ].
  unfold get. rewrite Hj. assumption.
Qed.

(** The scenario of C7: dropping on b removes the third row and no
    column. *)
Example drop_nan_three_rows :
  try_drop_nan (Cols ["b"]) (populated (Some "data.csv") three_rows empty_fs)
  = (populated (Some "data.csv")
       (mkDF [("a", Numeric); ("b", Numeric)]
             [mkRow (range_label 0) [N 1; N 2];
              mkRow (range_label 1) [N 1; N 2]])
       empty_fs,
     Returns (true, PyNone)).
Proof. reflexivity. Qed.

(** C7 as stated fails: a column that is not entirely missing is dropped
    when its present cells all sit in dropped rows.  In
    [{a:1,b:None},{a:None,b:2}] column a holds a 1; dropping on b succeeds
    and leaves the one row [{b:2}], without column a. *)
Lemma drop_nan_drops_column_with_present_cell :
  let w := populated (Some "data.csv") crossed_rows empty_fs in
  let r := try_drop_nan (Cols ["b"]) w in
  (In "b" (names crossed_rows) /\ In "a" (names crossed_rows))
  /\ (exists x, In x (rows crossed_rows) /\ notna (get crossed_rows "a" x) = true)
  /\ snd r = Returns (true, PyNone)
  /\ table (fst r) = Some (mkDF [("b", Numeric)] [mkRow (range_label 1) [N 2]])
  /\ forall d', table (fst r) = Some d' -> ~ In "a" (names d').
Proof.
  split; [split; cbn; tauto | ].
  split; [exists (mkRow (range_label 0) [N 1; None]); split;
          [left; reflexivity | reflexivity] | ].
  split; [reflexivity | ].
  split; [reflexivity | ].
  intros d' H. cbn in H. injection H as <-. cbn.
  intros [H | []]. discriminate H.
Qed.

Lemma drop_nan_spec_witness :
  let w := populated (Some "data.csv") three_rows empty_fs in
  well_formed three_rows
  /\ exists d' : DataFrame,
       table (fst (try_drop_nan (Cols ["b"]) w)) = Some d'
       /\ map label (rows d') = [range_label 0; range_label 1].
Proof.
  split; [prove_well_formed | ].
  destruct (drop_nan_spec
              (populated (Some "data.csv") three_rows empty_fs)
              (fst (try_drop_nan (Cols ["b"])
                      (populated (Some "data.csv") three_rows empty_fs)))
              three_rows (Cols ["b"]) PyNone)
    as [d' [Ht [Hl _]]].
  - reflexivity.
  - prove_well_formed.
  - reflexivity.
  - exists d'. split; assumption.
Defined.

(** ** [try_order_by] *)

Lemma scalar_compare_antisym (a b : scalar) :
  scalar_compare b a = CompOpp (scalar_compare a b).
Proof.
  destruct a as [x | x], b as [y | y]; cbn; try reflexivity.
  - symmetry. apply Qcompare_antisym.
  - apply String.compare_antisym.
Qed.

Lemma compare_cell_antisym (asc : bool) (a b : cell) :
  compare_cell asc b a = CompOpp (compare_cell asc a b).
Proof.
  destruct a as [x | ], b as [y | ]; cbn; try reflexivity.
  destruct asc; apply scalar_compare_antisym.
Qed.

Lemma compare_rows_antisym (keys : list (nat * bool)) (a b : Row) :
  compare_rows keys b a = CompOpp (compare_rows keys a b).
Proof.
  induction keys as [ | [j asc] keys IH]; cbn; [reflexivity | ].
  rewrite (compare_cell_antisym asc (cell_at j a) (cell_at j b)).
  destruct (compare_cell asc (cell_at j a) (cell_at j b)); cbn;
    [assumption | reflexivity | reflexivity].
Qed.

(** Of two rows, one may stand before the other. *)
Lemma row_leb_total (keys : list (nat * bool)) (a b : Row) :
  row_leb keys a b = false -> row_leb keys b a = true.
Proof.
  unfold row_leb. rewrite (compare_rows_antisym keys a b).
  destruct (compare_rows keys a b); cbn; congruence.
Qed.

Lemma insert_row_ordered (keys : list (nat * bool)) (r : Row) (l : list Row) :
  ordered keys l -> ordered keys (insert_row keys r l).
Proof.
  unfold ordered. induction 1 as [ | y l Hs IH Hr]; cbn.
  - repeat constructor.
  - destruct (row_leb keys r y) eqn:E.
    + constructor; [constructor; assumption | constructor; assumption].
    + constructor; [assumption | ].
      destruct l as [ | z l]; cbn.
      * constructor. apply row_leb_total. assumption.
      * destruct (row_leb keys r z); constructor.
        -- apply row_leb_total. assumption.
        -- inversion Hr. assumption.
Qed.

(** The result of the sort is in order. *)
Lemma stable_sort_ordered (keys : list (nat * bool)) (l : list Row) :
  ordered keys (stable_sort keys l).
Proof.
  induction l as [ | r l IH]; cbn; [constructor | ].
  apply insert_row_ordered. assumption.
Qed.


Lemma insert_row_permutation (keys : list (nat * bool)) (r : Row) (l : list Row) :
  Permutation (r :: l) (insert_row keys r l).
Proof.
  induction l as [ | y l IH]; cbn; [apply Permutation_refl | ].
  destruct (row_leb keys r y); [apply Permutation_refl | ].
  eapply Permutation_trans; [apply perm_swap | ].
  apply perm_skip. assumption.
Qed.

(** The sort rearranges the rows and loses none. *)
Lemma stable_sort_permutation (keys : list (nat * bool)) (l : list Row) :
  Permutation l (stable_sort keys l).
Proof.
  induction l as [ | r l IH]; cbn; [constructor | ].
  eapply Permutation_trans; [ | apply insert_row_permutation].
  apply perm_skip. assumption.
Qed.


(** *** The sort on one key *)

Lemma rank_leb_row_leb {np : Numpy} (input : list Row) (keys : list (nat * bool))
    (a b : Row) :
  rank_leb input keys a b = true -> row_leb keys a b = true.
Proof.
  unfold rank_leb, row_leb. destruct (compare_rows keys a b); congruence.
Qed.

Lemma rank_leb_total {np : Numpy} (input : list Row) (keys : list (nat * bool))
    (a b : Row) :
  rank_leb input keys a b = false -> rank_leb input keys b a = true.
Proof.
  unfold rank_leb. rewrite (compare_rows_antisym keys a b).
  destruct (compare_rows keys a b); cbn; try congruence.
  intros H. apply Nat.leb_gt in H. apply Nat.leb_le. lia.
Qed.

Lemma insert_ranked_sorted {np : Numpy} (input : list Row)
    (keys : list (nat * bool)) (r : Row) (l : list Row) :
  Sorted (fun a b => rank_leb input keys a b = true) l ->
  Sorted (fun a b => rank_leb input keys a b = true) (insert_ranked input keys r l).
Proof.
  induction 1 as [ | y l Hs IH Hr]; cbn.
  - repeat constructor.
  - destruct (rank_leb input keys r y) eqn:E.
    + constructor; [constructor; assumption | constructor; assumption].
    + constructor; [assumption | ].
      destruct l as [ | z l]; cbn.
      * constructor. apply rank_leb_total. assumption.
      * destruct (rank_leb input keys r z); constructor.
        -- apply rank_leb_total. assumption.
        -- inversion Hr. assumption.
Qed.

Lemma Sorted_weaken {A : Type} (R R' : A -> A -> Prop) (l : list A) :
  (forall a b, R a b -> R' a b) -> Sorted R l -> Sorted R' l.
Proof.
  intros H. induction 1 as [ | x l Hs IH Hr]; constructor; [assumption | ].
  destruct Hr; constructor. auto.
Qed.

(** Whatever the rank of the ties, the result is in the order of the
    key. *)
Lemma unstable_sort_ordered {np : Numpy} (keys : list (nat * bool)) (l : list Row) :
  ordered keys (unstable_sort keys l).
Proof.
  unfold ordered, unstable_sort.
  apply (Sorted_weaken (fun a b => rank_leb l keys a b = true));
    [intros a b; apply rank_leb_row_leb | ].
  assert (H : forall input m,
    Sorted (fun a b => rank_leb input keys a b = true)
      (fold_right (insert_ranked input keys) [] m)).
  { intros input m. induction m as [ | r m IH]; cbn; [constructor | ].
    apply insert_ranked_sorted. assumption. }
  apply H.
Qed.

Lemma insert_ranked_permutation {np : Numpy} (input : list Row)
    (keys : list (nat * bool)) (r : Row) (l : list Row) :
  Permutation (r :: l) (insert_ranked input keys r l).
Proof.
  induction l as [ | y l IH]; cbn; [apply Permutation_refl | ].
  destruct (rank_leb input keys r y); [apply Permutation_refl | ].
  eapply Permutation_trans; [apply perm_swap | ].
  apply perm_skip. assumption.
Qed.

Lemma unstable_sort_permutation {np : Numpy} (keys : list (nat * bool))
    (l : list Row) :
  Permutation l (unstable_sort keys l).
Proof.
  unfold unstable_sort.
  assert (H : forall input m,
    Permutation m (fold_right (insert_ranked input keys) [] m)).
  { intros input m. induction m as [ | r m IH]; cbn; [constructor | ].
    eapply Permutation_trans; [ | apply insert_ranked_permutation].
    apply perm_skip. assumption. }
  apply H.
Qed.

Lemma ordered_no_key (l : list Row) : ordered [] l.
Proof.
  unfold ordered. induction l as [ | r l IH]; constructor; [assumption | ].
  destruct l; constructor. reflexivity.
Qed.

(** What a sort that returns has done: the rows are rearranged into the
    order of the keys, under the same columns. *)
Lemma sort_values_returns {np : Numpy} (d s : DataFrame) (by_ : list string)
    (asc : ascending_arg) :
  sort_values d by_ asc = Returns s ->
  exists ks,
    sort_keys d by_ asc = Returns ks
    /\ columns s = columns d
    /\ Permutation (rows d) (rows s)
    /\ ordered ks (rows s).
Proof.
  unfold sort_values.
  destruct (sort_keys d by_ asc) as [ks | e]; [ | discriminate]. cbn [obind].
  destruct ks as [ | k [ | k' ks]].
  - intros H. injection H as <-. exists []. repeat split.
    + apply Permutation_refl.
    + apply ordered_no_key.
  - destruct (mixed _); [discriminate | ].
    intros H. injection H as <-. exists [k]. repeat split.
    + apply unstable_sort_permutation.
    + apply unstable_sort_ordered.
  - intros H. injection H as <-. exists (k :: k' :: ks). repeat split.
    + apply stable_sort_permutation.
    + apply stable_sort_ordered.
Qed.

(** *** One more column in front *)







Lemma column_at_shift (j i : nat) (l : list Row) :
  column_at (S j) (relabel_from i (map label_to_cell l)) = column_at j l.
Proof.
  unfold column_at. revert i.
  induction l as [ | r l IH]; intros i; cbn; [reflexivity | ].
  rewrite IH. reflexivity.
Qed.




(** What a call of [try_order_by] does on a populated handler. *)
Lemma try_order_by_run {np : Numpy} (w : World) (d : DataFrame) (cols : cols_arg)
    (asc : ascending_arg) :
  table w = Some d ->
  try_order_by cols asc w =
  match obind (sort_values d (as_list cols) asc) reset_index with
  | Returns r =>
      (mkWorld (mkHandler (file_path (self w)) (Some r)) (fs w) (stdout w),
       Returns (true, PyNone))
  | Raises e => (w, Returns (false, Exc e))
  end.
Proof.
  unfold table. intros Hd.
  unfold try_order_by, attempt, try_except, bind, ret, lift, df, set_df.
  rewrite Hd.
  destruct (sort_values d (as_list cols) asc) as [s | e] eqn:Hs; cbn.
  - destruct (reset_index s) as [r | e] eqn:Hr; cbn; [reflexivity | ].
    rewrite (reset_index_exception _ _ Hr). reflexivity.
  - rewrite (sort_values_exception _ _ _ _ Hs). reflexivity.
Qed.

Lemma length_directions (n : nat) (asc : ascending_arg) (ds : list bool) :
  directions n asc = Returns ds -> length ds = n.
Proof.
  unfold directions. destruct asc as [b | bs].
  - intros H. injection H as <-. apply repeat_length.
  - destruct (Nat.eqb_spec (length bs) n); [ | discriminate].
    intros H. injection H as <-. assumption.
Qed.











(** The two calls on the table with rows (a=3, b=1) and (a=1, b=missing),
    ordered by a. *)
Example order_by_once :
  table (fst (try_order_by (Col "a") (AscAll true)
                (populated (Some "data.csv") two_rows empty_fs)))
  = Some (mkDF [("index", Numeric); ("a", Numeric); ("b", Numeric)]
               [mkRow (range_label 0) [N 1; N 1; None];
                mkRow (range_label 1) [N 0; N 3; N 1]]).
Proof. reflexivity. Qed.


(** A third call finds both names taken and fails. *)
Example order_by_third_call_fails :
  let o := try_order_by (Col "a") (AscAll true) in
  let w2 := fst (o (fst (o (populated (Some "data.csv") two_rows empty_fs)))) in
  o w2 = (w2, Returns (false, Exc (ValueError "cannot insert level_0, already exists"))).
Proof. reflexivity. Qed.

(** On a table that has a column named index the second call fails
    already. *)
Example order_by_second_call_fails_with_index_column :
  let o := try_order_by (Col "a") (AscAll true) in
  let w1 := fst (o (populated (Some "data.csv") indexed_rows empty_fs)) in
  snd (o (populated (Some "data.csv") indexed_rows empty_fs)) = Returns (true, PyNone)
  /\ o w1 = (w1, Returns (false, Exc (ValueError "cannot insert level_0, already exists"))).
Proof. split; reflexivity. Qed.

(** With one sort column, rows that tie on it need not stay where the
    first call put them: under a sort that puts the later of two tied
    rows first, the second call exchanges the two rows of the table
    a = 1, 1; b = 10, 20 again. *)
Example order_by_ties_move :
  let o := @try_order_by late_first_numpy (Col "a") (AscAll true) in
  let w1 := fst (o (populated (Some "data.csv") tied_rows empty_fs)) in
  let w2 := fst (o w1) in
  option_map (fun x => map values (rows x)) (table w1)
  = Some [[N 1; N 1; N 20]; [N 0; N 1; N 10]]
  /\ option_map (fun x => map values (rows x)) (table w2)
     = Some [[N 1; N 0; N 1; N 10]; [N 0; N 1; N 1; N 20]].
Proof. split; reflexivity. Qed.

(** * Further properties of the methods *)

(** ** [get_lines]: the two directions *)

Lemma firstn_min_length {A : Type} (n : nat) (l : list A) :
  firstn (Nat.min n (length l)) l = firstn n l.
Proof.
  destruct (Nat.le_ge_cases n (length l)) as [H | H].
  - rewrite Nat.min_l by assumption. reflexivity.
  - rewrite Nat.min_r by assumption.
    rewrite firstn_all, firstn_all2 by assumption. reflexivity.
Qed.

(** X1: for a positive [n], [get_lines (-n)] returns exactly the rows
    that [get_lines n] leaves out: the two results, one after the other,
    are the rows of the table, under the same columns. *)
Theorem get_lines_split (w : World) (d : DataFrame) (n : Z) :
  table w = Some d -> 0 < n ->
  exists top rest : DataFrame,
    get_lines n w = (w, Returns top)
    /\ get_lines (- n) w = (w, Returns rest)
    /\ (rows top ++ rows rest)%list = rows d
    /\ columns top = columns d
    /\ columns rest = columns d.
Proof.
  intros Hd Hn.
  assert (Hm : - n < 0) by lia.
  rewrite (get_lines_positive w d n Hd Hn).
  rewrite (get_lines_negative w d (- n) Hd Hm).
  eexists. eexists.
  split; [reflexivity | ].
  split; [reflexivity | ].
  cbn [rows columns]. repeat split.
  unfold row_count. rewrite firstn_min_length.
  replace (- - n) with n by lia.
  apply firstn_skipn.
Qed.

Lemma get_lines_split_witness :
  let w := populated None five_rows empty_fs in
  exists top rest : DataFrame,
    get_lines 2 w = (w, Returns top)
    /\ get_lines (-2) w = (w, Returns rest)
    /\ (rows top ++ rows rest)%list = rows five_rows.
Proof.
  destruct (get_lines_split (populated None five_rows empty_fs) five_rows 2
              eq_refl eq_refl)
    as [top [rest [H1 [H2 [H3 _]]]]].
  exists top, rest. repeat split; assumption.
Defined.

(** ** The unset state *)

(** X2: while no table is set, every [try_*] method but [try_update_df]
    returns [(False, AttributeError)] and changes nothing: only
    [try_update_df] leaves the unset state. *)
Theorem unset_handler_operations_fail {np : Numpy} (o : operation) (w : World) :
  table w = None ->
  (forall x, o <> OpUpdateDf x) ->
  exists msg : string, run o w = (w, Returns (false, Exc (AttributeError msg))).
Proof.
  unfold table. intros Hd Hu.
  destruct o; try (exfalso; eapply Hu; reflexivity); run_method;
    rewrite ?Hd; cbn [self __df fs stdout file_path fst snd].
  - eexists; reflexivity.
  - eexists; reflexivity.
  - eexists; reflexivity.
  - eexists; reflexivity.
  - eexists; reflexivity.
  - unfold str_replace. destruct (file_path (self w)); rewrite ?Hd;
      eexists; reflexivity.
  - eexists; reflexivity.
  - eexists; reflexivity.
Qed.

Lemma unset_handler_operations_fail_witness :
  let w := fst (construct empty_fs None None) in
  table w = None
  /\ exists msg : string,
       run (OpFillNan true) w = (w, Returns (false, Exc (AttributeError msg))).
Proof.
  split; [reflexivity | ].
  apply (unset_handler_operations_fail (OpFillNan true)
           (fst (construct empty_fs None None))).
  - reflexivity.
  - intros x H. discriminate H.
Defined.

(** ** The shape of the table is kept *)

Lemma well_formed_map_frame (f : string -> cell -> cell) (d : DataFrame) :
  well_formed d -> well_formed (map_frame f d).
Proof.
  intros [Hw Hn]. split; [ | exact Hn].
  unfold map_frame. cbn [rows columns].
  rewrite Forall_forall in *. intros r' Hr'.
  apply in_map_iff in Hr' as [r [<- Hr]]. cbn [values].
  rewrite length_map_cells. auto.
Qed.

Lemma In_drop_seen (seen : list (list cell)) (rs : list Row) (r : Row) :
  In r (drop_seen seen rs) -> In r rs.
Proof.
  revert seen. induction rs as [ | x rs IH]; intros seen; cbn; [contradiction | ].
  destruct (existsb (cells_eqb (values x)) seen).
  - intros H. right. eapply IH. eassumption.
  - intros [H | H]; [left; assumption | right; eapply IH; eassumption].
Qed.

Lemma well_formed_drop_duplicates (d : DataFrame) :
  well_formed d -> well_formed (drop_duplicates d).
Proof.
  intros [Hw Hn]. split; [ | exact Hn].
  unfold drop_duplicates. cbn [rows columns].
  rewrite Forall_forall in *. intros r Hr. apply Hw.
  eapply In_drop_seen. eassumption.
Qed.

Lemma In_relabel_from (i : nat) (l : list Row) (r' : Row) :
  In r' (relabel_from i l) -> exists r, In r l /\ values r' = values r.
Proof.
  revert i. induction l as [ | x l IH]; intros i; cbn; [contradiction | ].
  intros [<- | H].
  - exists x. split; [left; reflexivity | reflexivity].
  - destruct (IH _ H) as [r [Hr Hv]]. exists r. split; [right | ]; assumption.
Qed.

Lemma well_formed_sort_reset {np : Numpy} (d s r : DataFrame) (by_ : list string)
    (asc : ascending_arg) :
  well_formed d ->
  sort_values d by_ asc = Returns s ->
  reset_index s = Returns r ->
  well_formed r.
Proof.
  intros [Hw Hn] Hs.
  destruct (sort_values_returns d s _ _ Hs) as [ks [_ [Hc [Hp _]]]].
  unfold reset_index, names. rewrite Hc. fold (names d).
  set (name := if mem "index" (names d) then "level_0" else "index").
  destruct (mem name (names d)) eqn:Hm; [discriminate | ].
  intros H. injection H as <-. split.
  - cbn [rows columns]. rewrite Forall_forall in *. intros r' Hr'.
    apply In_relabel_from in Hr' as [r [Hr Hv]]. rewrite Hv.
    apply in_map_iff in Hr as [r0 [<- Hr0]]. cbn [values label_to_cell length].
    f_equal. apply Hw.
    eapply Permutation_in; [ | eassumption].
    apply Permutation_sym. assumption.
  - unfold names. cbn [columns map fst]. constructor; [ | exact Hn].
    intros Hin. apply mem_In in Hin. unfold names in Hm. congruence.
Qed.

Lemma length_filter_mask {A B : Type} (mask : list bool) (l : list A) (l' : list B) :
  length l = length mask -> length l' = length mask ->
  length (filter_mask mask l) = length (filter_mask mask l').
Proof.
  revert l l'. induction mask as [ | b mask IH]; intros [ | x l] [ | y l'];
    cbn; try reflexivity; try discriminate.
  intros H H'. destruct b; cbn; rewrite (IH l l') by lia; reflexivity.
Qed.

Lemma NoDup_filter_mask {A : Type} (mask : list bool) (l : list A) :
  NoDup l -> NoDup (filter_mask mask l).
Proof.
  revert l. induction mask as [ | b mask IH]; intros [ | x l] H; cbn;
    try constructor.
  inversion H as [ | ? ? Hx Hl]; subst.
  destruct b; [ | apply IH; assumption].
  constructor; [ | apply IH; assumption].
  intros Hin. apply Hx. eapply In_filter_mask. eassumption.
Qed.

Lemma well_formed_dropna_columns (d : DataFrame) :
  well_formed d -> well_formed (dropna_columns d).
Proof.
  intros [Hw Hn]. split.
  - unfold dropna_columns. cbn [rows columns].
    rewrite Forall_forall in *. intros r' Hr'.
    apply in_map_iff in Hr' as [r [<- Hr]]. cbn [values].
    apply length_filter_mask.
    + rewrite length_present_mask. auto.
    + rewrite length_present_mask. reflexivity.
  - unfold names, dropna_columns. cbn [columns].
    rewrite map_fst_filter_mask. apply NoDup_filter_mask. exact Hn.
Qed.

Lemma well_formed_dropna_rows (d d1 : DataFrame) (cols : list string) :
  well_formed d -> dropna_rows d cols = Returns d1 -> well_formed d1.
Proof.
  intros [Hw Hn]. unfold dropna_rows.
  destruct (first_unknown cols (names d)); [discriminate | ].
  intros H. injection H as <-. split; [ | exact Hn].
  cbn [rows columns]. rewrite Forall_forall in *.
  intros r Hr. apply filter_In in Hr as [Hr _]. auto.
Qed.

Lemma length_replace_nth {A : Type} (j : nat) (x : A) (l : list A) :
  length (replace_nth j x l) = length l.
Proof.
  revert j. induction l as [ | y l IH]; intros [ | j]; cbn; try reflexivity.
  rewrite IH. reflexivity.
Qed.

Lemma map_fst_replace_nth {A B : Type} (j : nat) (x : A * B) (l : list (A * B)) :
  map fst (replace_nth j x l) = replace_nth j (fst x) (map fst l).
Proof.
  revert j. induction l as [ | y l IH]; intros [ | j]; cbn; try reflexivity.
  rewrite IH. reflexivity.
Qed.

Lemma replace_nth_position (c : string) (l : list string) (j : nat) :
  position c l = Some j -> replace_nth j c l = l.
Proof.
  revert j. induction l as [ | x l IH]; intros j; cbn; [discriminate | ].
  destruct (String.eqb_spec c x) as [-> | _].
  - intros H. injection H as <-. reflexivity.
  - destruct (position c l) as [n | ]; [ | no_success].
    intros H. injection H as <-. cbn. rewrite (IH n eq_refl). reflexivity.
Qed.

Lemma well_formed_setitem (d d' : DataFrame) (target : string)
    (s : list (scalar * cell)) :
  well_formed d -> setitem d target s = Returns d' -> well_formed d'.
Proof.
  intros [Hw Hn]. unfold setitem.
  destruct (align d s) as [cs | e]; [ | no_success]. cbn [obind].
  destruct (position target (names d)) as [j | ] eqn:Hp;
    intros H; injection H as <-; split; cbn [rows columns].
  - rewrite Forall_forall in *. intros r' Hr'.
    apply in_map_iff in Hr' as [[r c] [<- Hr]]. cbn [values fst snd].
    rewrite !length_replace_nth. apply Hw.
    eapply in_combine_l. eassumption.
  - unfold names. cbn [columns]. rewrite map_fst_replace_nth. cbn [fst].
    fold (names d). rewrite replace_nth_position by assumption. exact Hn.
  - rewrite Forall_forall in *. intros r' Hr'.
    apply in_map_iff in Hr' as [[r c] [<- Hr]]. cbn [values fst snd].
    rewrite !length_app. cbn [length]. f_equal. apply Hw.
    eapply in_combine_l. eassumption.
  - unfold names. cbn [columns]. rewrite map_app. cbn [map fst].
    fold (names d). apply NoDup_app.
    + exact Hn.
    + repeat constructor. intros [].
    + intros x Hx [<- | []]. eapply position_None; eassumption.
Qed.

Lemma well_formed_assign_cells (d : DataFrame) (k : string) (cs : list cell) :
  well_formed d -> well_formed (assign_cells d k cs).
Proof.
  intros [Hw Hn]. split; [ | exact Hn].
  unfold assign_cells. cbn [rows columns].
  rewrite Forall_forall in *. intros r' Hr'.
  apply in_map_iff in Hr' as [[r c] [<- Hr]]. cbn [values fst snd].
  rewrite length_map_cells. apply Hw.
  eapply in_combine_l. eassumption.
Qed.

(** However the assignment ends, the frame it leaves is well formed. *)
Lemma well_formed_setitem_array (ks : list string) (value d : DataFrame) :
  well_formed d -> well_formed (fst (setitem_array ks value d)).
Proof.
  revert d. induction ks as [ | k ks IH]; intros d H; cbn; [assumption | ].
  destruct (value_column value k) as [cs | e]; cbn; [ | assumption].
  apply IH. apply well_formed_assign_cells. assumption.
Qed.

Ltac caught :=
  try match goal with
      | |- context [is_exception ?e] => destruct (is_exception e); [ | no_success]
      end.

Ltac finish_well_formed :=
  caught;
  intros E; injection E as <- _; cbn [self __df];
  eexists; (split; [first [reflexivity | eassumption] | ]); eauto.

(** X3: the table stays well formed.  Whatever a [try_*] method other
    than [try_update_df] returns on a handler whose table has rows as wide
    as its header and unique column names, the table it leaves has them
    too. *)
Theorem operations_keep_well_formed {np : Numpy}
    (o : operation) (w w' : World) (d : DataFrame) (r : result) :
  table w = Some d ->
  well_formed d ->
  (forall x, o <> OpUpdateDf x) ->
  run o w = (w', Returns r) ->
  exists d' : DataFrame, table w' = Some d' /\ well_formed d'.
Proof.
  unfold table. intros Hd Hwf Hu.
  destruct o; try (exfalso; eapply Hu; reflexivity); run_method;
    rewrite ?Hd; cbn [self __df fs stdout file_path fst snd].
  - (* try_get_groupby *)
    destruct (groupby_select d target_col col); finish_well_formed.
  - (* try_order_by *)
    destruct (sort_values d (as_list cols) ascending) as [s | e] eqn:Hs;
      [ | finish_well_formed].
    destruct (reset_index s) as [x | e] eqn:Hx; [ | finish_well_formed].
    finish_well_formed. eapply well_formed_sort_reset; eassumption.
  - (* try_fill_nan *)
    destruct use_mean; cbn [self __df fs stdout file_path]; rewrite ?Hd;
      finish_well_formed; apply well_formed_map_frame; assumption.
  - (* try_add_col *)
    destruct (apply d criteria axis) as [s | e]; [ | finish_well_formed].
    rewrite ?Hd.
    destruct (setitem d target_col s) as [x | e] eqn:Hx; [ | finish_well_formed].
    finish_well_formed. eapply well_formed_setitem; eassumption.
  - (* try_remove_duplicates *)
    finish_well_formed. apply well_formed_drop_duplicates. assumption.
  - (* try_save *)
    unfold str_replace. destruct (file_path (self w)); [ | finish_well_formed].
    rewrite ?Hd. unfold to_csv.
    destruct (writable (fs w) _); cbn [self __df]; finish_well_formed.
  - (* try_drop_nan *)
    destruct (dropna_rows d (as_list cols)) as [d1 | e] eqn:H1;
      [ | finish_well_formed].
    cbn [self __df fs stdout file_path]. finish_well_formed.
    apply well_formed_dropna_columns.
    eapply well_formed_dropna_rows; eassumption.
  - (* try_clamp_cols *)
    destruct (getitem d (as_list cols)) as [sub | e] eqn:Hg;
      [ | finish_well_formed].
    destruct (clip sub min_v max_v) as [value | e] eqn:Hc;
      [ | finish_well_formed].
    rewrite ?Hd. cbn [self __df fs stdout file_path].
    destruct (snd (setitem_array (as_list cols) value d)) as [[] | e];
      finish_well_formed; apply well_formed_setitem_array; assumption.
Qed.

Lemma operations_keep_well_formed_witness :
  let w := populated (Some "data.csv") two_rows empty_fs in
  let o := OpAddCol "c" (fun s => Returns (Some (sname s))) 1 in
  well_formed two_rows
  /\ exists d' : DataFrame, table (fst (run o w)) = Some d' /\ well_formed d'.
Proof.
  split; [prove_well_formed | ].
  apply (operations_keep_well_formed
           (OpAddCol "c" (fun s => Returns (Some (sname s))) 1)
           (populated (Some "data.csv") two_rows empty_fs)
           (fst (run (OpAddCol "c" (fun s => Returns (Some (sname s))) 1)
                   (populated (Some "data.csv") two_rows empty_fs)))
           two_rows (true, PyNone)).
  - reflexivity.
  - prove_well_formed.
  - intros x H. discriminate H.
  - reflexivity.
Defined.

(** ** [try_remove_duplicates] *)

Lemma scalar_eqb_refl (a : scalar) : scalar_eqb a a = true.
Proof.
  destruct a as [q | s]; cbn.
  - apply Qeq_bool_iff. apply Qeq_refl.
  - apply String.eqb_refl.
Qed.

Lemma scalar_eqb_sym (a b : scalar) : scalar_eqb a b = scalar_eqb b a.
Proof.
  destruct a as [x | x], b as [y | y]; cbn; try reflexivity.
  - unfold Qeq_bool. apply Z.eqb_sym.
  - apply String.eqb_sym.
Qed.

Lemma cells_eqb_refl (a : list cell) : cells_eqb a a = true.
Proof.
  induction a as [ | [x | ] a IH]; cbn; [reflexivity | | assumption].
  rewrite scalar_eqb_refl. assumption.
Qed.

Lemma cells_eqb_sym (a b : list cell) : cells_eqb a b = cells_eqb b a.
Proof.
  revert b. induction a as [ | x a IH]; intros [ | y b]; cbn; try reflexivity.
  rewrite IH. f_equal.
  destruct x, y; cbn; try reflexivity. apply scalar_eqb_sym.
Qed.

Lemma drop_seen_again (seen : list (list cell)) (rs : list Row) :
  drop_seen seen (drop_seen seen rs) = drop_seen seen rs.
Proof.
  revert seen. induction rs as [ | r rs IH]; intros seen; cbn; [reflexivity | ].
  destruct (existsb (cells_eqb (values r)) seen) eqn:E; [apply IH | ].
  cbn. rewrite E, IH. reflexivity.
Qed.

(** X4: [try_remove_duplicates] is idempotent: run on the world it
    returned, it returns the same and leaves that world as it is. *)
Theorem remove_duplicates_idempotent (w : World) :
  let w1 := fst (try_remove_duplicates w) in
  try_remove_duplicates w1 = (w1, snd (try_remove_duplicates w)).
Proof.
  unfold try_remove_duplicates, attempt, try_except, bind, ret, df, set_df.
  destruct (__df (self w)) as [d | ] eqn:Hd; cbn [fst snd self __df fs stdout file_path].
  - unfold drop_duplicates. cbn [rows columns].
    rewrite drop_seen_again. reflexivity.
  - rewrite ?Hd. cbn. rewrite ?Hd. reflexivity.
Qed.

Lemma drop_seen_unseen (seen : list (list cell)) (rs : list Row) :
  Forall (fun x => existsb (cells_eqb (values x)) seen = false) (drop_seen seen rs).
Proof.
  revert seen. induction rs as [ | r rs IH]; intros seen; cbn; [constructor | ].
  destruct (existsb (cells_eqb (values r)) seen) eqn:E; [apply IH | ].
  constructor; [assumption | ].
  eapply Forall_impl; [ | apply (IH (values r :: seen))].
  cbn. intros x Hx. apply orb_false_iff in Hx. tauto.
Qed.

Lemma drop_seen_distinct (seen : list (list cell)) (rs : list Row) :
  ForallOrdPairs (fun a b => cells_eqb (values a) (values b) = false)
    (drop_seen seen rs).
Proof.
  revert seen. induction rs as [ | r rs IH]; intros seen; cbn; [constructor | ].
  destruct (existsb (cells_eqb (values r)) seen) eqn:E; [apply IH | ].
  constructor; [ | apply IH].
  eapply Forall_impl; [ | apply (drop_seen_unseen (values r :: seen))].
  cbn. intros x Hx. apply orb_false_iff in Hx as [Hx _].
  rewrite cells_eqb_sym. assumption.
Qed.

Lemma drop_seen_covers (seen : list (list cell)) (rs : list Row) (r : Row) :
  In r rs ->
  existsb (cells_eqb (values r)) seen = true
  \/ exists r', In r' (drop_seen seen rs) /\ cells_eqb (values r) (values r') = true.
Proof.
  revert seen. induction rs as [ | x rs IH]; intros seen; cbn; [contradiction | ].
  destruct (existsb (cells_eqb (values x)) seen) eqn:E.
  - intros [<- | H]; [left; assumption | apply IH; assumption].
  - intros [<- | H].
    + right. exists x. split; [left; reflexivity | apply cells_eqb_refl].
    + destruct (IH (values x :: seen) H) as [Hs | [r' [Hr' He]]].
      * cbn in Hs. apply orb_true_iff in Hs as [Hs | Hs].
        -- right. exists x. split; [left; reflexivity | assumption].
        -- left. assumption.
      * right. exists r'. split; [right; assumption | assumption].
Qed.

(** X5: after [try_remove_duplicates] on a populated handler the columns
    are as before, no two rows of the table have equal cells, every row
    of the old table has its cells in some row of the new one, and every
    row of the new table is a row of the old one, label included. *)
Theorem remove_duplicates_spec (w : World) (d : DataFrame) :
  table w = Some d ->
  exists (w' : World) (d' : DataFrame),
    try_remove_duplicates w = (w', Returns (true, PyNone))
    /\ table w' = Some d'
    /\ columns d' = columns d
    /\ ForallOrdPairs (fun a b => cells_eqb (values a) (values b) = false) (rows d')
    /\ (forall r, In r (rows d) ->
          exists r', In r' (rows d') /\ cells_eqb (values r) (values r') = true)
    /\ (forall r', In r' (rows d') -> In r' (rows d)).
Proof.
  unfold table. intros Hd.
  unfold try_remove_duplicates, attempt, try_except, bind, ret, df, set_df.
  rewrite Hd. eexists. eexists.
  split; [reflexivity | ].
  split; [reflexivity | ].
  split; [reflexivity | ].
  cbn [rows drop_duplicates].
  split; [apply drop_seen_distinct | ].
  split.
  - intros r Hr. destruct (drop_seen_covers [] (rows d) r Hr) as [H | H];
      [discriminate H | exact H].
  - intros r'. apply In_drop_seen.
Qed.

Lemma remove_duplicates_spec_witness :
  let w := populated (Some "data.csv") three_rows empty_fs in
  exists (w' : World) (d' : DataFrame),
    try_remove_duplicates w = (w', Returns (true, PyNone))
    /\ table w' = Some d'
    /\ columns d' = columns three_rows.
Proof.
  destruct (remove_duplicates_spec
              (populated (Some "data.csv") three_rows empty_fs) three_rows eq_refl)
    as [w' [d' [H1 [H2 [H3 _]]]]].
  exists w', d'. repeat split; assumption.
Defined.

Example remove_duplicates_three_rows :
  table (fst (try_remove_duplicates
                (populated (Some "data.csv") three_rows empty_fs)))
  = Some (mkDF [("a", Numeric); ("b", Numeric)]
               [mkRow (range_label 0) [N 1; N 2];
                mkRow (range_label 2) [N 3; None]]).
Proof. reflexivity. Qed.

(** ** [try_fill_nan], again and before [try_drop_nan] *)

Lemma map_cells_fixed (g : string -> cell -> cell) (cols : list string)
    (vs : list cell) :
  (forall j c, nth_error cols j = Some c -> (j < length vs)%nat ->
               g c (nth j vs None) = nth j vs None) ->
  map_cells g cols vs = vs.
Proof.
  revert vs. induction cols as [ | c cols IH]; intros [ | x vs] H; cbn;
    try reflexivity.
  f_equal.
  - apply (H O c); [reflexivity | cbn; lia].
  - apply IH. intros j c' Hj Hlt. apply (H (S j) c'); [assumption | cbn; lia].
Qed.

Lemma map_fixed {A : Type} (g : A -> A) (l : list A) :
  (forall x, In x l -> g x = x) -> map g l = l.
Proof.
  intros H. induction l as [ | x l IH]; cbn; [reflexivity | ].
  rewrite H by (left; reflexivity). f_equal. apply IH.
  intros y Hy. apply H. right. assumption.
Qed.

Lemma row_eta (r : Row) : mkRow (label r) (values r) = r.
Proof. destruct r. reflexivity. Qed.

(** The column of a frame mapped cell by cell is the mapped column. *)
Lemma column_at_map_frame (f : string -> cell -> cell) (d : DataFrame)
    (j : nat) (c : string) :
  Forall (fun r => length (values r) = length (columns d)) (rows d) ->
  nth_error (names d) j = Some c ->
  column_at j (rows (map_frame f d)) = map (f c) (column_at j (rows d)).
Proof.
  intros Hw Hj. unfold column_at, map_frame. cbn [rows].
  rewrite !map_map. apply map_ext_in. intros r Hr.
  unfold cell_at. cbn [values].
  apply nth_map_cells; [assumption | ].
  rewrite Forall_forall in Hw. rewrite (Hw r Hr).
  assert (H : (j < length (names d))%nat)
    by (apply nth_error_Some; rewrite Hj; discriminate).
  unfold names in H. rewrite length_map in H. assumption.
Qed.

Lemma nth_error_names (d : DataFrame) (j : nat) (c : string) :
  nth_error (names d) j = Some c ->
  exists ty, nth_error (columns d) j = Some (c, ty).
Proof.
  unfold names. rewrite nth_error_map.
  destruct (nth_error (columns d) j) as [[c' ty] | ]; [ | no_success].
  cbn. intros H. injection H as <-. exists ty. reflexivity.
Qed.

(** Filling a filled frame, with the value computed from it, changes
    nothing. *)
Lemma fillna_again {np : Numpy} (d : DataFrame) (use_mean : bool) :
  well_formed d ->
  let d1 := fillna d (if use_mean then FillScalar (Num (0 # 1))
                      else FillSeries (mean d)) in
  fillna d1 (if use_mean then FillScalar (Num (0 # 1)) else FillSeries (mean d1))
  = d1.
Proof.
  intros [Hw Hnd].
  set (v := if use_mean then FillScalar (Num (0 # 1)) else FillSeries (mean d)).
  intros d1.
  set (v1 := if use_mean then FillScalar (Num (0 # 1)) else FillSeries (mean d1)).
  unfold fillna at 1, map_frame at 1.
  change (columns d1) with (columns d). change (names d1) with (names d).
  unfold d1 at 2. unfold fillna, map_frame. f_equal.
  apply map_fixed. intros r1 Hr1.
  apply in_map_iff in Hr1 as [r [<- Hr]]. cbn [label values]. f_equal.
  assert (Hwr : length (values r) = length (columns d)).
  { rewrite Forall_forall in Hw. apply Hw. assumption. }
  apply map_cells_fixed. intros j c Hj Hlt.
  rewrite length_map_cells in Hlt.
  rewrite (nth_map_cells _ _ _ j c Hj Hlt).
  unfold fill_cell at 1.
  destruct (fill_cell v c (nth j (values r) None)) as [x | ] eqn:Hx;
    [reflexivity | ].
  unfold fill_cell in Hx.
  destruct (nth j (values r) None) as [y | ]; [discriminate | ].
  unfold v, v1 in *. destruct use_mean; [discriminate | ].
  cbn [fill_for] in *.
  destruct (nth_error_names d j c Hj) as [ty Hty].
  unfold mean in *. change (columns d1) with (columns d).
  rewrite (series_lookup_means c ty O j) in * by assumption.
  destruct ty; [ | reflexivity].
  cbn [Nat.add] in *.
  unfold d1, fillna.
  rewrite (column_at_map_frame _ d j c Hw Hj).
  rewrite map_fixed; [assumption | ].
  intros z _. unfold fill_cell. destruct z; [reflexivity | ].
  cbn [fill_for].
  rewrite (series_lookup_means c Numeric O j) by assumption. assumption.
Qed.

(** X6: [try_fill_nan] is idempotent for either flag: on the handler it
    filled, the same call succeeds and leaves the table as it is. *)
Theorem fill_nan_idempotent {np : Numpy} (w : World) (d : DataFrame) (use_mean : bool) :
  table w = Some d ->
  well_formed d ->
  let w1 := fst (try_fill_nan use_mean w) in
  try_fill_nan use_mean w1 = (w1, Returns (true, PyNone)).
Proof.
  unfold table. intros Hd Hwf. cbv zeta.
  set (w1 := fst (try_fill_nan use_mean w)).
  assert (Hw1 : w1 = mkWorld
                  (mkHandler (file_path (self w))
                     (Some (fillna d (if use_mean then FillScalar (Num (0 # 1))
                                      else FillSeries (mean d)))))
                  (fs w) (stdout w)).
  { unfold w1, try_fill_nan, attempt, try_except, bind, ret, df, set_df.
    rewrite Hd. destruct use_mean; cbn [self __df fs stdout file_path fst];
      rewrite ?Hd; reflexivity. }
  rewrite Hw1.
  unfold try_fill_nan, attempt, try_except, bind, ret, df, set_df.
  cbn [self __df fs stdout file_path].
  destruct use_mean; cbn [self __df fs stdout file_path].
  - rewrite (fillna_again d true Hwf). reflexivity.
  - rewrite (fillna_again d false Hwf). reflexivity.
Qed.

Lemma fill_nan_idempotent_witness :
  let w := populated (Some "data.csv") two_rows empty_fs in
  let w1 := fst (try_fill_nan false w) in
  well_formed two_rows
  /\ try_fill_nan false w1 = (w1, Returns (true, PyNone)).
Proof.
  split; [prove_well_formed | ].
  apply (fill_nan_idempotent (populated (Some "data.csv") two_rows empty_fs)
           two_rows false).
  - reflexivity.
  - prove_well_formed.
Defined.

Lemma filter_all {A : Type} (f : A -> bool) (l : list A) :
  (forall x, In x l -> f x = true) -> filter f l = l.
Proof.
  intros H. induction l as [ | x l IH]; cbn; [reflexivity | ].
  rewrite H by (left; reflexivity). f_equal. apply IH.
  intros y Hy. apply H. right. assumption.
Qed.

Lemma filter_mask_all {A : Type} (mask : list bool) (l : list A) :
  Forall (fun b => b = true) mask -> length l = length mask ->
  filter_mask mask l = l.
Proof.
  intros H. revert l. induction H as [ | b mask Hb _ IH]; intros [ | x l]; cbn;
    try reflexivity; try discriminate.
  intros Hl. subst b. f_equal. apply IH. lia.
Qed.

Lemma filter_mask_none {A : Type} (mask : list bool) (l : list A) :
  Forall (fun b => b = false) mask -> filter_mask mask l = [].
Proof.
  intros H. revert l. induction H as [ | b mask Hb _ IH]; intros [ | x l]; cbn;
    try reflexivity.
  subst b. apply IH.
Qed.

Lemma fill_scalar_all_present (s : scalar) (cols : list string) (vs : list cell) :
  length vs = length cols ->
  forallb notna (map_cells (fill_cell (FillScalar s)) cols vs) = true.
Proof.
  revert vs. induction cols as [ | c cols IH]; intros [ | x vs]; cbn;
    try reflexivity; try discriminate.
  intros H. rewrite IH by lia. destruct x; reflexivity.
Qed.

(** In a frame with a row and no missing cell, [dropna] on known columns
    drops neither a row nor a column. *)
Lemma dropna_without_missing (d d1 : DataFrame) (cols : list string) :
  well_formed d ->
  rows d <> [] ->
  (forall r, In r (rows d) -> forallb notna (values r) = true) ->
  (forall c, In c cols -> In c (names d)) ->
  dropna_rows d cols = Returns d1 ->
  d1 = d /\ dropna_columns d = d.
Proof.
  intros [Hw Hn] Hne Hall Hcols.
  rewrite Forall_forall in Hw.
  assert (Hcell : forall r j, In r (rows d) -> (j < length (columns d))%nat ->
                    notna (cell_at j r) = true).
  { intros r j Hr Hj. specialize (Hall r Hr). rewrite forallb_forall in Hall.
    apply Hall. unfold cell_at. apply nth_In. rewrite (Hw r Hr). assumption. }
  unfold dropna_rows. rewrite (first_unknown_known _ _ Hcols).
  intros H. injection H as <-. split.
  - destruct d as [cs rs]. cbn [rows columns] in *. f_equal.
    apply filter_all. intros r Hr. apply forallb_forall. intros c Hc.
    unfold get. destruct (position_In c _ (Hcols c Hc)) as [j Hj]. rewrite Hj.
    apply Hcell; [assumption | ].
    destruct (position_Some _ _ _ Hj) as [_ Hlt].
    unfold names in Hlt. rewrite length_map in Hlt. exact Hlt.
  - assert (Hmask : Forall (fun b => b = true) (present_mask d)).
    { unfold present_mask. rewrite Forall_forall. intros b Hb.
      apply in_map_iff in Hb as [j [<- Hj]]. apply in_seq in Hj.
      destruct (rows d) as [ | r rs] eqn:Hr; [contradiction | ].
      cbn [column_at map existsb].
      rewrite (Hcell r j); [reflexivity | left; reflexivity | lia]. }
    unfold dropna_columns.
    rewrite (filter_mask_all _ (columns d) Hmask)
      by (rewrite length_present_mask; reflexivity).
    destruct d as [cs rs]. cbn [rows columns] in *. f_equal.
    apply map_fixed. intros r Hr.
    rewrite filter_mask_all; [apply row_eta | assumption | ].
    rewrite length_present_mask. cbn [columns]. apply Hw. assumption.
Qed.

(** X7: after [try_fill_nan(True)] on a well-formed table with at least
    one row no cell is missing, and a [try_drop_nan] on columns of the
    table succeeds and changes nothing. *)
Theorem fill_zero_then_drop_nan {np : Numpy} (w : World) (d : DataFrame) (cols : cols_arg) :
  table w = Some d ->
  well_formed d ->
  rows d <> [] ->
  (forall c, In c (as_list cols) -> In c (names d)) ->
  let w1 := fst (try_fill_nan true w) in
  (exists d1, table w1 = Some d1
              /\ forall r, In r (rows d1) -> forallb notna (values r) = true)
  /\ try_drop_nan cols w1 = (w1, Returns (true, PyNone)).
Proof.
  unfold table. intros Hd Hwf Hne Hcols. cbv zeta.
  set (d1 := fillna d (FillScalar (Num (0 # 1)))).
  assert (Hw1 : fst (try_fill_nan true w)
                = mkWorld (mkHandler (file_path (self w)) (Some d1)) (fs w) (stdout w)).
  { unfold try_fill_nan, attempt, try_except, bind, ret, df, set_df.
    rewrite Hd. reflexivity. }
  rewrite Hw1. cbn [self __df].
  assert (Hall : forall r, In r (rows d1) -> forallb notna (values r) = true).
  { intros r1 Hr1. unfold d1, fillna, map_frame in Hr1. cbn [rows] in Hr1.
    apply in_map_iff in Hr1 as [r [<- Hr]]. cbn [values].
    apply fill_scalar_all_present.
    destruct Hwf as [Hw _]. rewrite Forall_forall in Hw.
    unfold names. rewrite length_map. apply Hw. assumption. }
  split; [exists d1; split; [reflexivity | exact Hall] | ].
  assert (Hwf1 : well_formed d1) by (apply well_formed_map_frame; assumption).
  assert (Hne1 : rows d1 <> []).
  { unfold d1, fillna, map_frame. cbn [rows].
    destruct (rows d); [contradiction | discriminate]. }
  unfold try_drop_nan, attempt, try_except, bind, ret, lift, df, set_df.
  cbn [self __df fs stdout file_path].
  destruct (dropna_rows d1 (as_list cols)) as [d2 | e] eqn:H2.
  - destruct (dropna_without_missing d1 d2 (as_list cols) Hwf1 Hne1 Hall Hcols H2)
      as [-> Hc].
    cbn [self __df fs stdout file_path]. rewrite Hc. reflexivity.
  - unfold dropna_rows in H2.
    rewrite (first_unknown_known _ (names d1) Hcols) in H2. discriminate.
Qed.

Lemma fill_zero_then_drop_nan_witness :
  let w := populated (Some "data.csv") two_rows empty_fs in
  let w1 := fst (try_fill_nan true w) in
  well_formed two_rows
  /\ try_drop_nan (Col "b") w1 = (w1, Returns (true, PyNone)).
Proof.
  split; [prove_well_formed | ].
  apply (fill_zero_then_drop_nan
           (populated (Some "data.csv") two_rows empty_fs) two_rows (Col "b")).
  - reflexivity.
  - prove_well_formed.
  - discriminate.
  - intros c [<- | []]. cbn. tauto.
Defined.

(** ** [try_clamp_cols], again and with the bounds exchanged *)

Lemma clip_bounds_are_ordered (lo hi : Q) :
  (fst (clip_bounds lo hi) <= snd (clip_bounds lo hi))%Q.
Proof.
  unfold clip_bounds. destruct (Qle_bool lo hi) eqn:E; cbn.
  - apply Qle_bool_iff. assumption.
  - apply Qlt_le_weak, Qnot_le_lt. intros H.
    apply Qle_bool_iff in H. congruence.
Qed.

Lemma clip_Q_again (lo hi q : Q) :
  (lo <= hi)%Q -> clip_Q lo hi (clip_Q lo hi q) = clip_Q lo hi q.
Proof.
  intros H. destruct (clip_Q_in_range lo hi q H).
  apply clip_Q_fixes_range; assumption.
Qed.

Lemma clip_cell_again (lo hi : Q) (x : cell) :
  (lo <= hi)%Q -> clip_cell lo hi (clip_cell lo hi x) = clip_cell lo hi x.
Proof.
  intros H. destruct x as [[q | s] | ]; cbn; try reflexivity.
  rewrite clip_Q_again by assumption. reflexivity.
Qed.

Lemma is_str_clip_cell (lo hi : Q) (x : cell) :
  is_str (clip_cell lo hi x) = is_str x.
Proof. destruct x as [[q | s] | ]; reflexivity. Qed.

Lemma map_cells_again (f : string -> cell -> cell) (cols : list string)
    (vs : list cell) :
  (forall c x, f c (f c x) = f c x) ->
  map_cells f cols (map_cells f cols vs) = map_cells f cols vs.
Proof.
  intros H. revert vs. induction cols as [ | c cols IH]; intros [ | x vs]; cbn;
    try reflexivity.
  rewrite H, IH. reflexivity.
Qed.

Lemma map_frame_again (f : string -> cell -> cell) (d : DataFrame) :
  (forall c x, f c (f c x) = f c x) ->
  map_frame f (map_frame f d) = map_frame f d.
Proof.
  intros H. unfold map_frame. cbn [rows columns]. f_equal.
  rewrite map_map. apply map_ext. intros r. cbn [label values].
  unfold names. cbn [columns].
  rewrite (map_cells_again f _ _ H). reflexivity.
Qed.

(** Clamping a clamped frame changes nothing. *)
Lemma clamped_again (d : DataFrame) (cols : list string) (lo hi : Q) :
  clamped (clamped d cols lo hi) cols lo hi = clamped d cols lo hi.
Proof.
  unfold clamped. apply map_frame_again.
  intros c x. destruct (mem c cols); [ | reflexivity].
  apply clip_cell_again. apply clip_bounds_are_ordered.
Qed.

(** X8: [try_clamp_cols] is idempotent: after a successful call on a
    well-formed table, the same call succeeds again and leaves the table
    as it is, whatever the order of the two bounds. *)
Theorem clamp_cols_idempotent
    (w w1 : World) (d : DataFrame) (cols : cols_arg) (min_v max_v : Q)
    (p : payload) :
  table w = Some d ->
  well_formed d ->
  try_clamp_cols cols min_v max_v w = (w1, Returns (true, p)) ->
  try_clamp_cols cols min_v max_v w1 = (w1, Returns (true, PyNone)).
Proof.
  intros Hd Hwf H.
  destruct (try_clamp_cols_success w w1 d cols min_v max_v p Hd Hwf H)
    as [-> [Hk [Hstr Hnd]]].
  set (d1 := clamped d (as_list cols) min_v max_v).
  rewrite (try_clamp_cols_runs
             (mkWorld (mkHandler (file_path (self w)) (Some d1)) (fs w) (stdout w))
             d1 cols min_v max_v eq_refl).
  - cbn [self file_path fs stdout]. unfold d1. rewrite clamped_again. reflexivity.
  - apply well_formed_map_frame. assumption.
  - exact Hk.
  - intros r1 c Hr1 Hc. unfold d1, clamped, map_frame in Hr1. cbn [rows] in Hr1.
    apply in_map_iff in Hr1 as [r [<- Hr]].
    destruct Hwf as [Hw _]. rewrite Forall_forall in Hw.
    unfold d1, clamped.
    rewrite get_map_frame;
      [ | apply Hw; assumption | eapply first_unknown_None; eassumption].
    rewrite (proj2 (mem_In c (as_list cols)) Hc), is_str_clip_cell.
    apply Hstr; assumption.
  - exact Hnd.
Qed.

Lemma clamp_cols_idempotent_witness :
  let w := populated (Some "data.csv") two_rows empty_fs in
  let w1 := fst (try_clamp_cols (Col "a") (2 # 1) (0 # 1) w) in
  well_formed two_rows
  /\ try_clamp_cols (Col "a") (2 # 1) (0 # 1) w1 = (w1, Returns (true, PyNone)).
Proof.
  split; [prove_well_formed | ].
  apply (clamp_cols_idempotent
           (populated (Some "data.csv") two_rows empty_fs)
           (fst (try_clamp_cols (Col "a") (2 # 1) (0 # 1)
                   (populated (Some "data.csv") two_rows empty_fs)))
           two_rows (Col "a") (2 # 1) (0 # 1) PyNone).
  - reflexivity.
  - prove_well_formed.
  - reflexivity.
Defined.

(** X9: bounds given in the wrong order are put in order: with
    [lo < hi], [try_clamp_cols cols hi lo] does what
    [try_clamp_cols cols lo hi] does. *)
Theorem clamp_cols_bounds_exchanged (w : World) (cols : cols_arg) (lo hi : Q) :
  (lo < hi)%Q ->
  try_clamp_cols cols hi lo w = try_clamp_cols cols lo hi w.
Proof.
  intros H.
  assert (E1 : clip_bounds lo hi = (lo, hi))
    by (apply clip_bounds_ordered, Qlt_le_weak; assumption).
  assert (E2 : clip_bounds hi lo = (lo, hi)).
  { unfold clip_bounds. destruct (Qle_bool hi lo) eqn:E; [ | reflexivity].
    apply Qle_bool_iff in E. exfalso. eapply Qlt_not_le; eassumption. }
  assert (E : forall sub, clip sub hi lo = clip sub lo hi).
  { intros sub. unfold clip. rewrite E1, E2. reflexivity. }
  unfold try_clamp_cols, attempt, try_except, bind, ret, lift, df, set_df.
  destruct (__df (self w)) as [d | ]; [ | reflexivity].
  destruct (getitem d (as_list cols)) as [sub | e]; [ | reflexivity].
  rewrite E. reflexivity.
Qed.

Lemma clamp_cols_bounds_exchanged_witness :
  let w := populated (Some "data.csv") two_rows empty_fs in
  try_clamp_cols (Col "a") (2 # 1) (0 # 1) w
  = try_clamp_cols (Col "a") (0 # 1) (2 # 1) w.
Proof.
  apply (clamp_cols_bounds_exchanged
           (populated (Some "data.csv") two_rows empty_fs) (Col "a")
           (0 # 1) (2 # 1)).
  reflexivity.
Defined.

(** ** [try_save] and the source file *)

Lemma length_string_append (a b : string) :
  String.length (a ++ b) = (String.length a + String.length b)%nat.
Proof. induction a as [ | c a IH]; cbn; [reflexivity | rewrite IH; reflexivity]. Qed.

Section ReplaceGrows.

Variables old new : string.
Hypothesis old_not_empty : (1 <= String.length old)%nat.
Hypothesis new_not_shorter : (String.length old <= String.length new)%nat.

(** A replacement by a text that is not shorter loses no length, up to
    the characters still to be passed over. *)
Lemma replace_from_length (s : string) (k : nat) :
  (String.length s <= String.length (replace_from old new k s) + k)%nat.
Proof.
  revert k. induction s as [ | c s IH]; intros k; cbn [replace_from];
    [cbn; lia | ].
  destruct k as [ | k].
  - destruct (String.prefix old (String c s)).
    + rewrite length_string_append.
      specialize (IH (String.length old - 1)%nat). cbn [String.length]. lia.
    + specialize (IH O). cbn [String.length]. lia.
  - specialize (IH k). cbn [String.length]. lia.
Qed.

Hypothesis new_longer : (String.length old < String.length new)%nat.

(** With a longer text, one occurrence makes the result longer. *)
Lemma replace_from_grows (s : string) :
  occurs old s = true ->
  (String.length s < String.length (replace_from old new O s))%nat.
Proof.
  induction s as [ | c s IH]; cbn [occurs replace_from].
  - destruct old; [cbn in old_not_empty; lia | discriminate].
  - destruct (String.prefix old (String c s)); cbn [orb].
    + intros _. rewrite length_string_append.
      pose proof (replace_from_length s (String.length old - 1)).
      cbn [String.length]. lia.
    + intros H. specialize (IH H). cbn [String.length]. lia.
Qed.

End ReplaceGrows.

(** A path that contains ".csv" is not its own output path. *)
Lemma save_path_differs (p : string) :
  occurs ".csv" p = true -> replace ".csv" "_new.csv" p <> p.
Proof.
  intros H E.
  assert (L : (String.length p
               < String.length (replace_from ".csv" "_new.csv" O p))%nat).
  { apply replace_from_grows; try assumption; cbn; lia. }
  unfold replace in E. rewrite E in L. lia.
Qed.

(** X10: when the source path contains ".csv", [try_save] leaves the
    file at the source path as it is, whatever the call returns. *)
Theorem save_keeps_source (w w' : World) (p : string) (r : outcome result) :
  file_path (self w) = Some p ->
  occurs ".csv" p = true ->
  try_save w = (w', r) ->
  files (fs w') p = files (fs w) p.
Proof.
  intros Hp Ho.
  unfold try_save, attempt, try_except, bind, ret, lift, get_file_path, df,
    py_to_csv, str_replace, to_csv.
  rewrite Hp.
  destruct (__df (self w)) as [d | ];
    [ | intros H; injection H as <- _; reflexivity].
  destruct (writable (fs w) (replace ".csv" "_new.csv" p));
    intros H; injection H as <- _; [ | reflexivity].
  cbn [fs files write_file].
  change (replace_from ".csv" "_new.csv" O p) with (replace ".csv" "_new.csv" p).
  destruct (String.eqb_spec p (replace ".csv" "_new.csv" p)) as [E | _];
    [ | reflexivity].
  exfalso. apply (save_path_differs p Ho). symmetry. exact E.
Qed.

Lemma save_keeps_source_witness :
  let w := populated (Some "data.csv") two_rows empty_fs in
  occurs ".csv" "data.csv" = true
  /\ files (fs (fst (try_save w))) "data.csv" = None.
Proof.
  split; [reflexivity | ].
  apply (save_keeps_source
           (populated (Some "data.csv") two_rows empty_fs)
           (fst (try_save (populated (Some "data.csv") two_rows empty_fs)))
           "data.csv"
           (snd (try_save (populated (Some "data.csv") two_rows empty_fs)))).
  - reflexivity.
  - reflexivity.
  - reflexivity.
Defined.

(** X11: when the source path does not contain ".csv", a [try_save] that
    can write replaces the source file itself by the table, index column
    included. *)
Theorem save_overwrites_source (w : World) (d : DataFrame) (p : string) :
  table w = Some d ->
  file_path (self w) = Some p ->
  occurs ".csv" p = false ->
  writable (fs w) p = true ->
  exists w' : World,
    try_save w = (w', Returns (true, PyNone))
    /\ files (fs w') p = Some (Csv (csv_of d))
    /\ table w' = Some d.
Proof.
  unfold table. intros Hd Hp Ho Hw.
  unfold try_save, attempt, try_except, bind, ret, lift, get_file_path, df,
    py_to_csv, str_replace, to_csv.
  rewrite Hp, Hd, (save_path_without_csv p Ho), Hw.
  eexists. split; [reflexivity | ].
  cbn [fs files write_file self __df]. rewrite String.eqb_refl.
  split; [reflexivity | assumption].
Qed.

Lemma save_overwrites_source_witness :
  let w := populated (Some "data.txt") two_rows empty_fs in
  exists w' : World,
    try_save w = (w', Returns (true, PyNone))
    /\ files (fs w') "data.txt" = Some (Csv (csv_of two_rows)).
Proof.
  destruct (save_overwrites_source
              (populated (Some "data.txt") two_rows empty_fs) two_rows "data.txt"
              eq_refl eq_refl eq_refl eq_refl)
    as [w' [H1 [H2 _]]].
  exists w'. split; assumption.
Defined.

(** ** [try_add_col], row by row *)

Lemma apply_each_returns (f : Series -> outcome cell) (ss : list Series)
    (vs : list cell) :
  apply_each f ss = Returns vs -> Forall2 (fun s v => f s = Returns v) ss vs.
Proof.
  revert vs. induction ss as [ | s ss IH]; intros vs; cbn.
  - intros H. injection H as <-. constructor.
  - destruct (f s) as [v | e] eqn:Hv; [ | no_success]. cbn.
    destruct (apply_each f ss) as [vs' | e]; [ | no_success]. cbn.
    intros H. injection H as <-. constructor; [assumption | apply IH; reflexivity].
Qed.

(** The first raise of the function is the raise of the run. *)
Lemma apply_each_raises (f : Series -> outcome cell) (pre post : list Series)
    (s : Series) (e : exn) :
  Forall (fun x => exists v, f x = Returns v) pre ->
  f s = Raises e ->
  apply_each f (pre ++ s :: post) = Raises e.
Proof.
  induction 1 as [ | x pre [v Hv] _ IH]; intros Hs; cbn.
  - rewrite Hs. reflexivity.
  - rewrite Hv. cbn. rewrite (IH Hs). reflexivity.
Qed.

Lemma labels_eqb_refl (l : list scalar) : labels_eqb l l = true.
Proof.
  induction l as [ | x l IH]; cbn; [reflexivity | ].
  rewrite scalar_eqb_refl. assumption.
Qed.

Lemma map_fst_combine {A B : Type} (a : list A) (b : list B) :
  length a = length b -> map fst (combine a b) = a.
Proof.
  revert b. induction a as [ | x a IH]; intros [ | y b]; cbn;
    try reflexivity; try discriminate.
  intros H. f_equal. apply IH. lia.
Qed.

Lemma map_snd_combine {A B : Type} (a : list A) (b : list B) :
  length a = length b -> map snd (combine a b) = b.
Proof.
  revert b. induction a as [ | x a IH]; intros [ | y b]; cbn;
    try reflexivity; try discriminate.
  intros H. f_equal. apply IH. lia.
Qed.

(** A result labelled by the rows of the frame is taken as it comes. *)
Lemma align_own_labels (d : DataFrame) (vs : list cell) :
  length vs = length (rows d) ->
  align d (combine (map label (rows d)) vs) = Returns vs.
Proof.
  intros H. unfold align.
  assert (L : length (map label (rows d)) = length vs)
    by (rewrite length_map; symmetry; assumption).
  rewrite (map_fst_combine _ _ L), labels_eqb_refl, (map_snd_combine _ _ L).
  reflexivity.
Qed.

Lemma nth_error_combine {A B : Type} (a : list A) (b : list B) (i : nat)
    (x : A) (y : B) :
  nth_error a i = Some x -> nth_error b i = Some y ->
  nth_error (combine a b) i = Some (x, y).
Proof.
  revert b i. induction a as [ | x' a IH]; intros [ | y' b] [ | i]; cbn;
    try discriminate.
  - intros H1 H2. injection H1 as ->. injection H2 as ->. reflexivity.
  - apply IH.
Qed.

(** X13: on a table with at least one row, a successful
    [try_add_col target criteria 1] keeps the rows and their labels, gives every row the value of [criteria] on that row as
    its cell under [target], and leaves the other cells: the cell
    replaces the old one when [target] is a column already, and comes
    last, under a new last column, when it is not. *)
Theorem add_col_per_row
    (w w' : World) (d : DataFrame) (target : string)
    (criteria : Series -> outcome cell) (p : payload) :
  table w = Some d ->
  rows d <> [] ->
  try_add_col target criteria 1 w = (w', Returns (true, p)) ->
  exists d' : DataFrame,
    table w' = Some d'
    /\ row_count d' = row_count d
    /\ names d' = match position target (names d) with
                  | Some _ => names d
                  | None => (names d ++ [target])%list
                  end
    /\ forall (i : nat) (r : Row),
         nth_error (rows d) i = Some r ->
         exists (r' : Row) (v : cell),
           nth_error (rows d') i = Some r'
           /\ label r' = label r
           /\ criteria (row_series d r) = Returns v
           /\ values r' = match position target (names d) with
                          | Some j => replace_nth j v (values r)
                          | None => (values r ++ [v])%list
                          end.
Proof.
  unfold table. intros Hd _.
  unfold try_add_col, attempt, try_except, bind, ret, lift, df, set_df.
  rewrite Hd. unfold apply. cbn [Z.eqb Pos.eqb].
  destruct (apply_each criteria (map (row_series d) (rows d))) as [vs | e] eqn:Ha;
    [ | cbn; destruct (is_exception e); discriminate].
  cbn [obind]. rewrite Hd.
  apply apply_each_returns in Ha.
  assert (Hlen : length vs = length (rows d)).
  { apply Forall2_length in Ha. rewrite length_map in Ha. symmetry. assumption. }
  unfold setitem. rewrite (align_own_labels d vs Hlen). cbn [obind].
  assert (Hrow : forall i r, nth_error (rows d) i = Some r ->
                   exists v, nth_error vs i = Some v
                             /\ criteria (row_series d r) = Returns v).
  { intros i r Hr.
    destruct (nth_error vs i) as [v | ] eqn:Hv.
    - exists v. split; [reflexivity | ].
      assert (Hs : nth_error (map (row_series d) (rows d)) i = Some (row_series d r))
        by (rewrite nth_error_map, Hr; reflexivity).
      clear - Ha Hs Hv. revert i Hs Hv.
      induction Ha as [ | s v' ss vs' Hsv _ IH]; intros [ | i]; cbn;
        try discriminate.
      + intros H1 H2. injection H1 as <-. injection H2 as <-. assumption.
      + apply IH.
    - exfalso. apply nth_error_None in Hv.
      assert (i < length (rows d))%nat
        by (apply nth_error_Some; rewrite Hr; discriminate).
      lia. }
  destruct (position target (names d)) as [j | ] eqn:Hp;
    intros H; injection H as <- _; cbn [self __df];
    eexists; (split; [reflexivity | ]); cbn [rows columns];
    (split; [unfold row_count; cbn [rows];
             rewrite length_map, length_combine; lia | ]).
  - split.
    + unfold names at 1. cbn [columns]. rewrite map_fst_replace_nth. cbn [fst].
      fold (names d). apply replace_nth_position. assumption.
    + intros i r Hr. destruct (Hrow i r Hr) as [v [Hv Hc]].
      eexists. exists v. split.
      * rewrite nth_error_map, (nth_error_combine _ _ _ _ _ Hr Hv). reflexivity.
      * repeat split. assumption.
  - split.
    + unfold names at 1. cbn [columns]. rewrite map_app. reflexivity.
    + intros i r Hr. destruct (Hrow i r Hr) as [v [Hv Hc]].
      eexists. exists v. split.
      * rewrite nth_error_map, (nth_error_combine _ _ _ _ _ Hr Hv). reflexivity.
      * repeat split. assumption.
Qed.

Lemma add_col_per_row_witness :
  let w := populated (Some "data.csv") two_rows empty_fs in
  let f := fun s : Series => Returns (Some (sname s)) in
  table (fst (try_add_col "c" f 1 w))
  = Some (mkDF [("a", Numeric); ("b", Numeric); ("c", Numeric)]
               [mkRow (range_label 0) [N 3; N 1; N 0];
                mkRow (range_label 1) [N 1; None; N 1]])
  /\ exists d' : DataFrame,
       table (fst (try_add_col "c" f 1 w)) = Some d'
       /\ row_count d' = row_count two_rows.
Proof.
  split; [reflexivity | ].
  destruct (add_col_per_row
              (populated (Some "data.csv") two_rows empty_fs)
              (fst (try_add_col "c" (fun s : Series => Returns (Some (sname s))) 1
                      (populated (Some "data.csv") two_rows empty_fs)))
              two_rows "c" (fun s : Series => Returns (Some (sname s))) PyNone)
    as [d' [Ht [Hn _]]].
  - reflexivity.
  - discriminate.
  - reflexivity.
  - exists d'. split; assumption.
Defined.

(** X14: when [criteria] returns on the rows before some row and raises
    on that row, [try_add_col target criteria 1] changes nothing and
    returns [(False, that exception)] when the exception derives from
    [Exception]; one that does not ([SystemExit], [KeyboardInterrupt])
    leaves the method as it is. *)
Theorem add_col_first_raise
    (w : World) (d : DataFrame) (target : string)
    (criteria : Series -> outcome cell) (pre post : list Row) (r : Row) (e : exn) :
  table w = Some d ->
  rows d = (pre ++ r :: post)%list ->
  Forall (fun x => exists v, criteria (row_series d x) = Returns v) pre ->
  criteria (row_series d r) = Raises e ->
  try_add_col target criteria 1 w
  = (w, if is_exception e then Returns (false, Exc e) else Raises e).
Proof.
  unfold table. intros Hd Hrows Hpre Hr.
  unfold try_add_col, attempt, try_except, bind, ret, lift, df, set_df.
  rewrite Hd. unfold apply. cbn [Z.eqb Pos.eqb].
  rewrite Hrows, map_app. cbn [map].
  rewrite (apply_each_raises criteria _ _ _ e);
    [cbn; destruct (is_exception e); reflexivity | | assumption].
  rewrite Forall_forall in *. intros s Hs.
  apply in_map_iff in Hs as [x [<- Hx]]. apply Hpre. assumption.
Qed.

Lemma add_col_first_raise_witness :
  let w := populated (Some "data.csv") two_rows empty_fs in
  let f := fun s : Series =>
             if scalar_eqb (sname s) (range_label 1)
             then Raises (UserError "boom") else Returns None in
  try_add_col "c" f 1 w = (w, Returns (false, Exc (UserError "boom"))).
Proof.
  apply (add_col_first_raise
           (populated (Some "data.csv") two_rows empty_fs) two_rows "c"
           (fun s : Series =>
              if scalar_eqb (sname s) (range_label 1)
              then Raises (UserError "boom") else Returns None)
           [mkRow (range_label 0) [N 3; N 1]] []
           (mkRow (range_label 1) [N 1; None]) (UserError "boom")).
  - reflexivity.
  - reflexivity.
  - constructor; [exists None; reflexivity | constructor].
  - reflexivity.
Defined.

(** ** [try_drop_nan]: no row left, and again *)

(** X16: when every row misses a cell under [cols], a successful
    [try_drop_nan cols] leaves a table without rows and without columns:
    columns that never missed a value go as well. *)
Theorem drop_nan_no_row_left
    (w w' : World) (d : DataFrame) (cols : cols_arg) (p : payload) :
  table w = Some d ->
  kept_rows d (as_list cols) = [] ->
  try_drop_nan cols w = (w', Returns (true, p)) ->
  table w' = Some (mkDF [] []).
Proof.
  unfold table. intros Hd Hk.
  unfold try_drop_nan, attempt, try_except, bind, ret, lift, df, set_df.
  rewrite Hd. unfold dropna_rows.
  destruct (first_unknown (as_list cols) (names d)); [discriminate | ].
  cbn [self __df fs stdout file_path].
  intros H. injection H as <- _. cbn [self __df].
  fold (kept_rows d (as_list cols)). rewrite Hk.
  unfold dropna_columns. cbn [rows columns map]. f_equal. f_equal.
  apply filter_mask_none. unfold present_mask. cbn [rows columns].
  rewrite Forall_forall. intros b Hb.
  apply in_map_iff in Hb as [j [<- _]]. reflexivity.
Qed.

Lemma drop_nan_no_row_left_witness :
  let w := populated (Some "data.csv")
             (mkDF [("a", Numeric); ("b", Numeric)]
                   [mkRow (range_label 0) [N 1; None]]) empty_fs in
  table (fst (try_drop_nan (Col "b") w)) = Some (mkDF [] []).
Proof.
  apply (drop_nan_no_row_left
           (populated (Some "data.csv")
              (mkDF [("a", Numeric); ("b", Numeric)]
                    [mkRow (range_label 0) [N 1; None]]) empty_fs)
           (fst (try_drop_nan (Col "b")
                   (populated (Some "data.csv")
                      (mkDF [("a", Numeric); ("b", Numeric)]
                            [mkRow (range_label 0) [N 1; None]]) empty_fs)))
           (mkDF [("a", Numeric); ("b", Numeric)]
                 [mkRow (range_label 0) [N 1; None]])
           (Col "b") PyNone).
  - reflexivity.
  - reflexivity.
  - reflexivity.
Defined.

(** On a frame where no row misses a cell under [cols] and every column
    holds a present cell, neither step of the method drops anything. *)
Lemma dropna_fixed (d : DataFrame) (cols : list string) :
  well_formed d ->
  (forall c, In c cols -> In c (names d)) ->
  (forall r c, In r (rows d) -> In c cols -> notna (get d c r) = true) ->
  (forall c, In c (names d) ->
             exists r, In r (rows d) /\ notna (get d c r) = true) ->
  dropna_rows d cols = Returns d /\ dropna_columns d = d.
Proof.
  intros [Hw Hn] Hcols Hrows Hcol. rewrite Forall_forall in Hw. split.
  - unfold dropna_rows. rewrite (first_unknown_known _ _ Hcols).
    destruct d as [cs rs]. cbn [rows columns] in *. do 2 f_equal.
    apply filter_all. intros r Hr. apply forallb_forall. intros c Hc.
    apply Hrows; assumption.
  - assert (Hmask : Forall (fun b => b = true) (present_mask d)).
    { unfold present_mask. rewrite Forall_forall. intros b Hb.
      apply in_map_iff in Hb as [j [<- Hj]]. apply in_seq in Hj.
      assert (Hlt : (j < length (names d))%nat)
        by (unfold names; rewrite length_map; lia).
      destruct (nth_error (names d) j) as [c | ] eqn:Hc;
        [ | apply nth_error_None in Hc; lia].
      destruct (Hcol c (nth_error_In _ _ Hc)) as [r [Hr Hp]].
      apply existsb_column_at. exists r. split; [assumption | ].
      unfold get in Hp. rewrite (position_nth_error _ _ _ Hn Hc) in Hp.
      assumption. }
    unfold dropna_columns.
    rewrite (filter_mask_all _ (columns d) Hmask)
      by (rewrite length_present_mask; reflexivity).
    destruct d as [cs rs]. cbn [rows columns] in *. f_equal.
    apply map_fixed. intros r Hr.
    rewrite filter_mask_all; [apply row_eta | assumption | ].
    rewrite length_present_mask. cbn [columns]. apply Hw. assumption.
Qed.

(** X17: [try_drop_nan] is idempotent while a row remains: after a
    successful call on a well-formed table that keeps at least one row,
    the same call succeeds again and leaves the table as it is. *)
Theorem drop_nan_idempotent
    (w w1 : World) (d : DataFrame) (cols : cols_arg) (p : payload) :
  table w = Some d ->
  well_formed d ->
  kept_rows d (as_list cols) <> [] ->
  try_drop_nan cols w = (w1, Returns (true, p)) ->
  try_drop_nan cols w1 = (w1, Returns (true, PyNone)).
Proof.
  unfold table. intros Hd Hwf Hne.
  unfold try_drop_nan at 1, attempt, try_except, bind, ret, lift, df, set_df.
  rewrite Hd.
  destruct (dropna_rows d (as_list cols)) as [d1 | e] eqn:H1; [ | no_success].
  cbn [self __df fs stdout file_path].
  intros H. injection H as <- _.
  pose proof (well_formed_dropna_rows d d1 _ Hwf H1) as Hwf1.
  unfold dropna_rows in H1.
  destruct (first_unknown (as_list cols) (names d)) eqn:Hk; [discriminate | ].
  injection H1 as H1. fold (kept_rows d (as_list cols)) in H1.
  assert (Hnames : names d1 = names d) by (rewrite <- H1; reflexivity).
  assert (Hrows1 : rows d1 = kept_rows d (as_list cols))
    by (rewrite <- H1; reflexivity).
  assert (Hget : forall c r, get d1 c r = get d c r)
    by (intros c r; unfold get; rewrite Hnames; reflexivity).
  destruct Hwf1 as [Hw1 Hn1].
  set (d2 := dropna_columns d1).
  assert (Hrows2 : rows d2
                   = map (fun r => mkRow (label r)
                                     (filter_mask (present_mask d1) (values r)))
                         (rows d1)) by reflexivity.
  assert (Hfix : dropna_rows d2 (as_list cols) = Returns d2
                 /\ dropna_columns d2 = d2).
  { apply dropna_fixed.
    - apply well_formed_dropna_columns. split; assumption.
    - (* the columns of cols are retained: a row remains *)
      intros c Hc.
      assert (Hex : exists r, In r (rows d1)).
      { rewrite Hrows1. destruct (kept_rows d (as_list cols)) as [ | r rs];
          [contradiction | exists r; left; reflexivity]. }
      destruct Hex as [r Hin].
      assert (Hcd : In c (names d1))
        by (rewrite Hnames; eapply first_unknown_None; eassumption).
      destruct (position_In c _ Hcd) as [j Hj].
      apply (dropna_columns_keeps d1 Hw1 c j r Hin Hj).
      apply existsb_column_at. exists r. split; [assumption | ].
      rewrite Hrows1 in Hin. unfold kept_rows in Hin.
      apply filter_In in Hin as [_ Hall]. rewrite forallb_forall in Hall.
      specialize (Hall c Hc). unfold get in Hall.
      rewrite <- Hnames, Hj in Hall. assumption.
    - (* no remaining row misses a cell under cols *)
      intros r2 c Hr2 Hc. rewrite Hrows2 in Hr2.
      apply in_map_iff in Hr2 as [r [<- Hr]].
      assert (Hcd : In c (names d1))
        by (rewrite Hnames; eapply first_unknown_None; eassumption).
      destruct (position_In c _ Hcd) as [j Hj].
      assert (Hp : notna (get d1 c r) = true).
      { rewrite Hget. rewrite Hrows1 in Hr. unfold kept_rows in Hr.
        apply filter_In in Hr as [_ Hall]. rewrite forallb_forall in Hall.
        apply Hall. assumption. }
      destruct (dropna_columns_keeps d1 Hw1 c j r Hr Hj) as [_ Hg].
      + apply existsb_column_at. exists r. split; [assumption | ].
        unfold get in Hp. rewrite Hj in Hp. assumption.
      + cbv zeta in Hg. fold d2 in Hg. rewrite Hg. assumption.
    - (* every retained column holds a present cell *)
      intros c Hc.
      assert (Hcd : In c (names d1)).
      { unfold d2, names at 1, dropna_columns in Hc. cbn [columns] in Hc.
        rewrite map_fst_filter_mask in Hc. eapply In_filter_mask. eassumption. }
      destruct (position_In c _ Hcd) as [j Hj].
      destruct (existsb notna (column_at j (rows d1))) eqn:He.
      + pose proof He as He'.
        apply existsb_column_at in He' as [r [Hr Hp]].
        destruct (dropna_columns_keeps d1 Hw1 c j r Hr Hj He) as [_ Hg].
        cbv zeta in Hg. fold d2 in Hg.
        eexists. split.
        * rewrite Hrows2. apply in_map. eassumption.
        * rewrite Hg. unfold get. rewrite Hj. assumption.
      + exfalso. revert Hc.
        apply (dropna_columns_drops d1 c j); assumption. }
  destruct Hfix as [Hf1 Hf2].
  unfold try_drop_nan, attempt, try_except, bind, ret, lift, df, set_df.
  cbn [self __df fs stdout file_path].
  fold d2. rewrite Hf1. cbn [self __df fs stdout file_path].
  rewrite Hf2. reflexivity.
Qed.

Lemma drop_nan_idempotent_witness :
  let w := populated (Some "data.csv") three_rows empty_fs in
  let w1 := fst (try_drop_nan (Col "b") w) in
  well_formed three_rows
  /\ try_drop_nan (Col "b") w1 = (w1, Returns (true, PyNone)).
Proof.
  split; [prove_well_formed | ].
  apply (drop_nan_idempotent
           (populated (Some "data.csv") three_rows empty_fs)
           (fst (try_drop_nan (Col "b")
                   (populated (Some "data.csv") three_rows empty_fs)))
           three_rows (Col "b") PyNone).
  - reflexivity.
  - prove_well_formed.
  - discriminate.
  - reflexivity.
Defined.

(** ** [try_get_groupby] *)

Lemma first_unknown_Some (cols l : list string) (c : string) :
  first_unknown cols l = Some c -> In c cols /\ ~ In c l.
Proof.
  induction cols as [ | x cols IH]; cbn; [discriminate | ].
  destruct (mem x l) eqn:Hm.
  - intros H. destruct (IH H). split; [right | ]; assumption.
  - intros H. injection H as <-. split; [left; reflexivity | ].
    intros Hin. apply mem_In in Hin. congruence.
Qed.

(** What a call of [try_get_groupby] does on a populated handler. *)
Lemma try_get_groupby_run (w : World) (d : DataFrame) (target_col : cols_arg)
    (col : string) :
  table w = Some d ->
  try_get_groupby target_col col w =
  match groupby_select d target_col col with
  | Returns g => (w, Returns (true, Grouped g))
  | Raises e => (w, Returns (false, Exc e))
  end.
Proof.
  unfold table. intros Hd.
  unfold try_get_groupby, try_except, bind, ret, lift, df.
  rewrite Hd.
  destruct (groupby_select d target_col col) as [g | e] eqn:Hg; [reflexivity | ].
  cbn. rewrite (groupby_select_exception _ _ _ _ Hg). reflexivity.
Qed.

(** When the grouping is accepted, and as what. *)
Lemma grouper_spec (d : DataFrame) (target_col : cols_arg) :
  match grouper d target_col with
  | Returns ks =>
      match target_col with
      | Col c => In c (names d)
      | Cols cs =>
          cs <> []
          /\ ((forall c, In c cs -> In c (names d))
              \/ length cs = length (rows d))
      end
      /\ ks = match first_unknown (as_list target_col) (names d) with
              | None => ByColumns (as_list target_col)
              | Some _ => ByValues (as_list target_col)
              end
  | Raises e =>
      ~ match target_col with
        | Col c => In c (names d)
        | Cols cs =>
            cs <> []
            /\ ((forall c, In c cs -> In c (names d))
                \/ length cs = length (rows d))
        end
      /\ ((exists k, e = KeyError k) \/ e = ValueError "No group keys passed!")
  end.
Proof.
  destruct target_col as [c | cs]; cbn [grouper as_list].
  - cbn [first_unknown]. destruct (mem c (names d)) eqn:Hm.
    + split; [apply mem_In; assumption | reflexivity].
    + split; [ | left; eexists; reflexivity].
      intros H. apply mem_In in H. congruence.
  - destruct cs as [ | c0 cs0].
    { split; [ | right; reflexivity]. intros [H _]. congruence. }
    generalize (c0 :: cs0) (@nil_cons _ c0 cs0). intros cs Hne.
    assert (Hne' : cs <> []) by congruence.
    destruct (first_unknown cs (names d)) as [c | ] eqn:Hk.
    + destruct (Nat.eqb_spec (length cs) (length (rows d))) as [Hl | Hl].
      * split; [ | reflexivity]. split; [assumption | right; assumption].
      * split; [ | left; eexists; reflexivity].
        intros [_ [H | H]]; [ | congruence].
        destruct (first_unknown_Some _ _ _ Hk) as [Hc Hn]. auto.
    + split; [ | reflexivity]. split; [assumption | left].
      apply first_unknown_None. assumption.
Qed.

(** X15: on a populated handler [try_get_groupby] changes nothing.  It
    succeeds exactly when the selected name is a column and the grouping
    is accepted: a single name that is a column, or a list that is not
    empty and either holds column names only or has one entry per row of
    the table (its entries are then the group values of the rows).  On
    success it returns the handle over the current table; otherwise
    [(False, KeyError)], or [(False, ValueError)] for the empty list. *)
Theorem get_groupby_spec
    (w : World) (d : DataFrame) (target_col : cols_arg) (col : string) :
  table w = Some d ->
  exists (b : bool) (p : payload),
    try_get_groupby target_col col w = (w, Returns (b, p))
    /\ (b = true <->
        match target_col with
        | Col c => In c (names d)
        | Cols cs =>
            cs <> []
            /\ ((forall c, In c cs -> In c (names d))
                \/ length cs = length (rows d))
        end
        /\ In col (names d))
    /\ (if b
        then p = Grouped (mkGroupBy d
                   (match first_unknown (as_list target_col) (names d) with
                    | None => ByColumns (as_list target_col)
                    | Some _ => ByValues (as_list target_col)
                    end) col)
        else exists e, p = Exc e
             /\ ((exists k, e = KeyError k)
                 \/ e = ValueError "No group keys passed!")).
Proof.
  intros Hd. rewrite (try_get_groupby_run w d target_col col Hd).
  unfold groupby_select.
  pose proof (grouper_spec d target_col) as Hg.
  destruct (grouper d target_col) as [ks | e]; cbn [obind].
  - destruct Hg as [Ha ->].
    destruct (mem col (names d)) eqn:Hm.
    + exists true. eexists. split; [reflexivity | ].
      split; [ | reflexivity].
      split; [intros _ | reflexivity].
      split; [assumption | apply mem_In; assumption].
    + exists false. eexists. split; [reflexivity | ].
      split.
      * split; [discriminate | ]. intros [_ H]. apply mem_In in H. congruence.
      * eexists. split; [reflexivity | left; eexists; reflexivity].
  - destruct Hg as [Hn He].
    exists false. eexists. split; [reflexivity | ].
    split.
    + split; [discriminate | ]. intros [H _]. contradiction.
    + eexists. split; [reflexivity | assumption].
Qed.

Lemma get_groupby_spec_witness :
  let w := populated (Some "data.csv") two_rows empty_fs in
  try_get_groupby (Col "a") "b" w
    = (w, Returns (true, Grouped (mkGroupBy two_rows (ByColumns ["a"]) "b")))
  /\ exists (b : bool) (p : payload),
       try_get_groupby (Col "a") "z" w = (w, Returns (b, p)).
Proof.
  split; [reflexivity | ].
  destruct (get_groupby_spec (populated (Some "data.csv") two_rows empty_fs)
              two_rows (Col "a") "z" eq_refl)
    as [b [p [H _]]].
  exists b, p. exact H.
Defined.

(** The empty list is refused; a list with one entry per row is taken as
    group values even when an entry names no column. *)
Example get_groupby_lists :
  let w := populated (Some "data.csv") two_rows empty_fs in
  try_get_groupby (Cols []) "b" w
    = (w, Returns (false, Exc (ValueError "No group keys passed!")))
  /\ try_get_groupby (Cols ["a"; "z"]) "b" w
     = (w, Returns (true, Grouped (mkGroupBy two_rows (ByValues ["a"; "z"]) "b")))
  /\ try_get_groupby (Cols ["z"]) "b" w
     = (w, Returns (false, Exc (KeyError "z"))).
Proof. repeat split. Qed.

(** ** [try_order_by]: the name of the index column *)

(** X18: on a table that has both a column index and a column level_0,
    [try_order_by] fails whatever its arguments and changes nothing: the
    index cannot be inserted under either name. *)
Theorem order_by_needs_a_free_name {np : Numpy}
    (w : World) (d : DataFrame) (cols : cols_arg) (asc : ascending_arg) :
  table w = Some d ->
  mem "index" (names d) = true ->
  mem "level_0" (names d) = true ->
  exists e : exn, try_order_by cols asc w = (w, Returns (false, Exc e)).
Proof.
  intros Hd Hi Hl. rewrite (try_order_by_run w d cols asc Hd).
  destruct (sort_values d (as_list cols) asc) as [s | e] eqn:Hs;
    [ | eexists; reflexivity].
  destruct (sort_values_returns d s _ _ Hs) as [ks [_ [Hc _]]].
  cbn [obind]. unfold reset_index, names. rewrite Hc. fold (names d).
  rewrite Hi, Hl. eexists. reflexivity.
Qed.

Lemma order_by_needs_a_free_name_witness :
  let o := try_order_by (Col "a") (AscAll true) in
  let w2 := fst (o (fst (o (populated (Some "data.csv") two_rows empty_fs)))) in
  exists e : exn, o w2 = (w2, Returns (false, Exc e)).
Proof.
  apply (order_by_needs_a_free_name
           (fst (try_order_by (Col "a") (AscAll true)
                   (fst (try_order_by (Col "a") (AscAll true)
                           (populated (Some "data.csv") two_rows empty_fs)))))
           (mkDF [("level_0", Numeric); ("index", Numeric);
                  ("a", Numeric); ("b", Numeric)]
                 [mkRow (range_label 0) [N 0; N 1; N 1; None];
                  mkRow (range_label 1) [N 1; N 0; N 3; N 1]])
           (Col "a") (AscAll true)).
  - reflexivity.
  - reflexivity.
  - reflexivity.
Defined.

(** ** What the methods leave alone *)

Ltac run_cases :=
  run_method;
  repeat (run_step; cbn [self __df fs stdout file_path fst snd]);
  try reflexivity.

Lemma run_keeps_path {np : Numpy} (o : operation) (w : World) :
  file_path (self (fst (run o w))) = file_path (self w)
  /\ stdout (fst (run o w)) = stdout w.
Proof. destruct o; run_cases; split; reflexivity. Qed.

Lemma run_keeps_files {np : Numpy} (o : operation) (w : World) :
  o <> OpSave -> fs (fst (run o w)) = fs w.
Proof. destruct o; intros Ho; try contradiction; run_cases. Qed.

Lemma save_keeps_file_at (w : World) (p : string) :
  file_path (self w) = Some p ->
  occurs ".csv" p = true ->
  files (fs (fst (try_save w))) p = files (fs w) p.
Proof.
  intros Hp Ho.
  unfold try_save, attempt, try_except, bind, ret, lift, get_file_path, df,
    py_to_csv, str_replace, to_csv.
  rewrite Hp.
  destruct (__df (self w)) as [d | ]; [ | reflexivity].
  destruct (writable (fs w) (replace ".csv" "_new.csv" p)); [ | reflexivity].
  cbn [fst fs files write_file].
  change (replace_from ".csv" "_new.csv" O p) with (replace ".csv" "_new.csv" p).
  destruct (String.eqb_spec p (replace ".csv" "_new.csv" p)) as [E | _];
    [ | reflexivity].
  exfalso. apply (save_path_differs p Ho). symmetry. exact E.
Qed.

(** X20: no [try_*] method changes the stored source path or prints, and
    none but [try_save] changes the file system. *)
Theorem operations_frame {np : Numpy} (o : operation) (w : World) :
  file_path (self (fst (run o w))) = file_path (self w)
  /\ stdout (fst (run o w)) = stdout w
  /\ (if match o with OpSave => true | _ => false end then True
      else fs (fst (run o w)) = fs w).
Proof.
  destruct (run_keeps_path o w) as [H1 H2].
  split; [assumption | ]. split; [assumption | ].
  destruct o; try exact I; apply run_keeps_files; discriminate.
Qed.

Lemma run_all_keeps_source {np : Numpy} (os : list operation) (w : World) (p : string) :
  file_path (self w) = Some p ->
  occurs ".csv" p = true ->
  file_path (self (run_all os w)) = Some p
  /\ files (fs (run_all os w)) p = files (fs w) p.
Proof.
  intros Hp Ho. revert w Hp.
  induction os as [ | o os IH]; intros w Hp; cbn; [split; [assumption | reflexivity] | ].
  fold (run_all os (fst (run o w))).
  assert (Hp' : file_path (self (fst (run o w))) = Some p).
  { destruct (run_keeps_path o w) as [H _]. rewrite H. assumption. }
  destruct (IH _ Hp') as [H1 H2]. split; [assumption | ].
  rewrite H2.
  assert (Ho' : {o = OpSave} + {o <> OpSave})
    by (destruct o; (left; reflexivity) || (right; discriminate)).
  destruct Ho' as [-> | Hne].
  - apply save_keeps_file_at; assumption.
  - rewrite (run_keeps_files o w Hne). reflexivity.
Qed.

(** X19: when the source path contains ".csv", no run of [try_*] calls
    changes the file at the source path, and a reload after the run
    succeeds with the table the file held before it, whatever the calls
    did to the table. *)
Theorem reload_restores_source {np : Numpy}
    (os : list operation) (w : World) (p : string) (d0 : DataFrame) :
  file_path (self w) = Some p ->
  occurs ".csv" p = true ->
  read_csv (fs w) (Some p) = Returns d0 ->
  let w' := run_all os w in
  files (fs w') p = files (fs w) p
  /\ snd (try_update_df None w') = Returns (true, PyNone)
  /\ table (fst (try_update_df None w')) = Some d0.
Proof.
  intros Hp Ho Hr. cbv zeta.
  destruct (run_all_keeps_source os w p Hp Ho) as [H1 H2].
  split; [assumption | ].
  assert (Hr' : read_csv (fs (run_all os w)) (Some p) = Returns d0).
  { rewrite <- Hr. unfold read_csv. rewrite H2. reflexivity. }
  unfold try_update_df, attempt, try_except, bind, ret, set_df, get_file_path,
    py_read_csv, table.
  rewrite H1, Hr'. split; reflexivity.
Qed.

Lemma reload_restores_source_witness :
  let w := fst (construct data_fs (Some "data.csv") None) in
  let os := [OpFillNan true; OpSave; OpOrderBy (Col "a") (AscAll true)] in
  table w = Some two_rows
  /\ table (run_all os w) <> Some two_rows
  /\ table (fst (try_update_df None (run_all os w))) = Some two_rows.
Proof.
  split; [reflexivity | ].
  split; [cbn; intros H; discriminate H | ].
  apply (reload_restores_source
           [OpFillNan true; OpSave; OpOrderBy (Col "a") (AscAll true)]
           (fst (construct data_fs (Some "data.csv") None))
           "data.csv" two_rows).
  - reflexivity.
  - reflexivity.
  - reflexivity.
Defined.

(** ** [try_add_col], column by column *)

Lemma has_duplicate_names (l : list string) :
  NoDup l -> has_duplicate (map Str l) = false.
Proof.
  induction 1 as [ | x l Hx _ IH]; cbn; [reflexivity | ].
  rewrite IH, orb_false_r.
  destruct (existsb (scalar_eqb (Str x)) (map Str l)) eqn:E; [ | reflexivity].
  exfalso. apply Hx. apply existsb_exists in E as [y [Hy He]].
  apply in_map_iff in Hy as [z [<- Hz]]. cbn in He.
  apply String.eqb_eq in He. subst. assumption.
Qed.

Lemma label_lookup_number (q : Q) (l : list string) (vs : list cell) :
  label_lookup (Num q) (combine (map Str l) vs) = None.
Proof.
  revert vs. induction l as [ | x l IH]; intros [ | v vs]; cbn;
    try reflexivity. apply IH.
Qed.

Lemma nth_replace_nth_missing (j : nat) (l : list cell) :
  nth j (replace_nth j None l) None = None.
Proof.
  revert j. induction l as [ | x l IH]; intros [ | j]; cbn; try reflexivity.
  apply IH.
Qed.

Lemma position_app_new (c : string) (l : list string) :
  position c l = None -> position c (l ++ [c]) = Some (length l).
Proof.
  induction l as [ | x l IH]; cbn.
  - intros _. rewrite String.eqb_refl. reflexivity.
  - destruct (String.eqb_spec c x); [discriminate | ].
    destruct (position c l); [discriminate | ].
    intros _. rewrite (IH eq_refl). reflexivity.
Qed.

Lemma length_apply_each (f : Series -> outcome cell) (ss : list Series)
    (vs : list cell) :
  apply_each f ss = Returns vs -> length vs = length ss.
Proof.
  intros H. apply apply_each_returns, Forall2_length in H. symmetry. assumption.
Qed.

(** X21: with axis 0 the results of [criteria] are labelled by the column
    names, not by the rows: on a well-formed table with at least one row
    and numbers for row labels, a successful
    [try_add_col target criteria 0] leaves every cell under [target]
    missing, whatever [criteria] returned. *)
Theorem add_col_per_column_is_missing
    (w w' : World) (d : DataFrame) (target : string)
    (criteria : Series -> outcome cell) (p : payload) :
  table w = Some d ->
  well_formed d ->
  rows d <> [] ->
  (forall r, In r (rows d) -> exists q, label r = Num q) ->
  try_add_col target criteria 0 w = (w', Returns (true, p)) ->
  exists d' : DataFrame,
    table w' = Some d'
    /\ row_count d' = row_count d
    /\ In target (names d')
    /\ forall r', In r' (rows d') -> get d' target r' = None.
Proof.
  unfold table. intros Hd [Hw Hn] Hne Hlab.
  unfold try_add_col, attempt, try_except, bind, ret, lift, df, set_df.
  rewrite Hd. unfold apply. cbn [Z.eqb].
  destruct (apply_each criteria _) as [vs | e] eqn:Ha; [ | no_success].
  cbn [obind]. rewrite Hd.
  apply length_apply_each in Ha.
  rewrite length_map, length_combine, length_seq in Ha.
  assert (Hlen : length (map Str (names d)) = length vs).
  { rewrite length_map, Ha. unfold names. rewrite length_map. lia. }
  set (s := combine (map Str (names d)) vs).
  assert (Hal : align d s = Returns (map (fun _ : Row => @None scalar) (rows d))).
  { unfold align, s. rewrite (map_fst_combine _ _ Hlen).
    assert (E : labels_eqb (map Str (names d)) (map label (rows d)) = false).
    { destruct (rows d) as [ | r rs] eqn:Hr; [contradiction | ].
      destruct (Hlab r (or_introl eq_refl)) as [q Hq].
      cbn [map]. rewrite Hq. destruct (names d); reflexivity. }
    rewrite E, (has_duplicate_names _ Hn). f_equal.
    apply map_ext_in. intros r Hr. destruct (Hlab r Hr) as [q ->].
    apply label_lookup_number. }
  unfold setitem. rewrite Hal. cbn [obind].
  assert (Hsnd : forall rc, In rc (combine (rows d) (map (fun _ : Row => @None scalar) (rows d)))
                   -> snd rc = None).
  { intros [r c] Hrc. apply in_combine_r in Hrc.
    apply in_map_iff in Hrc as [_ [<- _]]. reflexivity. }
  rewrite Forall_forall in Hw.
  destruct (position target (names d)) as [j | ] eqn:Hp;
    intros H; injection H as <- _; cbn [self __df];
    eexists; (split; [reflexivity | ]);
    (split; [unfold row_count; cbn [rows];
             rewrite length_map, length_combine, length_map; lia | ]).
  - unfold get, names. cbn [columns rows].
    rewrite map_fst_replace_nth. cbn [fst]. fold (names d).
    rewrite (replace_nth_position _ _ _ Hp), Hp. split.
    + destruct (position_Some _ _ _ Hp) as [Hx _].
      eapply nth_error_In. eassumption.
    + intros r' Hr'. apply in_map_iff in Hr' as [rc [<- Hrc]].
      unfold cell_at. cbn [values].
      pose proof (Hsnd rc Hrc) as E. destruct rc as [r c].
      cbn [fst snd] in *. subst c.
      apply nth_replace_nth_missing.
  - unfold get, names. cbn [columns rows].
    rewrite map_app. cbn [map fst]. fold (names d).
    rewrite (position_app_new _ _ Hp). split.
    + apply in_or_app. right. left. reflexivity.
    + intros r' Hr'. apply in_map_iff in Hr' as [rc [<- Hrc]].
      unfold cell_at. cbn [values].
      pose proof (Hsnd rc Hrc) as E. destruct rc as [r c].
      cbn [fst snd] in *. subst c.
      assert (Hwr : length (values r) = length (names d)).
      { unfold names. rewrite length_map. apply Hw.
        eapply in_combine_l. eassumption. }
      rewrite <- Hwr. rewrite app_nth2 by lia.
      rewrite Nat.sub_diag. reflexivity.
Qed.

Lemma add_col_per_column_is_missing_witness :
  let w := populated (Some "data.csv") two_rows empty_fs in
  let f := fun _ : Series => Returns (N 7) in
  well_formed two_rows
  /\ table (fst (try_add_col "c" f 0 w))
     = Some (mkDF [("a", Numeric); ("b", Numeric); ("c", Numeric)]
                  [mkRow (range_label 0) [N 3; N 1; None];
                   mkRow (range_label 1) [N 1; None; None]])
  /\ exists d' : DataFrame,
       table (fst (try_add_col "c" f 0 w)) = Some d' /\ In "c" (names d').
Proof.
  split; [prove_well_formed | ].
  split; [reflexivity | ].
  destruct (add_col_per_column_is_missing
              (populated (Some "data.csv") two_rows empty_fs)
              (fst (try_add_col "c" (fun _ : Series => Returns (N 7)) 0
                      (populated (Some "data.csv") two_rows empty_fs)))
              two_rows "c" (fun _ : Series => Returns (N 7)) PyNone)
    as [d' [Ht [_ [Hin _]]]].
  - reflexivity.
  - prove_well_formed.
  - discriminate.
  - intros r [<- | [<- | []]]; eexists; reflexivity.
  - reflexivity.
  - exists d'. split; assumption.
Defined.

(** ** [try_order_by]: missing values *)

(** The first key of a call is the position of the first name. *)
Lemma sort_keys_first (d : DataFrame) (c : string) (rest : list string)
    (asc : ascending_arg) (ks : list (nat * bool)) :
  sort_keys d (c :: rest) asc = Returns ks ->
  exists j a ks', ks = (j, a) :: ks' /\ position c (names d) = Some j.
Proof.
  unfold sort_keys.
  destruct (directions (length (c :: rest)) asc) as [ds | e] eqn:Hd;
    [ | no_success].
  apply length_directions in Hd. cbn [obind positions].
  destruct (position c (names d)) as [j | ]; [ | no_success].
  destruct (positions rest (names d)) as [js | e]; [ | no_success].
  cbn [obind]. destruct ds as [ | a ds]; [discriminate | ].
  intros H. injection H as <-. exists j, a, (combine js ds).
  split; reflexivity.
Qed.

Lemma ordered_missing_last (j : nat) (a : bool) (ks : list (nat * bool))
    (l : list Row) :
  ordered ((j, a) :: ks) l -> missing_last (column_at j l).
Proof.
  intros H. unfold missing_last. apply Sorted_StronglySorted.
  - intros x y z Hxy Hyz Hx. auto.
  - unfold ordered in H. induction H as [ | r l Hs IH Hr]; cbn; constructor.
    + assumption.
    + destruct Hr as [ | r' l' Hle]; cbn; constructor.
      unfold row_leb in Hle. cbn [compare_rows] in Hle.
      destruct (cell_at j r) as [x | ], (cell_at j r') as [y | ]; cbn in *;
        try discriminate; auto.
Qed.

(** X22: after a successful [try_order_by] the cells under the first
    sort column have the missing ones last, whatever the direction
    asked for. *)
Theorem order_by_missing_last {np : Numpy}
    (w w' : World) (d : DataFrame) (cols : cols_arg) (asc : ascending_arg)
    (c : string) (rest : list string) (p : payload) :
  table w = Some d ->
  as_list cols = c :: rest ->
  try_order_by cols asc w = (w', Returns (true, p)) ->
  exists d' : DataFrame,
    table w' = Some d'
    /\ In c (names d')
    /\ missing_last (map (get d' c) (rows d')).
Proof.
  intros Hd Hc. rewrite (try_order_by_run w d cols asc Hd), Hc.
  destruct (sort_values d (c :: rest) asc) as [s | e] eqn:Hs; [ | discriminate].
  destruct (sort_values_returns d s _ _ Hs) as [ks [Hk [Hcs [_ Ho]]]].
  cbn [obind]. unfold reset_index, names. rewrite Hcs. fold (names d).
  set (name := if mem "index" (names d) then "level_0" else "index").
  destruct (mem name (names d)) eqn:Hm; [discriminate | ].
  intros H. injection H as <- _. cbn [table self __df].
  destruct (sort_keys_first d c rest asc ks Hk) as [j [a [ks' [-> Hj]]]].
  assert (Hne : c <> name).
  { intros ->. destruct (position_Some _ _ _ Hj) as [Hx _].
    apply nth_error_In, mem_In in Hx. congruence. }
  eexists. split; [reflexivity | ].
  unfold get, names. cbn [columns rows map fst position]. fold (names d).
  destruct (String.eqb_spec c name) as [E | _]; [contradiction | ].
  rewrite Hj. split.
  - right. destruct (position_Some _ _ _ Hj) as [Hx _].
    eapply nth_error_In. eassumption.
  - change (missing_last
              (column_at (S j)
                 (relabel_from O (map label_to_cell (rows s))))).
    rewrite column_at_shift.
    eapply ordered_missing_last. eassumption.
Qed.

Lemma order_by_missing_last_witness :
  let w := populated (Some "data.csv") two_rows empty_fs in
  let w' := fst (try_order_by (Col "b") (AscAll false) w) in
  table w'
  = Some (mkDF [("index", Numeric); ("a", Numeric); ("b", Numeric)]
               [mkRow (range_label 0) [N 0; N 3; N 1];
                mkRow (range_label 1) [N 1; N 1; None]])
  /\ exists d' : DataFrame,
       table w' = Some d' /\ missing_last (map (get d' "b") (rows d')).
Proof.
  split; [reflexivity | ].
  destruct (order_by_missing_last
              (populated (Some "data.csv") two_rows empty_fs)
              (fst (try_order_by (Col "b") (AscAll false)
                      (populated (Some "data.csv") two_rows empty_fs)))
              two_rows (Col "b") (AscAll false) "b" [] PyNone
              eq_refl eq_refl eq_refl)
    as [d' [Ht [_ Hm]]].
  exists d'. split; assumption.
Defined.
(** * The result contract of the [try_*] methods *)

(** ** A failure and the table *)







(** ** What a call gives back *)






(** ** The anticipated errors *)







